(** * AdornedRulerPanel: the timeline ruler's play-region and scrub gestures

    A shallow embedding of the gesture logic of [src/AdornedRulerPanel.cpp]
    (Audacity's timeline ruler): the quick-play mouse state machine
    ([HandleQPClick], [HandleQPDrag], [HandleQPRelease], [QPHandle::Cancel]),
    the transport start policy ([StartQPPlay]), the guard of [SetPlayRegion],
    the scrub handle's click, the marker hit test and the two indicator
    overlays.

    Conventions.
    - A C++ [double] is a binary64 primitive float; [a < b] is
      [(a <? b)%float], [a > b] is [(b <? a)%float], [a >= b] is
      [(b <=? a)%float], so NaN and the infinities behave as in the program.
    - A C++ [int] (also [wxCoord]) is a [Z] kept in the 32-bit signed range by
      [wrap_int] after each arithmetic operation.
    - Calls into collaborators whose code lives in other files (transport,
      scrubber) are recorded in a call log; what those collaborators let the
      panel observe is gathered in the record [Env].
    - The quick-play handle ([QPHandle], [HandleQPClick], [HandleQPDrag],
      [HandleQPRelease]) stands between [#ifdef QUICK_PLAY_HANDLE] and
      [#endif], and line 539 undefines that macro; the handlers are embedded
      as they are written.
    - Requests to repaint ([Refresh], [Update]) are left out. *)

From Stdlib Require Import ZArith Bool List Lia Floats.
Import ListNotations.

Local Open Scope Z_scope.

(* ================================================================== *)
(** ** C++ scalars *)

Module Cxx.

Abbreviation double := float (only parsing).
Abbreviation int := Z (only parsing).

(** Two's complement reduction to 32 bits. *)
Definition wrap_int (z : Z) : int := (z + 2 ^ 31) mod 2 ^ 32 - 2 ^ 31.

Definition int_add (a b : int) : int := wrap_int (a + b).
Definition int_sub (a b : int) : int := wrap_int (a - b).
Definition int_mul (a b : int) : int := wrap_int (a * b).
(** [/] on [int] truncates toward zero. *)
Definition int_div (a b : int) : int := wrap_int (Z.quot a b).
(** [abs] from <cstdlib>. *)
Definition int_abs (a : int) : int := wrap_int (Z.abs a).

Definition in_int (z : Z) : Prop := - 2 ^ 31 <= z < 2 ^ 31.

(** [std::max(a, b)] is [(a < b) ? b : a]; [std::min(a, b)] is
    [(b < a) ? b : a]. *)
Definition max_double (a b : double) : double := if (a <? b)%float then b else a.
Definition min_double (a b : double) : double := if (b <? a)%float then b else a.
Definition max_int (a b : int) : int := if a <? b then b else a.
Definition min_int (a b : int) : int := if b <? a then b else a.

(** The binary64 value of the literal [0.001]. *)
Definition lit_0_001 : double := 0x1.0624dd2f1a9fcp-10%float.

(** The literal [-1] converted to [double]. *)
Definition minus_one : double := (-1)%float.

End Cxx.
Import Cxx.

(* ================================================================== *)
(** ** Collaborating types *)

(** The flags of [RefreshCode] that this file produces and tests.
    [RefreshCode] is a bit-flag enumeration declared in RefreshCode.h; a
    [Result] is the set of flags that are on. *)
Record Result := mkResult {
  DrawOverlays : bool;
  Cancelled : bool
}.

Definition RefreshCode_DrawOverlays : Result := mkResult true false.
Definition RefreshCode_Cancelled : Result := mkResult false true.
Definition RefreshNone : Result := mkResult false false.

(** Modelled from the spec: the class PlayRegion is declared in ViewInfo.h,
    which is not part of the sources at hand.  The spec gives it the
    attributes [start], [end] and [active], says that [Empty()] holds exactly
    when [end - start <= 0], that [Order()] swaps the bounds if
    [start > end], and that the bounds can be set together or one at a time.
    (The remembered last-active bounds are read by the painting code only and
    are left out.) *)
Record PlayRegion := mkPlayRegion {
  mStart : double;
  mEnd : double;
  mActive : bool
}.

Module PR.
Definition Active (r : PlayRegion) : bool := mActive r.
Definition GetStart (r : PlayRegion) : double := mStart r.
Definition GetEnd (r : PlayRegion) : double := mEnd r.
Definition Empty (r : PlayRegion) : bool := (mEnd r - mStart r <=? 0)%float.
Definition SetActive (a : bool) (r : PlayRegion) : PlayRegion :=
  mkPlayRegion (mStart r) (mEnd r) a.
Definition SetStart (s : double) (r : PlayRegion) : PlayRegion :=
  mkPlayRegion s (mEnd r) (mActive r).
Definition SetEnd (e : double) (r : PlayRegion) : PlayRegion :=
  mkPlayRegion (mStart r) e (mActive r).
Definition SetTimes (s e : double) (r : PlayRegion) : PlayRegion :=
  mkPlayRegion s e (mActive r).
Definition Order (r : PlayRegion) : PlayRegion :=
  if (mEnd r <? mStart r)%float
  then mkPlayRegion (mEnd r) (mStart r) (mActive r)
  else r.
End PR.

(** Modelled from the spec: the selection model (SelectedRegion, declared in
    SelectedRegion.h) offers get and set of its two bounds. *)
Record SelectedRegion := mkSelectedRegion {
  mT0 : double;
  mT1 : double
}.

Module SR.
Definition t0 (s : SelectedRegion) : double := mT0 s.
Definition t1 (s : SelectedRegion) : double := mT1 s.
Definition setT0 (t : double) (s : SelectedRegion) : SelectedRegion :=
  mkSelectedRegion t (mT1 s).
Definition setT1 (t : double) (s : SelectedRegion) : SelectedRegion :=
  mkSelectedRegion (mT0 s) t.
End SR.

(** [PlayMode], as far as this file names its values. *)
Inductive PlayMode := normalPlay | loopedPlay | cutPreviewPlay.

(** The play options as [StartQPPlay] shapes them: the [looped] argument
    that [DefaultPlayOptions(project, looped)] was called with, and the two
    members the function then assigns. *)
Record AudioIOStartStreamOptions := mkOptions {
  loopedArg : bool;
  pStartTime : option double;
  envelope : bool      (* false once [options.envelope = nullptr] ran *)
}.

Definition DefaultPlayOptions (looped : bool) : AudioIOStartStreamOptions :=
  mkOptions looped None true.

(** Calls into the transport and the scrubber, in program order. *)
Inductive Call :=
| ProjectAudioManager_Stop
| ProjectAudioManager_OnPause
| ProjectAudioManager_PlayPlayRegion
    (start finish : double) (options : AudioIOStartStreamOptions)
    (mode : PlayMode)
| Scrubber_MarkScrubStart (xx : int) (smoothScrolling seek : bool)
| Scrubber_Cancel.

Inductive MouseEventState :=
| mesNone
| mesDraggingPlayRegionStart
| mesDraggingPlayRegionEnd
| mesSelectingPlayRegionClick
| mesSelectingPlayRegionRange.

Definition mes_eqb (a b : MouseEventState) : bool :=
  match a, b with
  | mesNone, mesNone
  | mesDraggingPlayRegionStart, mesDraggingPlayRegionStart
  | mesDraggingPlayRegionEnd, mesDraggingPlayRegionEnd
  | mesSelectingPlayRegionClick, mesSelectingPlayRegionClick
  | mesSelectingPlayRegionRange, mesSelectingPlayRegionRange => true
  | _, _ => false
  end.

Inductive Cell := QPCell | ScrubbingCell.

Inductive Button := Button_None | Button_Left | Button_Right.

(** The part of a [wxMouseEvent] the handlers read. *)
Record wxMouseEvent := mkMouseEvent {
  m_x : int;
  LeftDown : bool;
  LeftIsDown : bool;
  ShiftDown : bool;
  ControlDown : bool
}.

(** The scrubber (tracks/ui/Scrubbing.h) as the ruler questions it. *)
Record Scrubber := mkScrubber {
  CanScrub : bool;
  HasMark : bool;
  IsScrubbing : bool;
  IsSpeedPlaying : bool;
  IsKeyboardScrubbing : bool;
  Seeks : bool;
  TemporarilySeeks : bool;
  ShowsBar : bool;
  ShouldScrubPinned : bool
}.

(** What the panel reads from its collaborators and from the members that
    the handlers below never write. *)
Record Env := mkEnv {
  (* ZoomInfo::PositionToTime(position, origin, ignoreFisheye) and
     ZoomInfo::TimeToPosition(time, origin, ignoreFisheye) *)
  PositionToTime : int -> int -> bool -> double;
  TimeToPosition : double -> int -> bool -> int;
  GetLeftOffset : int;
  GetTracksUsableWidth : int;
  (* SnapManager over the two bounds of the selection: Snap(NULL, t, false)
     gives results.outTime and results.Snapped() *)
  SnapManager_Snap : SelectedRegion -> double -> double * bool;
  (* mTracks->GetStartTime() and mTracks->GetEndTime() *)
  GetStartTime : double;
  GetEndTime : double;
  scrubber : Scrubber;
  IsAudioActive : bool;
  (* CellularPanel::LastCell() and whether CellularPanel::Target() is set *)
  LastCell : option Cell;
  Target : bool;
  mLeftOffset : int;
  mPlayRegionDragsSelection : bool;
  (* GetSize().GetHeight() of the ruler *)
  RulerHeight : int;
  (* whether ProjectAudioManager::Stop() delivers EVT_AUDIOIO_PLAYBACK with
     GetInt() == 0 to the panel before it returns *)
  StopDeliversPlaybackEvent : bool
}.

(** The members the handlers write: the project's play region and selection
    (in ViewInfo), the panel's gesture session, and the call log. *)
Record State := mkState {
  playRegion : PlayRegion;
  selectedRegion : SelectedRegion;
  mOldPlayRegion : PlayRegion;
  mMouseEventState : MouseEventState;
  mIsDragging : bool;
  mLeftDownClick : double;
  mLeftDownClickUnsnapped : double;
  mQuickPlayPos : double;
  mQuickPlayPosUnsnapped : double;
  mIsSnapped : bool;
  calls : list Call
}.

Definition set_playRegion (v : PlayRegion) (s : State) : State :=
  mkState v (selectedRegion s) (mOldPlayRegion s) (mMouseEventState s)
    (mIsDragging s) (mLeftDownClick s) (mLeftDownClickUnsnapped s)
    (mQuickPlayPos s) (mQuickPlayPosUnsnapped s) (mIsSnapped s) (calls s).

Definition set_selectedRegion (v : SelectedRegion) (s : State) : State :=
  mkState (playRegion s) v (mOldPlayRegion s) (mMouseEventState s)
    (mIsDragging s) (mLeftDownClick s) (mLeftDownClickUnsnapped s)
    (mQuickPlayPos s) (mQuickPlayPosUnsnapped s) (mIsSnapped s) (calls s).

Definition set_mOldPlayRegion (v : PlayRegion) (s : State) : State :=
  mkState (playRegion s) (selectedRegion s) v (mMouseEventState s)
    (mIsDragging s) (mLeftDownClick s) (mLeftDownClickUnsnapped s)
    (mQuickPlayPos s) (mQuickPlayPosUnsnapped s) (mIsSnapped s) (calls s).

Definition set_mMouseEventState (v : MouseEventState) (s : State) : State :=
  mkState (playRegion s) (selectedRegion s) (mOldPlayRegion s) v
    (mIsDragging s) (mLeftDownClick s) (mLeftDownClickUnsnapped s)
    (mQuickPlayPos s) (mQuickPlayPosUnsnapped s) (mIsSnapped s) (calls s).

Definition set_mIsDragging (v : bool) (s : State) : State :=
  mkState (playRegion s) (selectedRegion s) (mOldPlayRegion s)
    (mMouseEventState s) v (mLeftDownClick s) (mLeftDownClickUnsnapped s)
    (mQuickPlayPos s) (mQuickPlayPosUnsnapped s) (mIsSnapped s) (calls s).

Definition set_mLeftDownClick (v : double) (s : State) : State :=
  mkState (playRegion s) (selectedRegion s) (mOldPlayRegion s)
    (mMouseEventState s) (mIsDragging s) v (mLeftDownClickUnsnapped s)
    (mQuickPlayPos s) (mQuickPlayPosUnsnapped s) (mIsSnapped s) (calls s).

Definition set_mLeftDownClickUnsnapped (v : double) (s : State) : State :=
  mkState (playRegion s) (selectedRegion s) (mOldPlayRegion s)
    (mMouseEventState s) (mIsDragging s) (mLeftDownClick s) v
    (mQuickPlayPos s) (mQuickPlayPosUnsnapped s) (mIsSnapped s) (calls s).

Definition set_mQuickPlayPos (v : double) (s : State) : State :=
  mkState (playRegion s) (selectedRegion s) (mOldPlayRegion s)
    (mMouseEventState s) (mIsDragging s) (mLeftDownClick s)
    (mLeftDownClickUnsnapped s) v (mQuickPlayPosUnsnapped s) (mIsSnapped s)
    (calls s).

Definition set_mQuickPlayPosUnsnapped (v : double) (s : State) : State :=
  mkState (playRegion s) (selectedRegion s) (mOldPlayRegion s)
    (mMouseEventState s) (mIsDragging s) (mLeftDownClick s)
    (mLeftDownClickUnsnapped s) (mQuickPlayPos s) v (mIsSnapped s) (calls s).

Definition set_mIsSnapped (v : bool) (s : State) : State :=
  mkState (playRegion s) (selectedRegion s) (mOldPlayRegion s)
    (mMouseEventState s) (mIsDragging s) (mLeftDownClick s)
    (mLeftDownClickUnsnapped s) (mQuickPlayPos s) (mQuickPlayPosUnsnapped s)
    v (calls s).

(** Appends a collaborator call to the log. *)
Definition call (c : Call) (s : State) : State :=
  mkState (playRegion s) (selectedRegion s) (mOldPlayRegion s)
    (mMouseEventState s) (mIsDragging s) (mLeftDownClick s)
    (mLeftDownClickUnsnapped s) (mQuickPlayPos s) (mQuickPlayPosUnsnapped s)
    (mIsSnapped s) (calls s ++ [c]).

(* ================================================================== *)
(** ** The panel *)

(** [#define SELECT_TOLERANCE_PIXEL 4] *)
Definition SELECT_TOLERANCE_PIXEL : int := 4.

(** [Pos2Time] and [Time2Pos], with [ignoreFisheye] at the default [false]
    that every call in this file leaves it at. *)
Definition Pos2Time (env : Env) (p : int) : double :=
  PositionToTime env p (mLeftOffset env) false.

Definition Time2Pos (env : Env) (t : double) : int :=
  TimeToPosition env t (mLeftOffset env) false.

Definition IsWithinMarker (env : Env) (mousePosX : int) (markerTime : double)
  : bool :=
  if (markerTime <? 0)%float then false
  else
    let pixelPos := Time2Pos env markerTime in
    let boundLeft := int_sub pixelPos SELECT_TOLERANCE_PIXEL in
    let boundRight := int_add pixelPos SELECT_TOLERANCE_PIXEL in
    (boundLeft <=? mousePosX) && (mousePosX <? boundRight).

(** [SetPlayRegion]: ignored while a gesture is live. *)
Definition SetPlayRegion (playRegionStart playRegionEnd : double) (s : State)
  : State :=
  if negb (mes_eqb (mMouseEventState s) mesNone) then s
  else
    set_playRegion (PR.SetTimes playRegionStart playRegionEnd (playRegion s)) s.

Definition DoSelectionChange (sel : SelectedRegion) (s : State) : State :=
  if negb (PR.Active (playRegion s))
  then SetPlayRegion (SR.t0 sel) (SR.t1 sel) s
  else s.

(** [OnAudioStartStop] for an EVT_AUDIOIO_PLAYBACK event; [evtInt] says
    whether [evt.GetInt()] is non-zero. *)
Definition OnAudioStartStop_playback (evtInt : bool) (s : State) : State :=
  if negb evtInt then DoSelectionChange (selectedRegion s) s else s.

(** Modelled from the spec: [ProjectAudioManager::Stop()], whose code is in
    ProjectAudioManager.cpp.  The spec has the transport take requests
    without answering them, so the call is logged.  The comment in
    [StartQPPlay] warns that "an event callback may change the play region
    back to the selection": depending on [StopDeliversPlaybackEvent], the
    stop also runs the handler that the constructor binds to
    EVT_AUDIOIO_PLAYBACK. *)
Definition Stop (env : Env) (s : State) : State :=
  let s := call ProjectAudioManager_Stop s in
  if StopDeliversPlaybackEvent env
  then OnAudioStartStop_playback false s
  else s.

(** Modelled from the spec: a write to the selection model ("get/set
    [t0,t1], change notification"; its code is in ViewInfo.cpp).  The
    constructor binds [OnSelectionChange] to EVT_SELECTED_REGION_CHANGE, which
    calls [DoSelectionChange] on the new selection. *)
Definition write_selectedRegion (sel : SelectedRegion) (s : State) : State :=
  DoSelectionChange sel (set_selectedRegion sel s).

(** Modelled from the spec: [SelectUtilities::InactivatePlayRegion] and
    [SelectUtilities::ActivatePlayRegion] (SelectUtilities.cpp) deactivate
    the region for the time of the gesture and re-activate it. *)
Definition InactivatePlayRegion (s : State) : State :=
  set_playRegion (PR.SetActive false (playRegion s)) s.

Definition ActivatePlayRegion (s : State) : State :=
  set_playRegion (PR.SetActive true (playRegion s)) s.

Definition ClearPlayRegion (env : Env) (s : State) : State :=
  let s := Stop env s in
  set_playRegion (PR.SetTimes minus_one minus_one (playRegion s)) s.

Definition DragSelection (s : State) : State :=
  let s :=
    write_selectedRegion
      (SR.setT0 (PR.GetStart (playRegion s)) (selectedRegion s)) s in
  write_selectedRegion
    (SR.setT1 (PR.GetEnd (playRegion s)) (selectedRegion s)) s.

Definition HandleSnapping (env : Env) (s : State) : State :=
  let results := SnapManager_Snap env (selectedRegion s) (mQuickPlayPos s) in
  let s := set_mQuickPlayPos (fst results) s in
  set_mIsSnapped (snd results) s.

(** [UpdateQuickPlayPos(wxCoord &mousePosX, bool shiftDown)]; the clamped
    [mousePosX] is returned next to the state.  [qpClicked] is
    [mQPCell->Clicked()]. *)
Definition UpdateQuickPlayPos (env : Env) (mousePosX : int) (shiftDown : bool)
    (qpClicked : bool) (s : State) : int * State :=
  let width := GetTracksUsableWidth env in
  let mousePosX := max_int mousePosX (GetLeftOffset env) in
  let mousePosX :=
    min_int mousePosX (int_sub (int_add (GetLeftOffset env) width) 1) in
  let s := set_mQuickPlayPos (Pos2Time env mousePosX) s in
  let s := set_mQuickPlayPosUnsnapped (mQuickPlayPos s) s in
  let s := HandleSnapping env s in
  let inQP := match LastCell env with Some QPCell => true | _ => false end in
  if (inQP || qpClicked) && negb shiftDown then
    let t1 := GetEndTime env in
    (mousePosX, set_mQuickPlayPos (min_double t1 (mQuickPlayPos s)) s)
  else (mousePosX, s).

(** [HandleQPClick(evt, mousePosX)]. *)
Definition HandleQPClick (env : Env) (evt : wxMouseEvent) (mousePosX : int)
    (s : State) : State :=
  (* Temporarily inactivate play region *)
  let s :=
    if PR.Active (mOldPlayRegion s) && LeftDown evt
    then InactivatePlayRegion s else s in
  let s := set_mLeftDownClickUnsnapped (mQuickPlayPosUnsnapped s) s in
  let s := set_mLeftDownClick (mQuickPlayPos s) s in
  let isWithinStart :=
    IsWithinMarker env mousePosX (PR.GetStart (mOldPlayRegion s)) in
  let isWithinEnd :=
    IsWithinMarker env mousePosX (PR.GetEnd (mOldPlayRegion s)) in
  if isWithinStart || isWithinEnd then
    if PR.Empty (mOldPlayRegion s)
    then set_mMouseEventState mesSelectingPlayRegionClick s
    else
      let start := PR.GetStart (mOldPlayRegion s) in
      let end_ := PR.GetEnd (mOldPlayRegion s) in
      if int_abs (int_sub (Time2Pos env (mQuickPlayPos s)) (Time2Pos env start))
         <? int_abs (int_sub (Time2Pos env (mQuickPlayPos s)) (Time2Pos env end_))
      then set_mMouseEventState mesDraggingPlayRegionStart s
      else set_mMouseEventState mesDraggingPlayRegionEnd s
  else
    (* Clicked but not yet dragging *)
    set_mMouseEventState mesSelectingPlayRegionClick s.

(** [HandleQPDrag(event, mousePosX)]; the closing [Refresh(); Update();] only
    ask for a repaint. *)
Definition HandleQPDrag (env : Env) (mousePosX : int) (s : State) : State :=
  let isWithinClick :=
    (0 <=? mLeftDownClickUnsnapped s)%float
    && IsWithinMarker env mousePosX (mLeftDownClickUnsnapped s) in
  let isWithinStart :=
    IsWithinMarker env mousePosX (PR.GetStart (mOldPlayRegion s)) in
  let isWithinEnd :=
    IsWithinMarker env mousePosX (PR.GetEnd (mOldPlayRegion s)) in
  let canDragSel :=
    negb (PR.Active (mOldPlayRegion s)) && mPlayRegionDragsSelection env in
  let oldStart := PR.GetStart (mOldPlayRegion s) in
  let oldEnd := PR.GetEnd (mOldPlayRegion s) in
  match mMouseEventState s with
  | mesNone =>
      (* If close to either end of play region, snap to closest *)
      if isWithinStart || isWithinEnd then
        if (abs (mQuickPlayPos s - oldStart) <? abs (mQuickPlayPos s - oldEnd))%float
        then set_mQuickPlayPos oldStart s
        else set_mQuickPlayPos oldEnd s
      else s
  | mesDraggingPlayRegionStart =>
      let s :=
        if negb (mIsDragging s) && isWithinStart
        then set_mQuickPlayPos oldStart s
        else set_mIsDragging true s in
      let s := if isWithinEnd then set_mQuickPlayPos oldEnd s else s in
      let s := set_playRegion (PR.SetStart (mQuickPlayPos s) (playRegion s)) s in
      if canDragSel then DragSelection s else s
  | mesDraggingPlayRegionEnd =>
      let s :=
        if negb (mIsDragging s) && isWithinEnd
        then set_mQuickPlayPos oldEnd s
        else set_mIsDragging true s in
      let s := if isWithinStart then set_mQuickPlayPos oldStart s else s in
      let s := set_playRegion (PR.SetEnd (mQuickPlayPos s) (playRegion s)) s in
      if canDragSel then DragSelection s else s
  | mesSelectingPlayRegionClick =>
      if isWithinClick || (mLeftDownClick s =? minus_one)%float then
        let s := set_mQuickPlayPos (mLeftDownClick s) s in
        set_playRegion
          (PR.SetTimes (mLeftDownClick s) (mLeftDownClick s) (playRegion s)) s
      else set_mMouseEventState mesSelectingPlayRegionRange s
  | mesSelectingPlayRegionRange =>
      let s :=
        if isWithinClick then set_mQuickPlayPos (mLeftDownClick s) s else s in
      let s :=
        if (mQuickPlayPos s <? mLeftDownClick s)%float
        then set_playRegion
               (PR.SetTimes (mQuickPlayPos s) (mLeftDownClick s) (playRegion s)) s
        else set_playRegion
               (PR.SetTimes (mLeftDownClick s) (mQuickPlayPos s) (playRegion s)) s in
      if canDragSel then DragSelection s else s
  end.

(** *** StartQPPlay *)

(** Lines 1719-1734: the span that will be played. *)
Definition StartQPPlay_span (env : Env) (looped : bool) (s : State)
  : double * double :=
  let t0 := GetStartTime env in
  let t1 := GetEndTime env in
  let sel0 := SR.t0 (selectedRegion s) in
  let sel1 := SR.t1 (selectedRegion s) in
  if PR.Empty (playRegion s) && looped then
    (* Loop play a point will loop either a selection or the project. *)
    if (sel0 <? PR.GetStart (playRegion s))%float
       && (PR.GetStart (playRegion s) <? sel1)%float
    then (sel0, sel1)
    else (t0, t1)
  else (PR.GetStart (playRegion s), PR.GetEnd (playRegion s)).

(** Line 1736: [loopEnabled = ((end - start) > 0.001)? true : false]. *)
Definition StartQPPlay_loopEnabled (start end_ : double) : bool :=
  (lit_0_001 <? end_ - start)%float.

(** [StartQPPlay(looped, cutPreview)].

    Line 1738, [bool looped = (loopEnabled && looped);], declares a new
    [looped] local to the block, and in C++ that name is in scope in its own
    initialiser: the right-hand [looped] is the new, not yet initialised
    variable, not the parameter.  Its value is indeterminate; it enters the
    embedding as the argument [looped_self], read only when [loopEnabled]
    holds, as [&&] evaluates.  The parameter [looped] is what line 1719
    tests. *)
Definition StartQPPlay (env : Env) (looped cutPreview : bool)
    (looped_self : bool) (s : State) : State :=
  (* Start / Restart playback on left click. *)
  let startPlaying := (0 <=? PR.GetStart (playRegion s))%float in
  if startPlaying then
    let '(start, end_) := StartQPPlay_span env looped s in
    (* Looping a tiny selection may freeze, so just play it once. *)
    let loopEnabled := StartQPPlay_loopEnabled start end_ in
    let looped := loopEnabled && looped_self in
    let cutPreview := if looped then false else cutPreview in
    let options := DefaultPlayOptions looped in
    let oldStart := PR.GetStart (playRegion s) in
    let options :=
      if negb cutPreview
      then mkOptions (loopedArg options) (Some oldStart) (envelope options)
      else mkOptions (loopedArg options) (pStartTime options) false in
    let mode :=
      if cutPreview then cutPreviewPlay
      else if looped then loopedPlay
      else normalPlay in
    (* Stop only after deciding where to start again *)
    let s := Stop env s in
    (* Change play region display while playing *)
    let s := set_playRegion (PR.SetTimes start end_ (playRegion s)) s in
    call (ProjectAudioManager_PlayPlayRegion start end_ options mode) s
  else s.

(** *** HandleQPRelease *)

(** Lines 1628-1660: the region is ordered and then kept or cleared. *)
Definition HandleQPRelease_validate (env : Env) (evt : wxMouseEvent)
    (s : State) : State :=
  let s := set_playRegion (PR.Order (playRegion s)) s in
  let t0 := GetStartTime env in
  let t1 := GetEndTime env in
  let sel0 := SR.t0 (selectedRegion s) in
  let sel1 := SR.t1 (selectedRegion s) in
  if ShiftDown evt && PR.Empty (playRegion s) then
    (* Looping the selection or project. *)
    if ((sel1 <? t0)%float || (t1 <? sel0)%float)
       && ((PR.GetStart (playRegion s) <? t0)%float
           || (t1 <? PR.GetStart (playRegion s))%float)
    then ClearPlayRegion env s
    else s
  (* Disable if beyond end. *)
  else if (t1 <=? PR.GetStart (playRegion s))%float then
    ClearPlayRegion env s
  (* Disable if empty selection before start. *)
  else if (0 <? PR.GetEnd (playRegion s) - PR.GetStart (playRegion s))%float
          && (PR.GetEnd (playRegion s) <? t0)%float
  then ClearPlayRegion env s
  else s.

(** [HandleQPRelease(evt)]; [looped_self] is handed on to [StartQPPlay].
    The [finally] block runs when the function is left, after
    [StartQPPlay]. *)
Definition HandleQPRelease (env : Env) (evt : wxMouseEvent)
    (looped_self : bool) (s : State) : State :=
  let s := HandleQPRelease_validate env evt s in
  let s := set_mMouseEventState mesNone s in
  let s := set_mIsDragging false s in
  let s := set_mLeftDownClick minus_one s in
  let s := StartQPPlay env (ShiftDown evt) (ControlDown evt) looped_self s in
  if PR.Active (mOldPlayRegion s) then
    (* Restore Locked Play region *)
    let s :=
      SetPlayRegion (PR.GetStart (mOldPlayRegion s))
        (PR.GetEnd (mOldPlayRegion s)) s in
    let s := ActivatePlayRegion s in
    (* and release local lock *)
    set_mOldPlayRegion (PR.SetActive false (mOldPlayRegion s)) s
  else s.

(* ================================================================== *)
(** ** Mouse handles *)

(** [CommonRulerHandle].  [mParent] is a weak reference to the panel: [true]
    while the panel is alive. *)
Record CommonRulerHandle := mkHandle {
  mParent : bool;
  mX : int;
  mClicked : Button
}.

Definition is_left (b : Button) : bool :=
  match b with Button_Left => true | _ => false end.

Definition Clicked (h : CommonRulerHandle) : bool :=
  match mClicked h with Button_None => false | _ => true end.

Definition CommonRulerHandle_Click (evt : wxMouseEvent) (h : CommonRulerHandle)
  : Result * CommonRulerHandle :=
  (RefreshCode_DrawOverlays,
   mkHandle (mParent h) (mX h)
     (if LeftIsDown evt then Button_Left else Button_Right)).

Definition CommonRulerHandle_Drag : Result := RefreshCode_DrawOverlays.

Definition CommonRulerHandle_Cancel : Result := RefreshCode_DrawOverlays.

(** [QPHandle]: a [CommonRulerHandle] with the selection saved at the click. *)
Record QPHandle := mkQPHandle {
  common : CommonRulerHandle;
  mOldSelection : SelectedRegion
}.

Definition QPHandle_Click (env : Env) (evt : wxMouseEvent) (h : QPHandle)
    (s : State) : Result * QPHandle * State :=
  let '(result, c) := CommonRulerHandle_Click evt (common h) in
  let h := mkQPHandle c (mOldSelection h) in
  if negb (Cancelled result) then
    if is_left (mClicked (common h)) then
      if negb (mParent (common h)) then (RefreshCode_Cancelled, h, s)
      else
        let s :=
          if HasMark (scrubber env)
          then call ProjectAudioManager_OnPause s else s in
        (* Store the initial play region state *)
        let s := set_mOldPlayRegion (playRegion s) s in
        (* Save old selection, in case drag of selection is cancelled *)
        let h := mkQPHandle (common h) (selectedRegion s) in
        let s := HandleQPClick env evt (mX (common h)) s in
        let s := HandleQPDrag env (mX (common h)) s in
        (result, h, s)
    else (result, h, s)
  else (result, h, s).

Definition QPHandle_Drag (env : Env) (evt : wxMouseEvent) (h : QPHandle)
    (s : State) : Result * QPHandle * State :=
  let result := CommonRulerHandle_Drag in
  if negb (Cancelled result) then
    if is_left (mClicked (common h)) then
      if mParent (common h) then
        let '(x, s) :=
          UpdateQuickPlayPos env (m_x evt) (ShiftDown evt)
            (Clicked (common h)) s in
        let h :=
          mkQPHandle (mkHandle (mParent (common h)) x (mClicked (common h)))
            (mOldSelection h) in
        let s := HandleQPDrag env (mX (common h)) s in
        (result, h, s)
      else (result, h, s)
    else (result, h, s)
  else (result, h, s).

Definition QPHandle_Cancel (h : QPHandle) (s : State)
  : Result * QPHandle * State :=
  let result := CommonRulerHandle_Cancel in
  if is_left (mClicked (common h)) then
    if mParent (common h) then
      let s := write_selectedRegion (mOldSelection h) s in
      let s := set_mMouseEventState mesNone s in
      let s :=
        SetPlayRegion (PR.GetStart (mOldPlayRegion s))
          (PR.GetEnd (mOldPlayRegion s)) s in
      if PR.Active (mOldPlayRegion s) then
        (* Restore Locked Play region *)
        let s := ActivatePlayRegion s in
        (* and release local lock *)
        (result, h,
         set_mOldPlayRegion (PR.SetActive false (mOldPlayRegion s)) s)
      else (result, h, s)
    else (result, h, s)
  else (result, h, s).

(** A gesture on the quick-play handle: the drags that follow the click. *)
Fixpoint QPHandle_Drags (env : Env) (evts : list wxMouseEvent) (h : QPHandle)
    (s : State) : QPHandle * State :=
  match evts with
  | [] => (h, s)
  | evt :: evts =>
      let '(_, h, s) := QPHandle_Drag env evt h s in
      QPHandle_Drags env evts h s
  end.

Definition ShowingScrubRuler (env : Env) : bool := ShowsBar (scrubber env).

(** [ScrubbingHandle::Click]. *)
Definition ScrubbingHandle_Click (env : Env) (evt : wxMouseEvent)
    (h : CommonRulerHandle) (s : State) : Result * CommonRulerHandle * State :=
  let '(result, h) := CommonRulerHandle_Click evt h in
  if negb (Cancelled result) then
    if is_left (mClicked h) then
      (* only if scrubbing is allowed now *)
      let canScrub :=
        CanScrub (scrubber env) && mParent h && ShowingScrubRuler env in
      if negb canScrub then (RefreshCode_Cancelled, h, s)
      else if negb (HasMark (scrubber env)) then
        (* Asynchronous scrub poller gets activated here *)
        (result, h,
         call (Scrubber_MarkScrubStart (m_x evt)
                 (ShouldScrubPinned (scrubber env)) false) s)
      else (result, h, s)
    else (result, h, s)
  else (result, h, s).

(* ================================================================== *)
(** ** Indicator overlays *)

Definition IndicatorSmallWidth : int := 9.
Definition IndicatorMediumWidth : int := 13.
Definition TopMargin : int := 1.
Definition ScrubHeight : int := 14.

Definition IndicatorWidthForHeight (height : int) : int :=
  max_int IndicatorSmallWidth (int_mul (int_div (int_mul height 2) 3) 2).

Definition IndicatorBigHeight : int :=
  max_int (int_sub ScrubHeight TopMargin) IndicatorMediumWidth.

Definition IndicatorBigWidth : int := IndicatorWidthForHeight IndicatorBigHeight.

Record wxRect := mkRect {
  rect_x : int;
  rect_y : int;
  rect_width : int;
  rect_height : int
}.

Definition GetTop (r : wxRect) : int := rect_y r.
Definition GetBottom (r : wxRect) : int :=
  int_sub (int_add (rect_y r) (rect_height r)) 1.

(** The overlay drawn on the ruler. *)
Module ScrubbingRulerOverlay.

Record t := mk {
  mNewQPIndicatorPos : int;
  mNewScrub : bool;
  mNewSeek : bool;
  mOldQPIndicatorPos : int;
  mOldScrub : bool;
  mOldSeek : bool
}.

(** Member initialisers of the class. *)
Definition init : t := mk (-1) false false (-1) false false.

Definition Update (env : Env) (s : State) (o : t) : t :=
  let sc := scrubber env in
  let scrubbing :=
    IsScrubbing sc && negb (IsSpeedPlaying sc)
    && negb (IsKeyboardScrubbing sc) in
  let noLastCell := match LastCell env with None => true | _ => false end in
  (* Hide during transport, or if mouse is not in the ruler, unless
     scrubbing *)
  if (noLastCell || IsAudioActive env) && negb scrubbing then
    mk (-1) (mNewScrub o) (mNewSeek o)
      (mOldQPIndicatorPos o) (mOldScrub o) (mOldSeek o)
  else
    let latestEnd := max_double (GetEndTime env) (SR.t1 (selectedRegion s)) in
    if (latestEnd <=? mQuickPlayPos s)%float then
      mk (-1) (mNewScrub o) (mNewSeek o)
        (mOldQPIndicatorPos o) (mOldScrub o) (mOldSeek o)
    else
      let newScrub :=
        negb (Target env)
        && (match LastCell env with Some ScrubbingCell => true | _ => false end
            || HasMark sc) in
      let newSeek := newScrub && (Seeks sc || TemporarilySeeks sc) in
      mk (Time2Pos env (mQuickPlayPos s)) newScrub newSeek
        (mOldQPIndicatorPos o) (mOldScrub o) (mOldSeek o).

Definition DoGetRectangle (env : Env) (s : State) (o : t)
  : (wxRect * bool) * t :=
  let o := Update env s o in
  let x := mOldQPIndicatorPos o in
  if 0 <=? x then
    let width := int_div (int_mul IndicatorBigWidth 3) 2 in
    let indsize := int_div width 2 in
    let xx := int_sub x indsize in
    let yy := 0 in
    ((mkRect xx yy (int_add (int_mul indsize 2) 1) (RulerHeight env),
      negb (x =? mNewQPIndicatorPos o)
      || negb (Bool.eqb (mOldScrub o) (mNewScrub o))
      || negb (Bool.eqb (mOldSeek o) (mNewSeek o))),
     o)
  else ((mkRect 0 0 0 0, 0 <=? mNewQPIndicatorPos o), o).

(** [Draw]: commits the new state; the second component is the call of
    [DoDrawScrubIndicator(dc, xx, width, scrub, seek)], if one is made. *)
Definition Draw (o : t) : t * option (int * int * bool * bool) :=
  let o :=
    mk (mNewQPIndicatorPos o) (mNewScrub o) (mNewSeek o)
      (mNewQPIndicatorPos o) (mNewScrub o) (mNewSeek o) in
  if 0 <=? mOldQPIndicatorPos o then
    let width :=
      if mOldScrub o then IndicatorBigWidth else IndicatorSmallWidth in
    (o, Some (mOldQPIndicatorPos o, width, mOldScrub o, mOldSeek o))
  else (o, None).

End ScrubbingRulerOverlay.

Inductive Pen := IndicatorColor | SnapGuidePen | Light.

(** The overlay drawn on the track panel.  It owns its partner, the ruler
    overlay, which both panels reach through this one object. *)
Module TrackPanelGuidelineOverlay.

Record t := mk {
  mPartner : ScrubbingRulerOverlay.t;
  mNewIndicatorSnapped : bool;
  mNewPreviewingScrub : bool;
  mOldQPIndicatorPos : int;
  mOldIndicatorSnapped : bool;
  mOldPreviewingScrub : bool
}.

Definition init : t :=
  mk ScrubbingRulerOverlay.init false false (-1) false false.

(** Runs a method of the partner on the shared partner object. *)
Definition on_partner {A : Type}
    (f : ScrubbingRulerOverlay.t -> A * ScrubbingRulerOverlay.t) (g : t)
  : A * t :=
  let '(a, p) := f (mPartner g) in
  (a, mk p (mNewIndicatorSnapped g) (mNewPreviewingScrub g)
        (mOldQPIndicatorPos g) (mOldIndicatorSnapped g)
        (mOldPreviewingScrub g)).

Definition Update (env : Env) (s : State) (g : t) : t :=
  let newPreviewingScrub :=
    match LastCell env with Some ScrubbingCell => true | _ => false end
    && negb (IsScrubbing (scrubber env)) in
  mk (mPartner g) (mIsSnapped s) newPreviewingScrub
    (mOldQPIndicatorPos g) (mOldIndicatorSnapped g) (mOldPreviewingScrub g).

(** [DoGetRectangle(size)]; [height] is [size.GetHeight()]. *)
Definition DoGetRectangle (env : Env) (s : State) (height : int) (g : t)
  : (wxRect * bool) * t :=
  let g := Update env s g in
  let rect := mkRect (mOldQPIndicatorPos g) 0 1 height in
  ((rect,
    negb (mOldQPIndicatorPos g
          =? ScrubbingRulerOverlay.mNewQPIndicatorPos (mPartner g))
    || negb (Bool.eqb (mOldIndicatorSnapped g) (mNewIndicatorSnapped g))
    || negb (Bool.eqb (mOldPreviewingScrub g) (mNewPreviewingScrub g))),
   g).

(** [Draw(panel, dc)].  [cells] is [None] if [panel] is no [CellularPanel];
    otherwise it lists the rectangles of the visited cells, each with
    whether the cell is a [TrackView].  The result lists the lines stroked,
    as pen, x, top and bottom. *)
Definition Draw (cells : option (list (wxRect * bool))) (g : t)
  : t * list (Pen * int * int * int) :=
  let g :=
    mk (mPartner g) (mNewIndicatorSnapped g) (mNewPreviewingScrub g)
      (ScrubbingRulerOverlay.mNewQPIndicatorPos (mPartner g))
      (mNewIndicatorSnapped g) (mNewPreviewingScrub g) in
  if 0 <=? mOldQPIndicatorPos g then
    let pen :=
      if mOldPreviewingScrub g then IndicatorColor
      else if mOldIndicatorSnapped g then SnapGuidePen
      else Light in
    match cells with
    | None => (g, [])
    | Some cells =>
        (g,
         flat_map
           (fun c : wxRect * bool =>
              if snd c
              then [(pen, mOldQPIndicatorPos g, GetTop (fst c),
                     GetBottom (fst c))]
              else [])
           cells)
    end
  else (g, []).

End TrackPanelGuidelineOverlay.

(* ================================================================== *)
(** ** A sample view for concrete runs *)

(** Largest integer not above a finite binary64 value; [0] for the others. *)
Definition floor_double (f : double) : Z :=
  match Prim2SF f with
  | S754_finite sg m e =>
      let v := if sg then Z.neg m else Z.pos m in
      if 0 <=? e then v * 2 ^ e else v / 2 ^ (- e)
  | _ => 0
  end.

(** A view at 100 pixels per second with time 0 at the origin. *)
Definition sample_TimeToPosition (t : double) (origin : int) (_ : bool) : int :=
  wrap_int (floor_double (0.5 + 100 * t)%float + origin).

Definition sample_PositionToTime (p : int) (origin : int) (_ : bool) : double :=
  (of_uint63 (Uint63.of_Z (p - origin)) / 100)%float.

Definition sample_scrubber : Scrubber :=
  mkScrubber true false false false false false false true false.

(** Tracks from 0 to 10 seconds, pointer over the quick-play cell, no
    transport, no snapping. *)
Definition sample_env : Env :=
  mkEnv sample_PositionToTime sample_TimeToPosition 0 1000
    (fun _ t => (t, false)) 0%float 10%float sample_scrubber false
    (Some QPCell) false 0 false 28 true.

Definition sample_state (region : PlayRegion) (sel : SelectedRegion) : State :=
  mkState region sel region mesNone false minus_one minus_one
    0%float 0%float false [].

(** The mode of the most recent [PlayPlayRegion] call in the log. *)
Definition last_play_mode (s : State) : option PlayMode :=
  match last (calls s) ProjectAudioManager_Stop with
  | ProjectAudioManager_PlayPlayRegion _ _ _ mode => Some mode
  | _ => None
  end.

(** The release policy in the words of the specification, as one chain:
    clear if shift is held, the region is empty, the selection lies outside
    the tracks and so does the region's start; else clear if the start is at
    or after the tracks' end; else clear if the region is not empty and ends
    before the tracks' start. *)
Definition spec_release_clears (env : Env) (evt : wxMouseEvent) (s : State)
  : bool :=
  let t0 := GetStartTime env in
  let t1 := GetEndTime env in
  let sel0 := SR.t0 (selectedRegion s) in
  let sel1 := SR.t1 (selectedRegion s) in
  let r := playRegion s in
  if ShiftDown evt && PR.Empty r
     && ((sel1 <? t0)%float || (t1 <? sel0)%float)
     && ((PR.GetStart r <? t0)%float || (t1 <? PR.GetStart r)%float)
  then true
  else if (t1 <=? PR.GetStart r)%float then true
  else if (0 <? PR.GetEnd r - PR.GetStart r)%float && (PR.GetEnd r <? t0)%float
  then true
  else false.

(** The release policy with the shift-and-empty case closed off: under shift
    with an empty region only the first test decides; otherwise the other two
    do. *)
Definition release_clears (env : Env) (evt : wxMouseEvent) (s : State)
  : bool :=
  let t0 := GetStartTime env in
  let t1 := GetEndTime env in
  let sel0 := SR.t0 (selectedRegion s) in
  let sel1 := SR.t1 (selectedRegion s) in
  let r := playRegion s in
  if ShiftDown evt && PR.Empty r then
    ((sel1 <? t0)%float || (t1 <? sel0)%float)
    && ((PR.GetStart r <? t0)%float || (t1 <? PR.GetStart r)%float)
  else
    (t1 <=? PR.GetStart r)%float
    || ((0 <? PR.GetEnd r - PR.GetStart r)%float && (PR.GetEnd r <? t0)%float).

(** Pixel positions whose differences and tolerance windows stay inside
    [int]. *)
Definition half_range (p : int) : Prop := - 2 ^ 30 <= p < 2 ^ 30.

(** A whole cancelled gesture on the quick-play handle: the click, the
    drags, the cancel. *)
Definition QPHandle_cancelled_gesture (env : Env) (evt : wxMouseEvent)
    (evts : list wxMouseEvent) (h : QPHandle) (s : State) : State :=
  let '(_, h, s) := QPHandle_Click env evt h s in
  let '(h, s) := QPHandle_Drags env evts h s in
  let '(_, _, s) := QPHandle_Cancel h s in
  s.

(** What a live session keeps fixed: the snapshot of the play region, and
    whether the play region is active. *)
Definition same_session (s s' : State) : Prop :=
  mOldPlayRegion s' = mOldPlayRegion s
  /\ mActive (playRegion s') = mActive (playRegion s).

(** States and events for concrete runs. *)
Definition sample_idle : State :=
  sample_state (mkPlayRegion 1 2 false) (mkSelectedRegion 2 4).

Definition sample_live : State :=
  set_mMouseEventState mesDraggingPlayRegionEnd sample_idle.

Definition sample_point_in_selection : State :=
  sample_state (mkPlayRegion 3 3 false) (mkSelectedRegion 2 4).

Definition sample_point_outside_selection : State :=
  sample_state (mkPlayRegion 5 5 false) (mkSelectedRegion 2 4).

Definition sample_region_0_5 : State :=
  sample_state (mkPlayRegion 0 5 false) (mkSelectedRegion 2 4).

Definition sample_point_past_end : State :=
  sample_state (mkPlayRegion 12 12 false) (mkSelectedRegion 2 4).

Definition sample_near_end : State :=
  set_mQuickPlayPos 3.984375
    (sample_state (mkPlayRegion 1 4 false) (mkSelectedRegion 2 4)).

Definition sample_active : State :=
  set_mQuickPlayPos 6
    (sample_state (mkPlayRegion 1 4 true) (mkSelectedRegion 2 4)).

Definition left_down (x : int) : wxMouseEvent :=
  mkMouseEvent x true true false false.

Definition left_drag (x : int) : wxMouseEvent :=
  mkMouseEvent x false true false false.

Definition shift_release (x : int) : wxMouseEvent :=
  mkMouseEvent x false false true false.

Definition plain_release (x : int) : wxMouseEvent :=
  mkMouseEvent x false false false false.

(* ================================================================== *)
(** ** Further members of the panel *)

Definition IndicatorOffset : int := 1.
Definition BottomMargin : int := 2.
Definition LeftMargin : int := 1.
Definition RightMargin : int := 1.
Definition ProperRulerHeight : int := 29.

Definition IndicatorHeightForWidth (width : int) : int :=
  int_div (int_mul (int_div width 2) 3) 2.

Definition GetRulerHeight (showScrubBar : bool) : int :=
  int_add ProperRulerHeight (if showScrubBar then ScrubHeight else 0).

(** [wxRect::GetLeft], [wxRect::GetRight] and [operator==] of wxWidgets. *)
Definition GetLeft (r : wxRect) : int := rect_x r.
Definition GetRight (r : wxRect) : int :=
  int_sub (int_add (rect_x r) (rect_width r)) 1.

Definition wxRect_eqb (a b : wxRect) : bool :=
  (rect_x a =? rect_x b) && (rect_y a =? rect_y b)
  && (rect_width a =? rect_width b) && (rect_height a =? rect_height b).

(** The three rectangles of the panel. *)
Record RulerRects := mkRects {
  mOuter : wxRect;
  mInner : wxRect;
  mScrubZone : wxRect
}.

(** [UpdateRects()]; [showing] is [ShowingScrubRuler()].  The pointers [top]
    and [bottom] both name [inner] unless the scrub ruler shows, when
    [bottom] names [scrubZone]; the two cases are written out.  The closing
    [mRuler.SetBounds] only informs the ruler painter. *)
Definition UpdateRects (showing : bool) (g : RulerRects) : bool * RulerRects :=
  let inner := mOuter g in
  let inner :=
    mkRect (int_add (rect_x inner) LeftMargin) (rect_y inner)
      (int_sub (rect_width inner) (int_add LeftMargin RightMargin))
      (rect_height inner) in
  let '(inner, scrubZone) :=
    if showing then
      let scrubZone := inner in
      let scrubHeight := min_int (rect_height scrubZone) ScrubHeight in
      let qpHeight := int_sub (rect_height scrubZone) scrubHeight in
      let topHeight := qpHeight in
      (* Increase scrub zone height so that hit testing finds it *)
      let scrubZone :=
        mkRect (rect_x scrubZone) (rect_y scrubZone) (rect_width scrubZone)
          (int_add (rect_height scrubZone) BottomMargin) in
      (* top->height = topHeight *)
      let inner :=
        mkRect (rect_x inner) (rect_y inner) (rect_width inner) topHeight in
      (* bottom->height -= topHeight; bottom->y += topHeight *)
      let scrubZone :=
        mkRect (rect_x scrubZone) (int_add (rect_y scrubZone) topHeight)
          (rect_width scrubZone) (int_sub (rect_height scrubZone) topHeight) in
      (* top->y += TopMargin; top->height -= TopMargin *)
      let inner :=
        mkRect (rect_x inner) (int_add (rect_y inner) TopMargin)
          (rect_width inner) (int_sub (rect_height inner) TopMargin) in
      (* bottom->height -= BottomMargin *)
      let scrubZone :=
        mkRect (rect_x scrubZone) (rect_y scrubZone) (rect_width scrubZone)
          (int_sub (rect_height scrubZone) BottomMargin) in
      (inner, scrubZone)
    else
      let inner :=
        mkRect (rect_x inner) (int_add (rect_y inner) TopMargin)
          (rect_width inner) (int_sub (rect_height inner) TopMargin) in
      let inner :=
        mkRect (rect_x inner) (rect_y inner) (rect_width inner)
          (int_sub (rect_height inner) BottomMargin) in
      (inner, inner) in
  if wxRect_eqb inner (mInner g) && wxRect_eqb scrubZone (mScrubZone g)
  then (* no changes *) (false, g)
  else (true, mkRects (mOuter g) inner scrubZone).

(** [DoDrawScrubIndicator(dc, xx, width, scrub, seek)]: the polygons handed
    to [dc->DrawPolygon], in order, each as its list of points. *)
Definition DoDrawScrubIndicator (showing : bool) (g : RulerRects)
    (xx width : int) (scrub seek : bool) : list (list (int * int)) :=
  if seek then
    let height := IndicatorHeightForWidth width in
    (* Make four triangles *)
    let TriangleWidth := int_div (int_mul width 3) 8 in
    let yy :=
      if showing then rect_y (mScrubZone g)
      else int_sub (int_sub (int_add (GetBottom (mInner g)) 1) 1) height in
    let tri0 := (int_sub xx IndicatorOffset, yy) in
    let tri1 := (int_sub xx IndicatorOffset, int_add yy height) in
    let tri2 := (int_sub xx TriangleWidth, int_add yy (int_div height 2)) in
    let first := [tri0; tri1; tri2] in
    let tri0 := (int_sub (fst tri0) TriangleWidth, snd tri0) in
    let tri1 := (int_sub (fst tri1) TriangleWidth, snd tri1) in
    let tri2 := (int_sub (fst tri2) TriangleWidth, snd tri2) in
    let second := [tri0; tri1; tri2] in
    let tri0 := (int_add xx IndicatorOffset, snd tri0) in
    let tri1 := (int_add xx IndicatorOffset, snd tri1) in
    let tri2 := (int_add xx TriangleWidth, snd tri2) in
    let third := [tri0; tri1; tri2] in
    let tri0 := (int_add (fst tri0) TriangleWidth, snd tri0) in
    let tri1 := (int_add (fst tri1) TriangleWidth, snd tri1) in
    let tri2 := (int_add (fst tri2) TriangleWidth, snd tri2) in
    let fourth := [tri0; tri1; tri2] in
    [first; second; third; fourth]
  else if scrub then
    let height := IndicatorHeightForWidth width in
    let IndicatorHalfWidth := int_div width 2 in
    let yy :=
      if showing then rect_y (mScrubZone g)
      else int_sub (int_sub (int_add (GetBottom (mInner g)) 1) 1) height in
    let tri0 := (int_sub xx IndicatorOffset, yy) in
    let tri1 := (int_sub xx IndicatorOffset, int_add yy height) in
    let tri2 := (int_sub xx IndicatorHalfWidth, int_add yy (int_div height 2)) in
    let first := [tri0; tri1; tri2] in
    let tri0 := (int_add xx IndicatorOffset, snd tri0) in
    let tri1 := (int_add xx IndicatorOffset, snd tri1) in
    let tri2 := (int_add xx IndicatorHalfWidth, snd tri2) in
    let second := [tri0; tri1; tri2] in
    [first; second]
  else [].

(** What the ruler overlay paints: [Draw] followed by the
    [DoDrawScrubIndicator] it calls. *)
Definition ScrubbingRulerOverlay_paint (showing : bool) (g : RulerRects)
    (o : ScrubbingRulerOverlay.t)
  : ScrubbingRulerOverlay.t * list (list (int * int)) :=
  match ScrubbingRulerOverlay.Draw o with
  | (o, Some (xx, width, scrub, seek)) =>
      (o, DoDrawScrubIndicator showing g xx width scrub seek)
  | (o, None) => (o, [])
  end.

(** A point lies between the left and the right column of a rectangle. *)
Definition within_columns (r : wxRect) (p : int * int) : Prop :=
  GetLeft r <= fst p <= GetRight r.

(* ================================================================== *)
(** ** More of the mouse handles *)

(** [CommonRulerHandle::Release]; the second component says whether
    [ShowContextMenu(mChoice, &pos)] is called. *)
Definition CommonRulerHandle_Release (h : CommonRulerHandle) : Result * bool :=
  (RefreshCode_DrawOverlays,
   mParent h && match mClicked h with Button_Right => true | _ => false end).

(** [QPHandle::Release].  Line 1609 goes through [mParent] before any test
    of it; with the panel gone there is no result.  The boolean says whether
    the context menu is shown. *)
Definition QPHandle_Release (env : Env) (evt : wxMouseEvent)
    (looped_self : bool) (h : QPHandle) (s : State)
  : option (Result * bool * QPHandle * State) :=
  if negb (mParent (common h)) then None
  else
    let '(result, menu) := CommonRulerHandle_Release (common h) in
    if negb (Cancelled result) then
      if is_left (mClicked (common h)) then
        if mParent (common h) then
          let s := HandleQPRelease env evt looped_self s in
          (* Update the hot zones for cursor changes *)
          let s := set_mOldPlayRegion (playRegion s) s in
          Some (result, menu, h, s)
        else Some (result, menu, h, s)
      else Some (result, menu, h, s)
    else Some (result, menu, h, s).

(** A gesture on the quick-play handle that ends with the button going
    up. *)
Definition QPHandle_released_gesture (env : Env) (evt : wxMouseEvent)
    (evts : list wxMouseEvent) (evtUp : wxMouseEvent) (looped_self : bool)
    (h : QPHandle) (s : State) : option State :=
  let '(_, h, s) := QPHandle_Click env evt h s in
  let '(h, s) := QPHandle_Drags env evts h s in
  match QPHandle_Release env evtUp looped_self h s with
  | Some (_, _, _, s) => Some s
  | None => None
  end.

(** [ScrubbingHandle::Drag], [Release] and [Cancel]. *)
Definition ScrubbingHandle_Drag (h : CommonRulerHandle) (s : State)
  : Result * CommonRulerHandle * State :=
  (CommonRulerHandle_Drag, h, s).

Definition ScrubbingHandle_Release (h : CommonRulerHandle) (s : State)
  : Result * bool * CommonRulerHandle * State :=
  let '(result, menu) := CommonRulerHandle_Release h in
  (result, menu, h, s).

Definition ScrubbingHandle_Cancel (env : Env) (h : CommonRulerHandle)
    (s : State) : Result * CommonRulerHandle * State :=
  let result := CommonRulerHandle_Cancel in
  if is_left (mClicked h) then
    let s := call Scrubber_Cancel s in
    let s := Stop env s in
    (result, h, s)
  else (result, h, s).

(** A gesture on the scrub handle: click, drags, release. *)
Definition ScrubbingHandle_gesture (env : Env) (evt : wxMouseEvent)
    (drags : nat) (h : CommonRulerHandle) (s : State) : State :=
  let '(result, h, s) := ScrubbingHandle_Click env evt h s in
  if Cancelled result then s
  else
    let '(h, s) :=
      Nat.iter drags
        (fun hs : CommonRulerHandle * State =>
           let '(_, h, s) := ScrubbingHandle_Drag (fst hs) (snd hs) in (h, s))
        (h, s) in
    let '(_, _, _, s) := ScrubbingHandle_Release h s in
    s.

(** [ScrubbingCell::HitTest].  [mIsRecording] and [mQPCell->Clicked()] are
    arguments; the handle, if any, is returned with the state as it is
    constructed (what [AssignUIHandlePtr] does with the cell's weak pointer is
    left out, and the overlays that [CreateOverlays] makes on first use are
    the values [init]). *)
Definition ScrubbingCell_HitTest (env : Env) (mIsRecording qpClicked : bool)
    (state_m_x : int) (shiftDown : bool) (s : State)
  : list CommonRulerHandle * State :=
  (* Disable mouse actions on Timeline while recording. *)
  if negb mIsRecording then
    let '(xx, s) := UpdateQuickPlayPos env state_m_x shiftDown qpClicked s in
    ([mkHandle true xx Button_None], s)
  else ([], s).

(** *** The handle of the pinned play head *)

(** An [int] converted to [double]; exact, as an [int] has 32 bits. *)
Definition double_of_int (z : int) : double :=
  if z <? 0 then (- of_uint63 (Uint63.of_Z (- z)))%float
  else of_uint63 (Uint63.of_Z z).

Definition GetPlayHeadFraction (env : Env) (xx : int) : double :=
  let width := GetTracksUsableWidth env in
  let fraction :=
    (double_of_int (int_sub xx (GetLeftOffset env)) / double_of_int width)%float in
  max_double 0 (min_double 1 fraction).

(** Modelled from the spec: the preferences store holds the pinned-head
    fraction as a key/value pair that is read and written (TracksPrefs.cpp);
    [flushed] says whether the last write asked for a flush. *)
Record TracksPrefs := mkPrefs {
  PinnedHeadPositionPreference : double;
  flushed : bool
}.

Definition SetPinnedHeadPositionPreference (value : double) (flush : bool)
    (_ : TracksPrefs) : TracksPrefs :=
  mkPrefs value flush.

Record PlayheadHandle := mkPlayheadHandle {
  playhead_mX : int;
  mOrigPreference : double
}.

(** [PlayheadHandle::Click]; [leftDClick] is [event.event.LeftDClick()]. *)
Definition PlayheadHandle_Click (evt : wxMouseEvent) (leftDClick : bool)
    (h : PlayheadHandle) (p : TracksPrefs)
  : Result * PlayheadHandle * TracksPrefs :=
  if leftDClick then
    (* Restore default position on double click *)
    (mkResult true true, h, SetPinnedHeadPositionPreference 0.5 true p)
  else if negb (LeftIsDown evt) then (RefreshCode_Cancelled, h, p)
  else
    (RefreshNone,
     mkPlayheadHandle (playhead_mX h) (PinnedHeadPositionPreference p), p).

Definition PlayheadHandle_Drag (env : Env) (evt : wxMouseEvent)
    (h : PlayheadHandle) (p : TracksPrefs)
  : Result * PlayheadHandle * TracksPrefs :=
  let value := GetPlayHeadFraction env (m_x evt) in
  (RefreshCode_DrawOverlays, h, SetPinnedHeadPositionPreference value false p).

Definition PlayheadHandle_Release (env : Env) (evt : wxMouseEvent)
    (h : PlayheadHandle) (p : TracksPrefs)
  : Result * PlayheadHandle * TracksPrefs :=
  let value := GetPlayHeadFraction env (m_x evt) in
  (RefreshCode_DrawOverlays, h, SetPinnedHeadPositionPreference value true p).

Definition PlayheadHandle_Cancel (h : PlayheadHandle) (p : TracksPrefs)
  : Result * PlayheadHandle * TracksPrefs :=
  (RefreshCode_DrawOverlays, h,
   SetPinnedHeadPositionPreference (mOrigPreference h) false p).

Fixpoint PlayheadHandle_Drags (env : Env) (evts : list wxMouseEvent)
    (h : PlayheadHandle) (p : TracksPrefs) : PlayheadHandle * TracksPrefs :=
  match evts with
  | [] => (h, p)
  | evt :: evts =>
      let '(_, h, p) := PlayheadHandle_Drag env evt h p in
      PlayheadHandle_Drags env evts h p
  end.

(** The session states in which a button is held on the play region. *)
Definition live (m : MouseEventState) : Prop := m <> mesNone.

(** The seek shape is only asked for together with the scrub shape. *)
Definition seek_implies_scrub (o : ScrubbingRulerOverlay.t) : Prop :=
  (ScrubbingRulerOverlay.mNewSeek o = true ->
   ScrubbingRulerOverlay.mNewScrub o = true)
  /\ (ScrubbingRulerOverlay.mOldSeek o = true ->
      ScrubbingRulerOverlay.mOldScrub o = true).

(** Geometry for concrete runs: the panel at its height with the scrub
    ruler, 800 pixels wide. *)
Definition sample_rects : RulerRects :=
  mkRects (mkRect 0 0 800 43) (mkRect 0 0 0 0) (mkRect 0 0 0 0).

Definition sample_range : State :=
  set_mMouseEventState mesSelectingPlayRegionRange
    (set_mLeftDownClick 6
       (set_mQuickPlayPos 7
          (sample_state (mkPlayRegion 6 6 false) (mkSelectedRegion 2 4)))).

Definition sample_dragging_start : State :=
  set_mMouseEventState mesDraggingPlayRegionStart
    (set_mQuickPlayPos 2
       (sample_state (mkPlayRegion 1 4 false) (mkSelectedRegion 2 4))).

(** The sample view with dragging of the selection switched on. *)
Definition sample_env_dragsel : Env :=
  mkEnv sample_PositionToTime sample_TimeToPosition 0 1000
    (fun _ t => (t, false)) 0%float 10%float sample_scrubber false
    (Some QPCell) false 0 true 28 true.

(** What the transport policy leaves alone: everything but the bounds of
    the play region and the call log. *)
Definition transport_frame (s s' : State) : Prop :=
  selectedRegion s' = selectedRegion s
  /\ mOldPlayRegion s' = mOldPlayRegion s
  /\ mMouseEventState s' = mMouseEventState s
  /\ mIsDragging s' = mIsDragging s
  /\ mLeftDownClick s' = mLeftDownClick s
  /\ mLeftDownClickUnsnapped s' = mLeftDownClickUnsnapped s
  /\ mQuickPlayPos s' = mQuickPlayPos s
  /\ mQuickPlayPosUnsnapped s' = mQuickPlayPosUnsnapped s
  /\ mIsSnapped s' = mIsSnapped s
  /\ mActive (playRegion s') = mActive (playRegion s).

Definition sample_locked_release : State :=
  set_mMouseEventState mesSelectingPlayRegionRange
    (set_playRegion (mkPlayRegion 6 7 false) sample_active).

(* ================================================================== *)
(** * Properties *)

(** ** Binary64 comparisons and 32-bit arithmetic *)

Lemma SFcompare_antisym (x y : spec_float) :
  SFcompare y x = option_map CompOpp (SFcompare x y).
Proof.
  destruct x as [sx | sx | | sx mx ex], y as [sy | sy | | sy my ey];
    simpl; try reflexivity;
    try (destruct sx; reflexivity);
    try (destruct sy; reflexivity);
    try (destruct sx, sy; reflexivity).
  destruct sx, sy; simpl; try reflexivity;
    rewrite (Z.compare_antisym ex ey);
    destruct (ex ?= ey)%Z eqn:E; simpl; try reflexivity;
    rewrite (Pos.compare_cont_antisym mx my Eq); simpl;
    rewrite ?CompOpp_involutive; reflexivity.
Qed.

Lemma ltb_asym (a b : double) :
  (a <? b)%float = true -> (b <? a)%float = false.
Proof.
  rewrite !ltb_spec. unfold SFltb.
  rewrite (SFcompare_antisym (Prim2SF a) (Prim2SF b)).
  destruct (SFcompare (Prim2SF a) (Prim2SF b)) as [[ | | ] | ];
    simpl; congruence.
Qed.

Lemma leb_not_gtb (a b : double) :
  (a <=? b)%float = true -> (b <? a)%float = false.
Proof.
  rewrite ltb_spec, leb_spec. unfold SFltb, SFleb.
  rewrite (SFcompare_antisym (Prim2SF a) (Prim2SF b)).
  destruct (SFcompare (Prim2SF a) (Prim2SF b)) as [[ | | ] | ];
    simpl; congruence.
Qed.

Lemma wrap_int_id (z : Z) : in_int z -> wrap_int z = z.
Proof.
  unfold in_int, wrap_int. intros H.
  rewrite Z.mod_small by lia. lia.
Qed.

Lemma half_range_sub (p q : int) :
  half_range p -> half_range q -> int_abs (int_sub p q) = Z.abs (p - q).
Proof.
  unfold half_range, int_abs, int_sub. intros Hp Hq.
  rewrite (wrap_int_id (p - q)) by (unfold in_int; lia).
  apply wrap_int_id. unfold in_int. lia.
Qed.

Lemma half_range_tolerance (p : int) :
  half_range p ->
  int_sub p SELECT_TOLERANCE_PIXEL = p - 4
  /\ int_add p SELECT_TOLERANCE_PIXEL = p + 4.
Proof.
  unfold half_range, int_sub, int_add, SELECT_TOLERANCE_PIXEL. intros Hp.
  split; apply wrap_int_id; unfold in_int; lia.
Qed.

(** ** The marker hit test *)

(** C9.  A marker time below zero, the value that stands for an unset bound,
    is never hit, whatever the mouse position; so a mouse-down over a cleared
    region (both bounds below zero) starts no edge drag but goes to
    [mesSelectingPlayRegionClick].  For a marker time of zero or more the
    test is the half-open window
    [Time2Pos(markerTime) - 4 <= mousePosX < Time2Pos(markerTime) + 4]
    (for pixel positions away from the ends of the [int] range, where the
    two bounds are computed without overflow). *)
Theorem IsWithinMarker_window (env : Env) (mousePosX : int)
    (markerTime : double) :
  ((markerTime <? 0)%float = true ->
   IsWithinMarker env mousePosX markerTime = false
   /\ forall evt s,
        PR.GetStart (mOldPlayRegion s) = markerTime ->
        (PR.GetEnd (mOldPlayRegion s) <? 0)%float = true ->
        mMouseEventState (HandleQPClick env evt mousePosX s)
        = mesSelectingPlayRegionClick)
  /\ ((0 <=? markerTime)%float = true ->
      half_range (Time2Pos env markerTime) ->
      IsWithinMarker env mousePosX markerTime
      = (Time2Pos env markerTime - SELECT_TOLERANCE_PIXEL <=? mousePosX)
        && (mousePosX <? Time2Pos env markerTime + SELECT_TOLERANCE_PIXEL)).
Proof.
  split.
  - intros Hneg. split.
    + unfold IsWithinMarker. rewrite Hneg. reflexivity.
    + intros evt s Hstart Hend. unfold HandleQPClick.
      destruct (PR.Active (mOldPlayRegion s) && LeftDown evt);
        cbn [mOldPlayRegion set_mLeftDownClick set_mLeftDownClickUnsnapped
             InactivatePlayRegion set_playRegion];
        unfold IsWithinMarker; rewrite Hstart, Hneg, Hend; reflexivity.
  - intros Hge Hp. unfold IsWithinMarker. rewrite (leb_not_gtb _ _ Hge).
    destruct (half_range_tolerance _ Hp) as [-> ->]. reflexivity.
Qed.

Lemma IsWithinMarker_window_witness :
  IsWithinMarker sample_env 300 (-1)%float = false
  /\ IsWithinMarker sample_env 296 3%float = true
  /\ IsWithinMarker sample_env 304 3%float = false.
Proof.
  split; [| split].
  - apply (proj1 (IsWithinMarker_window sample_env 300 (-1)%float)).
    reflexivity.
  - rewrite (proj2 (IsWithinMarker_window sample_env 296 3%float)).
    + reflexivity.
    + reflexivity.
    + unfold half_range. vm_compute. split; [discriminate | reflexivity].
  - rewrite (proj2 (IsWithinMarker_window sample_env 304 3%float)).
    + reflexivity.
    + reflexivity.
    + unfold half_range. vm_compute. split; [discriminate | reflexivity].
Defined.

(** ** SetPlayRegion *)

Lemma mes_eqb_eq (a b : MouseEventState) : mes_eqb a b = true <-> a = b.
Proof.
  split.
  - destruct a, b; simpl; intros H; congruence.
  - intros ->. destruct b; reflexivity.
Qed.

(** C5.  While a gesture session is live ([mMouseEventState] differs from
    [mesNone]) a call of [SetPlayRegion(start, end)] returns before any
    change: the play region, and all the rest of the state, is what it was.
    Only with [mMouseEventState] at [mesNone] does the call set the region's
    times to the given start and end. *)
Theorem SetPlayRegion_guarded (playRegionStart playRegionEnd : double)
    (s : State) :
  (mMouseEventState s <> mesNone ->
   SetPlayRegion playRegionStart playRegionEnd s = s)
  /\ (mMouseEventState s = mesNone ->
      SetPlayRegion playRegionStart playRegionEnd s
      = set_playRegion
          (PR.SetTimes playRegionStart playRegionEnd (playRegion s)) s
      /\ PR.GetStart
           (playRegion (SetPlayRegion playRegionStart playRegionEnd s))
         = playRegionStart
      /\ PR.GetEnd
           (playRegion (SetPlayRegion playRegionStart playRegionEnd s))
         = playRegionEnd).
Proof.
  unfold SetPlayRegion. split.
  - intros Hlive.
    destruct (mes_eqb (mMouseEventState s) mesNone) eqn:E; [| reflexivity].
    apply mes_eqb_eq in E. contradiction.
  - intros ->. simpl. repeat split.
Qed.

Lemma SetPlayRegion_guarded_witness :
  SetPlayRegion 5 6 sample_live = sample_live
  /\ playRegion (SetPlayRegion 5 6 sample_idle) = mkPlayRegion 5 6 false.
Proof.
  split.
  - apply (proj1 (SetPlayRegion_guarded 5 6 sample_live)). discriminate.
  - rewrite (proj1 (proj2 (SetPlayRegion_guarded 5 6 sample_idle) eq_refl)).
    reflexivity.
Defined.

(** ** The scrub handle *)

(** C7.  On a left mouse-down on the scrub handle: if scrubbing is not
    permitted now ([CanScrub()] false, or the parent gone, or the scrub ruler
    not showing) the click is answered with [Cancelled] and nothing is asked
    of the scrubber (the state and its call log are as before).  If it is
    permitted, [MarkScrubStart] is called, with the event's x position, the
    pinned flag and [false], exactly when no scrub is marked yet; with a mark
    present no call is made. *)
Theorem ScrubbingHandle_Click_marks_once (env : Env) (evt : wxMouseEvent)
    (h : CommonRulerHandle) (s : State) :
  LeftIsDown evt = true ->
  let canScrub :=
    CanScrub (scrubber env) && mParent h && ShowingScrubRuler env in
  let '(result, _, s') := ScrubbingHandle_Click env evt h s in
  (canScrub = false -> Cancelled result = true /\ s' = s)
  /\ (canScrub = true -> HasMark (scrubber env) = false ->
      Cancelled result = false
      /\ calls s'
         = calls s
           ++ [Scrubber_MarkScrubStart (m_x evt)
                 (ShouldScrubPinned (scrubber env)) false])
  /\ (canScrub = true -> HasMark (scrubber env) = true ->
      Cancelled result = false /\ s' = s).
Proof.
  intros Hleft. unfold ScrubbingHandle_Click, CommonRulerHandle_Click.
  rewrite Hleft. cbn [Cancelled RefreshCode_DrawOverlays negb is_left
                      mClicked mParent].
  destruct (CanScrub (scrubber env) && mParent h && ShowingScrubRuler env)
    eqn:Ecan; cbn [negb].
  - destruct (HasMark (scrubber env)) eqn:Emark; cbn [negb];
      repeat split; try discriminate; reflexivity.
  - repeat split; try discriminate; reflexivity.
Qed.

Lemma ScrubbingHandle_Click_marks_once_witness :
  calls
    (snd (ScrubbingHandle_Click sample_env (left_down 120)
            (mkHandle true 120 Button_None)
            sample_idle))
  = [Scrubber_MarkScrubStart 120 false false].
Proof.
  pose proof
    (ScrubbingHandle_Click_marks_once sample_env
       (left_down 120)
       (mkHandle true 120 Button_None)
       sample_idle
       eq_refl) as H.
  cbv zeta in H.
  destruct (ScrubbingHandle_Click sample_env _ _ _) as [[result h'] s'].
  destruct H as (_ & H & _).
  exact (proj2 (H eq_refl eq_refl)).
Defined.

(** ** The indicator overlays *)

(** C8.  For both overlays the flag returned by [DoGetRectangle] asks for a
    redraw only if a tracked field of the newly computed state differs from
    the state drawn last: the indicator position, the scrub flag and the seek
    flag for the ruler overlay; the indicator position (the partner's new
    one), the snapped flag and the previewing-scrub flag for the guideline.
    With every tracked field equal to its old value the flag is false. *)
Theorem DoGetRectangle_dirty_only_on_change (env : Env) (s : State)
    (height : int) (o : ScrubbingRulerOverlay.t)
    (g : TrackPanelGuidelineOverlay.t) :
  (let '((_, dirty), o') := ScrubbingRulerOverlay.DoGetRectangle env s o in
   o' = ScrubbingRulerOverlay.Update env s o
   /\ (ScrubbingRulerOverlay.mOldQPIndicatorPos o'
       = ScrubbingRulerOverlay.mNewQPIndicatorPos o' ->
       ScrubbingRulerOverlay.mOldScrub o' = ScrubbingRulerOverlay.mNewScrub o' ->
       ScrubbingRulerOverlay.mOldSeek o' = ScrubbingRulerOverlay.mNewSeek o' ->
       dirty = false))
  /\ (let '((_, dirty), g') :=
        TrackPanelGuidelineOverlay.DoGetRectangle env s height g in
      g' = TrackPanelGuidelineOverlay.Update env s g
      /\ (TrackPanelGuidelineOverlay.mOldQPIndicatorPos g'
          = ScrubbingRulerOverlay.mNewQPIndicatorPos
              (TrackPanelGuidelineOverlay.mPartner g') ->
          TrackPanelGuidelineOverlay.mOldIndicatorSnapped g'
          = TrackPanelGuidelineOverlay.mNewIndicatorSnapped g' ->
          TrackPanelGuidelineOverlay.mOldPreviewingScrub g'
          = TrackPanelGuidelineOverlay.mNewPreviewingScrub g' ->
          dirty = false)).
Proof.
  split.
  - unfold ScrubbingRulerOverlay.DoGetRectangle.
    set (o' := ScrubbingRulerOverlay.Update env s o).
    destruct (0 <=? ScrubbingRulerOverlay.mOldQPIndicatorPos o') eqn:Epos.
    + split; [reflexivity |]. intros <- <- <-.
      rewrite Z.eqb_refl, !Bool.eqb_reflx. reflexivity.
    + split; [reflexivity |]. intros <- _ _. exact Epos.
  - unfold TrackPanelGuidelineOverlay.DoGetRectangle.
    set (g' := TrackPanelGuidelineOverlay.Update env s g).
    split; [reflexivity |]. intros <- <- <-.
    rewrite Z.eqb_refl, !Bool.eqb_reflx. reflexivity.
Qed.

Lemma DoGetRectangle_dirty_only_on_change_witness :
  snd (fst (ScrubbingRulerOverlay.DoGetRectangle sample_env
              sample_idle
              (ScrubbingRulerOverlay.mk 7 false false 0 false false)))
  = false
  /\ snd (fst (TrackPanelGuidelineOverlay.DoGetRectangle sample_env
                 sample_idle
                 200 TrackPanelGuidelineOverlay.init))
     = false.
Proof.
  pose proof
    (DoGetRectangle_dirty_only_on_change sample_env
       sample_idle 200
       (ScrubbingRulerOverlay.mk 7 false false 0 false false)
       TrackPanelGuidelineOverlay.init) as [Hr Hg].
  split.
  - destruct (ScrubbingRulerOverlay.DoGetRectangle sample_env _ _)
      as [[rect dirty] o'].
    destruct Hr as [-> Hr]. apply Hr; reflexivity.
  - destruct (TrackPanelGuidelineOverlay.DoGetRectangle sample_env _ _ _)
      as [[rect dirty] g'].
    destruct Hg as [-> Hg]. apply Hg; reflexivity.
Defined.

(** C10.  Whenever the quick-play time is at or beyond the later of the
    tracks' end and the selection's end, [Update] leaves the new indicator
    position at -1, also with the pointer inside the ruler and no audio
    running; drawing the two overlays from that state then strokes neither
    the ruler indicator nor the guideline. *)
Theorem Update_hidden_at_or_beyond_latest_end (env : Env) (s : State)
    (o : ScrubbingRulerOverlay.t) :
  (max_double (GetEndTime env) (SR.t1 (selectedRegion s))
   <=? mQuickPlayPos s)%float = true ->
  ScrubbingRulerOverlay.mNewQPIndicatorPos
    (ScrubbingRulerOverlay.Update env s o) = -1
  /\ snd (ScrubbingRulerOverlay.Draw (ScrubbingRulerOverlay.Update env s o))
     = None
  /\ forall cells g,
       TrackPanelGuidelineOverlay.mPartner g
       = ScrubbingRulerOverlay.Update env s o ->
       snd (TrackPanelGuidelineOverlay.Draw cells g) = [].
Proof.
  intros Hlate.
  assert (Hpos : ScrubbingRulerOverlay.mNewQPIndicatorPos
                   (ScrubbingRulerOverlay.Update env s o) = -1).
  { unfold ScrubbingRulerOverlay.Update. rewrite Hlate.
    destruct ((match LastCell env with None => true | _ => false end
               || IsAudioActive env)
              && negb (IsScrubbing (scrubber env)
                       && negb (IsSpeedPlaying (scrubber env))
                       && negb (IsKeyboardScrubbing (scrubber env))));
      reflexivity. }
  split; [exact Hpos | split].
  - unfold ScrubbingRulerOverlay.Draw. cbn. rewrite Hpos. reflexivity.
  - intros cells g Hg. unfold TrackPanelGuidelineOverlay.Draw. cbn.
    rewrite Hg, Hpos. reflexivity.
Qed.

Lemma Update_hidden_at_or_beyond_latest_end_witness :
  ScrubbingRulerOverlay.mNewQPIndicatorPos
    (ScrubbingRulerOverlay.Update sample_env
       (set_mQuickPlayPos 10
          sample_idle)
       ScrubbingRulerOverlay.init)
  = -1.
Proof.
  apply (Update_hidden_at_or_beyond_latest_end sample_env
           (set_mQuickPlayPos 10
              sample_idle)
           ScrubbingRulerOverlay.init).
  reflexivity.
Defined.

(** ** The quick-play click *)

(** The snapshot that [HandleQPClick] consults is the play region as it is
    when the button goes down: [QPHandle::Click] copies it first. *)
Lemma HandleQPClick_keeps_snapshot (env : Env) (evt : wxMouseEvent)
    (x : int) (s : State) :
  mOldPlayRegion (HandleQPClick env evt x s) = mOldPlayRegion s
  /\ mQuickPlayPos (HandleQPClick env evt x s) = mQuickPlayPos s.
Proof.
  unfold HandleQPClick.
  destruct (PR.Active (mOldPlayRegion s) && LeftDown evt); cbn;
    repeat match goal with
           | |- context [if ?b then _ else _] => destruct b; cbn
           end; split; reflexivity.
Qed.

(** C3.  On mouse-down ([HandleQPClick]) the anchor is recorded from the
    click position ([mLeftDownClick] and [mLeftDownClickUnsnapped] take the
    snapped and unsnapped quick-play times).  If the point is within marker
    tolerance of the start or the end of the play region (as snapshotted at
    the click): with an empty region the session goes to
    [mesSelectingPlayRegionClick]; with a non-empty one it goes to
    [mesDraggingPlayRegionStart] if the start is strictly nearer in pixels
    (distances between [Time2Pos] positions, not times) and to
    [mesDraggingPlayRegionEnd] otherwise.  If the point is within tolerance
    of neither, the session goes to [mesSelectingPlayRegionClick]. *)
Theorem HandleQPClick_session (env : Env) (evt : wxMouseEvent)
    (mousePosX : int) (s : State) :
  let old := mOldPlayRegion s in
  let s' := HandleQPClick env evt mousePosX s in
  let within :=
    IsWithinMarker env mousePosX (PR.GetStart old)
    || IsWithinMarker env mousePosX (PR.GetEnd old) in
  let pos := Time2Pos env (mQuickPlayPos s) in
  let startPos := Time2Pos env (PR.GetStart old) in
  let endPos := Time2Pos env (PR.GetEnd old) in
  (mLeftDownClick s' = mQuickPlayPos s
   /\ mLeftDownClickUnsnapped s' = mQuickPlayPosUnsnapped s)
  /\ (within = true -> PR.Empty old = true ->
      mMouseEventState s' = mesSelectingPlayRegionClick)
  /\ (within = true -> PR.Empty old = false ->
      half_range pos -> half_range startPos -> half_range endPos ->
      mMouseEventState s'
      = if Z.abs (pos - startPos) <? Z.abs (pos - endPos)
        then mesDraggingPlayRegionStart
        else mesDraggingPlayRegionEnd)
  /\ (within = false -> mMouseEventState s' = mesSelectingPlayRegionClick).
Proof.
  cbv zeta. unfold HandleQPClick.
  destruct (PR.Active (mOldPlayRegion s) && LeftDown evt);
    cbn [mOldPlayRegion mQuickPlayPos mQuickPlayPosUnsnapped
         set_mLeftDownClick set_mLeftDownClickUnsnapped
         InactivatePlayRegion set_playRegion];
    (destruct (IsWithinMarker env mousePosX (PR.GetStart (mOldPlayRegion s))
               || IsWithinMarker env mousePosX (PR.GetEnd (mOldPlayRegion s)))
       eqn:Ewithin;
     [ destruct (PR.Empty (mOldPlayRegion s)) eqn:Eempty | ]);
    (split; [ | split; [ | split ] ]);
    try discriminate;
    try (intros; reflexivity);
    try (repeat match goal with
                | |- context [if ?b then _ else _] => destruct b
                end; split; reflexivity).
  all: intros _ _ Hp Hs He;
    rewrite !half_range_sub by assumption;
    destruct (Z.abs _ <? Z.abs _); reflexivity.
Qed.

Lemma HandleQPClick_session_witness :
  mMouseEventState
    (HandleQPClick sample_env (left_down 398) 398 sample_near_end)
  = mesDraggingPlayRegionEnd.
Proof.
  destruct (HandleQPClick_session sample_env (left_down 398) 398
              sample_near_end)
    as (_ & _ & H & _).
  rewrite H.
  - reflexivity.
  - reflexivity.
  - reflexivity.
  - vm_compute. split; [discriminate | reflexivity].
  - vm_compute. split; [discriminate | reflexivity].
  - vm_compute. split; [discriminate | reflexivity].
Defined.

(** ** Starting playback *)

Lemma calls_DoSelectionChange (sel : SelectedRegion) (s : State) :
  calls (DoSelectionChange sel s) = calls s.
Proof.
  unfold DoSelectionChange, SetPlayRegion.
  destruct (negb (PR.Active (playRegion s))); [| reflexivity].
  destruct (negb (mes_eqb (mMouseEventState s) mesNone)); reflexivity.
Qed.

Lemma calls_Stop (env : Env) (s : State) :
  calls (Stop env s) = calls s ++ [ProjectAudioManager_Stop].
Proof.
  unfold Stop, OnAudioStartStop_playback.
  destruct (StopDeliversPlaybackEvent env); cbn [negb].
  - rewrite calls_DoSelectionChange. reflexivity.
  - reflexivity.
Qed.

(** What a call of [StartQPPlay] that starts playback asks of the
    transport: a stop, then the span of [StartQPPlay_span] with the options
    and the mode computed from [loopEnabled], the block's [looped] and
    [cutPreview]. *)
Lemma StartQPPlay_calls (env : Env) (looped cutPreview looped_self : bool)
    (s : State) :
  (0 <=? PR.GetStart (playRegion s))%float = true ->
  let start := fst (StartQPPlay_span env looped s) in
  let end_ := snd (StartQPPlay_span env looped s) in
  let lp := StartQPPlay_loopEnabled start end_ && looped_self in
  let cp := if lp then false else cutPreview in
  calls (StartQPPlay env looped cutPreview looped_self s)
  = calls s
    ++ [ProjectAudioManager_Stop;
        ProjectAudioManager_PlayPlayRegion start end_
          (if negb cp
           then mkOptions lp (Some (PR.GetStart (playRegion s))) true
           else mkOptions lp None false)
          (if cp then cutPreviewPlay
           else if lp then loopedPlay else normalPlay)].
Proof.
  intros Hstart. cbv zeta. unfold StartQPPlay. rewrite Hstart.
  destruct (StartQPPlay_span env looped s) as [start end_].
  cbn [fst snd call calls set_playRegion DefaultPlayOptions loopedArg
       pStartTime envelope].
  rewrite calls_Stop, <- app_assoc. reflexivity.
Qed.

(** C1, as the code has it.  In every call of [StartQPPlay] that starts
    playback, the looped flag handed to the play options decides first: if
    it is set, [cutPreview] is reset and the mode is [loopedPlay], also when
    [cutPreview] was requested; if it is not set, the mode is
    [cutPreviewPlay] when [cutPreview] was requested and [normalPlay]
    otherwise.  The flag is never set when the span is not longer than
    0.001, so there a requested [cutPreview] does give [cutPreviewPlay]. *)
Theorem StartQPPlay_mode (env : Env) (looped cutPreview looped_self : bool)
    (s : State) :
  (0 <=? PR.GetStart (playRegion s))%float = true ->
  exists start end_ options mode,
    (start, end_) = StartQPPlay_span env looped s
    /\ calls (StartQPPlay env looped cutPreview looped_self s)
       = calls s
         ++ [ProjectAudioManager_Stop;
             ProjectAudioManager_PlayPlayRegion start end_ options mode]
    /\ mode = (if loopedArg options then loopedPlay
               else if cutPreview then cutPreviewPlay
               else normalPlay)
    /\ ((lit_0_001 <? end_ - start)%float = false ->
        loopedArg options = false).
Proof.
  intros Hstart.
  pose proof (StartQPPlay_calls env looped cutPreview looped_self s Hstart)
    as Hcalls.
  cbv zeta in Hcalls.
  destruct (StartQPPlay_span env looped s) as [start end_].
  cbn [fst snd] in Hcalls.
  do 4 eexists. split; [reflexivity |]. split; [exact Hcalls |].
  unfold StartQPPlay_loopEnabled.
  destruct (lit_0_001 <? end_ - start)%float, looped_self, cutPreview;
    cbn; split; try reflexivity; intros; try reflexivity; discriminate.
Qed.

Lemma StartQPPlay_mode_witness :
  exists start end_ options mode,
    calls (StartQPPlay sample_env false true false
             sample_idle)
    = [ProjectAudioManager_Stop;
       ProjectAudioManager_PlayPlayRegion start end_ options mode]
    /\ mode = (if loopedArg options then loopedPlay else cutPreviewPlay).
Proof.
  destruct (StartQPPlay_mode sample_env false true false
              sample_idle
              eq_refl)
    as (start & end_ & options & mode & _ & Hcalls & Hmode & _).
  exists start, end_, options, mode. split; [exact Hcalls | exact Hmode].
Defined.

(** C1 as stated fails: with [cutPreview] requested, a region from 0 to 5
    and the block's [looped] set, playback starts in [loopedPlay]. *)
Lemma StartQPPlay_cutPreview_counterexample :
  (0 <=? PR.GetStart (playRegion sample_region_0_5))%float = true
  /\ last_play_mode (StartQPPlay sample_env true true true sample_region_0_5)
     = Some loopedPlay
  /\ last_play_mode (StartQPPlay sample_env true true true sample_region_0_5)
     <> Some cutPreviewPlay.
Proof.
  split; [reflexivity | split].
  - reflexivity.
  - vm_compute. discriminate.
Qed.

(** The span and the threshold of [StartQPPlay].  With an empty play region
    and [looped] requested, the span played is the selection if the region's
    start lies strictly inside it ([sel0 < start < sel1]) and the whole track
    span otherwise.  Whenever the span played is shorter than 0.001,
    [loopEnabled] is false and the transport is not asked to loop.  For an
    empty region at 3 inside the selection from 2 to 4 the span is from 2 to
    4 and [loopEnabled] is true; the looped flag passed on is then whatever
    the block's [looped] reads at line 1738. *)
Lemma StartQPPlay_span_and_threshold (env : Env)
    (looped cutPreview looped_self : bool) (s : State) :
  (PR.Empty (playRegion s) = true ->
   StartQPPlay_span env true s
   = if (SR.t0 (selectedRegion s) <? PR.GetStart (playRegion s))%float
        && (PR.GetStart (playRegion s) <? SR.t1 (selectedRegion s))%float
     then (SR.t0 (selectedRegion s), SR.t1 (selectedRegion s))
     else (GetStartTime env, GetEndTime env))
  /\ ((0 <=? PR.GetStart (playRegion s))%float = true ->
      let start := fst (StartQPPlay_span env looped s) in
      let end_ := snd (StartQPPlay_span env looped s) in
      (end_ - start <? lit_0_001)%float = true ->
      StartQPPlay_loopEnabled start end_ = false
      /\ exists options mode,
           calls (StartQPPlay env looped cutPreview looped_self s)
           = calls s
             ++ [ProjectAudioManager_Stop;
                 ProjectAudioManager_PlayPlayRegion start end_ options mode]
           /\ loopedArg options = false
           /\ mode <> loopedPlay)
  /\ (mStart (playRegion s) = 3%float -> mEnd (playRegion s) = 3%float ->
      selectedRegion s = mkSelectedRegion 2 4 ->
      StartQPPlay_span env true s = (2%float, 4%float)
      /\ StartQPPlay_loopEnabled 2 4 = true
      /\ exists options mode,
           calls (StartQPPlay env true cutPreview looped_self s)
           = calls s
             ++ [ProjectAudioManager_Stop;
                 ProjectAudioManager_PlayPlayRegion 2 4 options mode]
           /\ loopedArg options = looped_self
           /\ (looped_self = true -> mode = loopedPlay)).
Proof.
  split; [| split].
  - intros Hempty. unfold StartQPPlay_span. rewrite Hempty. reflexivity.
  - intros Hstart. cbv zeta. intros Hshort.
    pose proof (StartQPPlay_calls env looped cutPreview looped_self s Hstart)
      as Hcalls.
    cbv zeta in Hcalls.
    assert (Hoff : StartQPPlay_loopEnabled
                     (fst (StartQPPlay_span env looped s))
                     (snd (StartQPPlay_span env looped s)) = false)
      by (apply ltb_asym; exact Hshort).
    rewrite Hoff in Hcalls. cbn [andb] in Hcalls.
    split; [exact Hoff |].
    do 2 eexists. split; [exact Hcalls |].
    destruct cutPreview; cbn; split; try reflexivity; discriminate.
  - intros H3 H3' Hsel.
    assert (Hspan : StartQPPlay_span env true s = (2%float, 4%float)).
    { unfold StartQPPlay_span, PR.Empty, PR.GetStart, PR.GetEnd.
      rewrite H3, H3', Hsel. reflexivity. }
    split; [exact Hspan | split; [reflexivity |]].
    assert (Hstart : (0 <=? PR.GetStart (playRegion s))%float = true)
      by (unfold PR.GetStart; rewrite H3; reflexivity).
    pose proof (StartQPPlay_calls env true cutPreview looped_self s Hstart)
      as Hcalls.
    cbv zeta in Hcalls. rewrite Hspan in Hcalls. cbn [fst snd] in Hcalls.
    replace (StartQPPlay_loopEnabled 2 4) with true in Hcalls by reflexivity.
    cbn [andb] in Hcalls.
    do 2 eexists. split; [exact Hcalls |].
    destruct looped_self, cutPreview; cbn; split;
      try reflexivity; intros; try reflexivity; discriminate.
Qed.

Lemma StartQPPlay_span_and_threshold_sample :
  StartQPPlay_span sample_env true
    sample_point_in_selection
  = (2%float, 4%float)
  /\ StartQPPlay_span sample_env true
       sample_point_outside_selection
     = (0%float, 10%float)
  /\ StartQPPlay_loopEnabled
       (fst (StartQPPlay_span sample_env false
               sample_point_outside_selection))
       (snd (StartQPPlay_span sample_env false
               sample_point_outside_selection))
     = false.
Proof.
  split; [| split].
  - apply (StartQPPlay_span_and_threshold sample_env true false true
             sample_point_in_selection);
      reflexivity.
  - rewrite (proj1 (StartQPPlay_span_and_threshold sample_env true false true
                      sample_point_outside_selection)); reflexivity.
  - apply (proj1 (proj2 (StartQPPlay_span_and_threshold sample_env false
                           false true
                           sample_point_outside_selection))); reflexivity.
Qed.

(** C4.  Looping a point, at the input where the code departs from the
    claim.  The tracks run from 0 to 10, the selection from 2 to 4, the play
    region is empty at 3, and [StartQPPlay] is called with [looped] requested
    and no cut preview.  The span is the selection and [loopEnabled] is true,
    as claimed.  The flag of line 1738, [bool looped = (loopEnabled &&
    looped);], is a new local that hides the parameter and reads itself in
    its own initialiser: when it reads false the transport is asked for one
    pass over the span from 2 to 4 in [normalPlay] with the looped option
    off, so looping does not stay enabled; only when it reads true is the
    span looped.  The request of the caller reaches the choice of the span
    (line 1719) and not the flag. *)
Theorem StartQPPlay_loop_point_plays_once :
  PR.Empty (playRegion sample_point_in_selection) = true
  /\ StartQPPlay_span sample_env true sample_point_in_selection
     = (2%float, 4%float)
  /\ StartQPPlay_loopEnabled 2 4 = true
  /\ calls (StartQPPlay sample_env true false false sample_point_in_selection)
     = [ProjectAudioManager_Stop;
        ProjectAudioManager_PlayPlayRegion 2 4
          (mkOptions false (Some 3%float) true) normalPlay]
  /\ last_play_mode
       (StartQPPlay sample_env true false false sample_point_in_selection)
     <> Some loopedPlay
  /\ calls (StartQPPlay sample_env true false true sample_point_in_selection)
     = [ProjectAudioManager_Stop;
        ProjectAudioManager_PlayPlayRegion 2 4
          (mkOptions true (Some 3%float) true) loopedPlay].
Proof.
  repeat split; try reflexivity.
  vm_compute. discriminate.
Qed.

(** ** The release policy *)

Lemma playRegion_ClearPlayRegion (env : Env) (s : State) :
  PR.GetStart (playRegion (ClearPlayRegion env s)) = minus_one
  /\ PR.GetEnd (playRegion (ClearPlayRegion env s)) = minus_one.
Proof. split; reflexivity. Qed.

(** An empty region fails the third test of the policy. *)
Lemma Empty_not_positive (r : PlayRegion) :
  PR.Empty r = true -> (0 <? PR.GetEnd r - PR.GetStart r)%float = false.
Proof. unfold PR.Empty, PR.GetEnd, PR.GetStart. apply leb_not_gtb. Qed.

(** Where the chain of the specification and the code part: under shift
    with an empty region the code stops after the first test, so a start at
    or past the tracks' end no longer clears. *)
Lemma spec_release_clears_diff (env : Env) (evt : wxMouseEvent) (s : State) :
  spec_release_clears env evt s
  = release_clears env evt s
    || (ShiftDown evt && PR.Empty (playRegion s)
        && (GetEndTime env <=? PR.GetStart (playRegion s))%float).
Proof.
  unfold spec_release_clears, release_clears.
  destruct (ShiftDown evt); cbn [andb].
  - destruct (PR.Empty (playRegion s)) eqn:Eempty; cbn [andb].
    + rewrite (Empty_not_positive _ Eempty). cbn [andb].
      destruct ((_ <? _)%float || (_ <? _)%float);
        destruct ((_ <? _)%float || (_ <? _)%float);
        destruct (_ <=? _)%float; reflexivity.
    + destruct (_ <=? _)%float; cbn; [reflexivity |].
      destruct (_ && _); reflexivity.
  - destruct (_ <=? _)%float; cbn; [reflexivity |].
    destruct (_ && _); reflexivity.
Qed.

(** C2, as the code has it.  On mouse-up, after the play region has been
    ordered, [HandleQPRelease] clears it exactly in these cases.  With shift
    held and the region empty: if the selection lies outside the tracks
    ([sel1 < t0] or [sel0 > t1]) and so does the region's start
    ([start < t0] or [start > t1]); no other test is made in that case.
    Otherwise (shift not held, or the region not empty): if [start >= t1],
    or if the region is not empty ([end - start > 0]) and [end < t0].  In
    every other case the ordered region stands, with nothing else changed;
    a cleared region has both bounds at -1. *)
Theorem HandleQPRelease_validate_clears (env : Env) (evt : wxMouseEvent)
    (s : State) :
  let ordered := set_playRegion (PR.Order (playRegion s)) s in
  HandleQPRelease_validate env evt s
  = (if release_clears env evt ordered
     then ClearPlayRegion env ordered
     else ordered)
  /\ (release_clears env evt ordered = true ->
      PR.GetStart (playRegion (HandleQPRelease_validate env evt s)) = minus_one
      /\ PR.GetEnd (playRegion (HandleQPRelease_validate env evt s))
         = minus_one)
  /\ (release_clears env evt ordered = false ->
      HandleQPRelease_validate env evt s = ordered).
Proof.
  cbv zeta.
  assert (Heq : HandleQPRelease_validate env evt s
                = if release_clears env evt
                       (set_playRegion (PR.Order (playRegion s)) s)
                  then ClearPlayRegion env
                         (set_playRegion (PR.Order (playRegion s)) s)
                  else set_playRegion (PR.Order (playRegion s)) s).
  { unfold HandleQPRelease_validate, release_clears.
    cbn [playRegion selectedRegion set_playRegion].
    destruct (ShiftDown evt && PR.Empty (PR.Order (playRegion s))).
    - reflexivity.
    - destruct (_ <=? _)%float; [reflexivity |].
      cbn [orb]. reflexivity. }
  split; [exact Heq | split].
  - intros Hclear. rewrite Heq, Hclear. split; reflexivity.
  - intros Hstand. rewrite Heq, Hstand. reflexivity.
Qed.

Lemma HandleQPRelease_validate_clears_witness :
  HandleQPRelease_validate sample_env (shift_release 0) sample_point_past_end
  = sample_point_past_end
  /\ PR.GetStart
       (playRegion
          (HandleQPRelease_validate sample_env (plain_release 0)
             sample_point_past_end))
     = minus_one.
Proof.
  split.
  - rewrite (proj2 (proj2 (HandleQPRelease_validate_clears sample_env
                             (shift_release 0) sample_point_past_end)));
      reflexivity.
  - apply (proj1 (proj2 (HandleQPRelease_validate_clears sample_env
                           (plain_release 0) sample_point_past_end))).
    reflexivity.
Defined.

(** C2 as stated fails: tracks from 0 to 10, selection from 2 to 4, an empty
    region at 12 released with shift held.  The first condition of the chain
    does not hold (the selection overlaps the tracks) and the second does
    (12 >= 10), so the chain says "cleared"; the code leaves the region at
    12. *)
Lemma HandleQPRelease_validate_counterexample :
  spec_release_clears sample_env (shift_release 0)
    (set_playRegion (PR.Order (playRegion sample_point_past_end))
       sample_point_past_end)
  = true
  /\ playRegion
       (HandleQPRelease_validate sample_env (shift_release 0)
          sample_point_past_end)
     = mkPlayRegion 12 12 false
  /\ (PR.GetStart
        (playRegion
           (HandleQPRelease_validate sample_env (shift_release 0)
              sample_point_past_end))
      =? minus_one)%float = false.
Proof. split; [reflexivity | split; reflexivity]. Qed.

(** ** Cancelling a gesture *)

Lemma same_session_refl (s : State) : same_session s s.
Proof. split; reflexivity. Qed.

Lemma same_session_trans (s1 s2 s3 : State) :
  same_session s1 s2 -> same_session s2 s3 -> same_session s1 s3.
Proof.
  unfold same_session. intros [H1 H2] [H3 H4]. split; congruence.
Qed.

Lemma SetPlayRegion_same_session (a b : double) (s : State) :
  same_session s (SetPlayRegion a b s).
Proof.
  unfold SetPlayRegion.
  destruct (negb (mes_eqb (mMouseEventState s) mesNone)); split; reflexivity.
Qed.

Lemma DoSelectionChange_same_session (sel : SelectedRegion) (s : State) :
  same_session s (DoSelectionChange sel s).
Proof.
  unfold DoSelectionChange.
  destruct (negb (PR.Active (playRegion s)));
    [apply SetPlayRegion_same_session | apply same_session_refl].
Qed.

Lemma write_selectedRegion_same_session (sel : SelectedRegion) (s : State) :
  same_session s (write_selectedRegion sel s).
Proof.
  unfold write_selectedRegion.
  apply (same_session_trans s (set_selectedRegion sel s)).
  - split; reflexivity.
  - apply DoSelectionChange_same_session.
Qed.

Lemma selectedRegion_write (sel : SelectedRegion) (s : State) :
  selectedRegion (write_selectedRegion sel s) = sel.
Proof.
  unfold write_selectedRegion, DoSelectionChange, SetPlayRegion.
  cbn [playRegion set_selectedRegion mMouseEventState].
  destruct (negb (PR.Active (playRegion s))); [| reflexivity].
  destruct (negb (mes_eqb (mMouseEventState s) mesNone)); reflexivity.
Qed.

Lemma DragSelection_same_session (s : State) :
  same_session s (DragSelection s).
Proof.
  unfold DragSelection.
  eapply same_session_trans; apply write_selectedRegion_same_session.
Qed.

Lemma UpdateQuickPlayPos_same_session (env : Env) (x : int)
    (shiftDown qpClicked : bool) (s : State) :
  same_session s (snd (UpdateQuickPlayPos env x shiftDown qpClicked s)).
Proof.
  unfold UpdateQuickPlayPos, HandleSnapping.
  destruct ((match LastCell env with Some QPCell => true | _ => false end
             || qpClicked) && negb shiftDown); split; reflexivity.
Qed.

Create HintDb session discriminated.

#[local] Hint Resolve same_session_refl DragSelection_same_session : session.

(** Closes a branch of [HandleQPDrag]: setters of session-neutral members,
    possibly followed by [DragSelection]. *)
Ltac session_branch :=
  match goal with
  | |- same_session _ (DragSelection ?x) =>
      apply (same_session_trans _ x);
      [split; reflexivity | apply DragSelection_same_session]
  | |- same_session _ _ => split; reflexivity
  end.

Lemma HandleQPDrag_same_session (env : Env) (x : int) (s : State) :
  same_session s (HandleQPDrag env x s).
Proof.
  unfold HandleQPDrag.
  destruct (mMouseEventState s);
    repeat match goal with
           | |- context [if ?b then _ else _] => destruct b
           end;
    cbv zeta; session_branch.
Qed.

(** A drag keeps the session and the handle's own record of the click. *)
Lemma QPHandle_Drag_keeps (env : Env) (evt : wxMouseEvent) (h : QPHandle)
    (s : State) :
  let '(_, h', s') := QPHandle_Drag env evt h s in
  same_session s s'
  /\ mOldSelection h' = mOldSelection h
  /\ mClicked (common h') = mClicked (common h)
  /\ mParent (common h') = mParent (common h).
Proof.
  unfold QPHandle_Drag, CommonRulerHandle_Drag.
  cbn [Cancelled RefreshCode_DrawOverlays negb].
  destruct (is_left (mClicked (common h)));
    [destruct (mParent (common h)) eqn:Eparent |];
    try (repeat split; auto with session).
  pose proof (UpdateQuickPlayPos_same_session env (m_x evt) (ShiftDown evt)
                (Clicked (common h)) s) as Hupdate.
  destruct (UpdateQuickPlayPos env (m_x evt) (ShiftDown evt)
              (Clicked (common h)) s) as [x s1].
  cbn [snd] in Hupdate. cbn [common mX mOldSelection mClicked mParent].
  split; [| repeat split].
  eapply same_session_trans; [exact Hupdate |].
  apply HandleQPDrag_same_session.
Qed.

Lemma QPHandle_Drags_keep (env : Env) (evts : list wxMouseEvent) :
  forall (h : QPHandle) (s : State),
    let '(h', s') := QPHandle_Drags env evts h s in
    same_session s s'
    /\ mOldSelection h' = mOldSelection h
    /\ mClicked (common h') = mClicked (common h)
    /\ mParent (common h') = mParent (common h).
Proof.
  induction evts as [| evt evts IH]; intros h s; cbn [QPHandle_Drags].
  - repeat split.
  - pose proof (QPHandle_Drag_keeps env evt h s) as Hstep.
    destruct (QPHandle_Drag env evt h s) as [[result h1] s1].
    specialize (IH h1 s1).
    destruct (QPHandle_Drags env evts h1 s1) as [h2 s2].
    destruct Hstep as (Hs & Hsel & Hclk & Hpar).
    destruct IH as (Hs' & Hsel' & Hclk' & Hpar').
    repeat split; try congruence.
    + destruct Hs, Hs'. congruence.
    + destruct Hs, Hs'. congruence.
Qed.

(** After a left click on a live panel the handle holds the selection and
    the panel the play region of the moment of the click; the play region is
    active afterwards only if it was before. *)
Lemma QPHandle_Click_snapshots (env : Env) (evt : wxMouseEvent) (h : QPHandle)
    (s : State) :
  LeftIsDown evt = true -> mParent (common h) = true ->
  let '(_, h', s') := QPHandle_Click env evt h s in
  mOldSelection h' = selectedRegion s
  /\ mClicked (common h') = Button_Left
  /\ mParent (common h') = true
  /\ mOldPlayRegion s' = playRegion s
  /\ (mActive (playRegion s) = false -> mActive (playRegion s') = false).
Proof.
  intros Hleft Hparent. unfold QPHandle_Click, CommonRulerHandle_Click.
  rewrite Hleft.
  cbn [Cancelled RefreshCode_DrawOverlays negb is_left mClicked common
       mParent mX].
  rewrite Hparent. cbn [negb].
  set (s1 := if HasMark (scrubber env)
             then call ProjectAudioManager_OnPause s else s).
  assert (Hs1 : playRegion s1 = playRegion s /\ selectedRegion s1 = selectedRegion s)
    by (subst s1; destruct (HasMark (scrubber env)); split; reflexivity).
  destruct Hs1 as [Hpr Hsel].
  set (s2 := set_mOldPlayRegion (playRegion s1) s1).
  pose proof (HandleQPDrag_same_session env (mX (common h))
                (HandleQPClick env evt (mX (common h)) s2)) as [Hold Hact].
  destruct (HandleQPClick_keeps_snapshot env evt (mX (common h)) s2)
    as [Hsnap _].
  repeat split.
  - exact Hsel.
  - rewrite Hold, Hsnap. subst s2. cbn. exact Hpr.
  - intros Hinactive. rewrite Hact.
    unfold HandleQPClick. subst s2.
    cbn [mOldPlayRegion set_mOldPlayRegion].
    unfold PR.Active. rewrite Hpr, Hinactive. cbn [andb].
    repeat match goal with
           | |- context [if ?b then _ else _] => destruct b
           end; cbn; rewrite Hpr; exact Hinactive.
Qed.

(** C6.  For a mouse-down with the left button, followed by any number of
    drag moves, followed by [QPHandle::Cancel] (the panel being alive): the
    selection is again the selection of the moment of the click, the play
    region is again the play region of that moment (bounds and activity),
    the session state is [mesNone], and a region that was active then is
    active again. *)
Theorem QPHandle_Cancel_restores (env : Env) (evt : wxMouseEvent)
    (evts : list wxMouseEvent) (h : QPHandle) (s : State) :
  LeftIsDown evt = true ->
  mParent (common h) = true ->
  let s' := QPHandle_cancelled_gesture env evt evts h s in
  selectedRegion s' = selectedRegion s
  /\ playRegion s' = playRegion s
  /\ mMouseEventState s' = mesNone
  /\ (PR.Active (playRegion s) = true -> PR.Active (playRegion s') = true).
Proof.
  intros Hleft Hparent. cbv zeta. unfold QPHandle_cancelled_gesture.
  pose proof (QPHandle_Click_snapshots env evt h s Hleft Hparent) as Hclick.
  destruct (QPHandle_Click env evt h s) as [[result1 h1] s1].
  destruct Hclick as (Hsel1 & Hclk1 & Hpar1 & Hold1 & Hact1).
  pose proof (QPHandle_Drags_keep env evts h1 s1) as Hdrags.
  destruct (QPHandle_Drags env evts h1 s1) as [h2 s2].
  destruct Hdrags as ([Hold2 Hact2] & Hsel2 & Hclk2 & Hpar2).
  unfold QPHandle_Cancel.
  rewrite Hclk2, Hclk1, Hpar2, Hpar1. cbn [is_left].
  set (sa := write_selectedRegion (mOldSelection h2) s2).
  assert (Hsa : selectedRegion sa = selectedRegion s)
    by (subst sa; rewrite selectedRegion_write; congruence).
  destruct (write_selectedRegion_same_session (mOldSelection h2) s2)
    as [Holda Hacta].
  fold sa in Holda, Hacta.
  assert (Hsnap : mOldPlayRegion sa = playRegion s) by congruence.
  unfold SetPlayRegion. cbn [mMouseEventState set_mMouseEventState mes_eqb negb
                             mOldPlayRegion playRegion set_playRegion].
  rewrite Hsnap.
  destruct (PR.Active (playRegion s)) eqn:Eactive;
    cbn [playRegion selectedRegion mMouseEventState set_mOldPlayRegion
         ActivatePlayRegion set_playRegion set_mMouseEventState
         PR.SetActive PR.SetTimes PR.GetStart PR.GetEnd mStart mEnd mActive
         PR.Active].
  - repeat split; try assumption.
    unfold PR.SetActive, PR.SetTimes, PR.GetStart, PR.GetEnd, PR.Active in *.
    destruct (playRegion s) as [a b act]. cbn in *. congruence.
  - repeat split; try assumption; try discriminate.
    assert (Hoff : mActive (playRegion sa) = false).
    { rewrite Hacta, Hact2. apply Hact1. exact Eactive. }
    unfold PR.SetActive, PR.SetTimes, PR.GetStart, PR.GetEnd, PR.Active in *.
    cbn [mActive]. rewrite Hoff.
    destruct (playRegion s) as [a b act]. cbn in *. congruence.
Qed.

Lemma QPHandle_Cancel_restores_witness :
  playRegion
    (QPHandle_cancelled_gesture sample_env (left_down 600)
       [left_drag 650; left_drag 700]
       (mkQPHandle (mkHandle true 600 Button_None) (mkSelectedRegion 0 0))
       sample_active)
  = mkPlayRegion 1 4 true.
Proof.
  apply (QPHandle_Cancel_restores sample_env (left_down 600)
           [left_drag 650; left_drag 700]
           (mkQPHandle (mkHandle true 600 Button_None) (mkSelectedRegion 0 0))
           sample_active); reflexivity.
Defined.

(* ================================================================== *)
(** * Further properties *)

(** ** Dragging on the quick-play ruler *)

Lemma SetPlayRegion_live (a b : double) (s : State) :
  live (mMouseEventState s) -> SetPlayRegion a b s = s.
Proof.
  intros Hlive. unfold SetPlayRegion.
  destruct (mes_eqb (mMouseEventState s) mesNone) eqn:E; [| reflexivity].
  apply mes_eqb_eq in E. contradiction.
Qed.

Lemma DoSelectionChange_live (sel : SelectedRegion) (s : State) :
  live (mMouseEventState s) -> DoSelectionChange sel s = s.
Proof.
  intros Hlive. unfold DoSelectionChange.
  destruct (negb (PR.Active (playRegion s))); [| reflexivity].
  apply SetPlayRegion_live. exact Hlive.
Qed.

Lemma DragSelection_live (s : State) :
  live (mMouseEventState s) ->
  DragSelection s
  = set_selectedRegion
      (mkSelectedRegion (PR.GetStart (playRegion s)) (PR.GetEnd (playRegion s)))
      s.
Proof.
  intros Hlive. unfold DragSelection, write_selectedRegion.
  rewrite (DoSelectionChange_live _ (set_selectedRegion _ s)) by exact Hlive.
  rewrite DoSelectionChange_live by exact Hlive.
  reflexivity.
Qed.

Lemma live_dragging_start : live mesDraggingPlayRegionStart.
Proof. discriminate. Qed.

Lemma live_dragging_end : live mesDraggingPlayRegionEnd.
Proof. discriminate. Qed.

Lemma live_click : live mesSelectingPlayRegionClick.
Proof. discriminate. Qed.

Lemma live_range : live mesSelectingPlayRegionRange.
Proof. discriminate. Qed.

#[local] Hint Resolve live_dragging_start live_dragging_end live_click
  live_range : session.

(** Unfolds [HandleQPDrag] in a known session state and splits its tests;
    in the live states [DragSelection] is replaced by the plain write of the
    selection. *)
Ltac drag_cases Hstate :=
  unfold HandleQPDrag; rewrite Hstate;
  repeat match goal with
         | |- context [if ?b then _ else _] => destruct b eqn:?
         end;
  cbv zeta;
  repeat match goal with
         | |- context [DragSelection ?x] =>
             rewrite (DragSelection_live x)
               by (cbn; rewrite ?Hstate; auto with session)
         end.

(** X1.  A drag never ends and never starts a session by itself: the session
    state after [HandleQPDrag] is the state before, except that a pending
    click turns into a range selection once the mouse is beyond the
    tolerance of the click (and the anchor is set). *)
Theorem HandleQPDrag_session_state (env : Env) (mousePosX : int) (s : State) :
  let s' := HandleQPDrag env mousePosX s in
  (mMouseEventState s <> mesSelectingPlayRegionClick ->
   mMouseEventState s' = mMouseEventState s)
  /\ (mMouseEventState s = mesSelectingPlayRegionClick ->
      mMouseEventState s'
      = if ((0 <=? mLeftDownClickUnsnapped s)%float
            && IsWithinMarker env mousePosX (mLeftDownClickUnsnapped s))
           || (mLeftDownClick s =? minus_one)%float
        then mesSelectingPlayRegionClick
        else mesSelectingPlayRegionRange)
  /\ (live (mMouseEventState s) -> live (mMouseEventState s')).
Proof.
  cbv zeta.
  assert (Hsame : mMouseEventState s <> mesSelectingPlayRegionClick ->
                  mMouseEventState (HandleQPDrag env mousePosX s)
                  = mMouseEventState s).
  { intros Hnot. destruct (mMouseEventState s) eqn:Hstate;
      try contradiction; drag_cases Hstate; cbn; congruence. }
  assert (Hclick : mMouseEventState s = mesSelectingPlayRegionClick ->
                   mMouseEventState (HandleQPDrag env mousePosX s)
                   = if ((0 <=? mLeftDownClickUnsnapped s)%float
                         && IsWithinMarker env mousePosX
                              (mLeftDownClickUnsnapped s))
                        || (mLeftDownClick s =? minus_one)%float
                     then mesSelectingPlayRegionClick
                     else mesSelectingPlayRegionRange).
  { intros Hstate. unfold HandleQPDrag. rewrite Hstate.
    destruct (((0 <=? mLeftDownClickUnsnapped s)%float
               && IsWithinMarker env mousePosX (mLeftDownClickUnsnapped s))
              || (mLeftDownClick s =? minus_one)%float); cbn; congruence. }
  split; [exact Hsame | split; [exact Hclick |]].
  intros Hlive.
  destruct (mMouseEventState s) eqn:Hstate;
    try (rewrite Hsame by discriminate; exact Hlive).
  rewrite (Hclick eq_refl).
  destruct (_ || _); discriminate.
Qed.

Lemma HandleQPDrag_session_state_witness :
  mMouseEventState (HandleQPDrag sample_env 700 sample_range)
  = mesSelectingPlayRegionRange.
Proof.
  rewrite (proj1 (HandleQPDrag_session_state sample_env 700 sample_range));
    [reflexivity | discriminate].
Defined.

(** X2.  Dragging the start edge never moves the end of the play region, and
    dragging the end edge never moves the start; neither changes whether the
    region is active. *)
Theorem HandleQPDrag_moves_one_edge (env : Env) (mousePosX : int) (s : State) :
  let s' := HandleQPDrag env mousePosX s in
  (mMouseEventState s = mesDraggingPlayRegionStart ->
   mEnd (playRegion s') = mEnd (playRegion s)
   /\ mActive (playRegion s') = mActive (playRegion s))
  /\ (mMouseEventState s = mesDraggingPlayRegionEnd ->
      mStart (playRegion s') = mStart (playRegion s)
      /\ mActive (playRegion s') = mActive (playRegion s)).
Proof.
  cbv zeta. split; intros Hstate; drag_cases Hstate; split; reflexivity.
Qed.

Lemma HandleQPDrag_moves_one_edge_witness :
  mEnd (playRegion (HandleQPDrag sample_env 200 sample_dragging_start))
  = 4%float.
Proof.
  apply (proj1 (HandleQPDrag_moves_one_edge sample_env 200
                  sample_dragging_start)).
  reflexivity.
Defined.

(** X3.  While a range is being selected, every drag leaves the play region
    with the anchor of the click as one bound and never with its end below
    its start, so that [Order()] has nothing to swap. *)
Theorem HandleQPDrag_range_ordered (env : Env) (mousePosX : int) (s : State) :
  mMouseEventState s = mesSelectingPlayRegionRange ->
  let r := playRegion (HandleQPDrag env mousePosX s) in
  (mEnd r <? mStart r)%float = false
  /\ PR.Order r = r
  /\ (mStart r = mLeftDownClick s \/ mEnd r = mLeftDownClick s).
Proof.
  intros Hstate. cbv zeta.
  assert (H : let r := playRegion (HandleQPDrag env mousePosX s) in
              (mEnd r <? mStart r)%float = false
              /\ (mStart r = mLeftDownClick s \/ mEnd r = mLeftDownClick s)).
  { cbv zeta. drag_cases Hstate;
      cbn [playRegion set_playRegion set_selectedRegion set_mQuickPlayPos
           mQuickPlayPos mLeftDownClick PR.SetTimes mStart mEnd] in *;
      (split; [| auto]);
      try assumption;
      match goal with
      | Hlt : (?a <? ?b)%float = true |- (?b <? ?a)%float = false =>
          apply ltb_asym; exact Hlt
      end. }
  cbv zeta in H. destruct H as [Hord Hanchor].
  split; [exact Hord | split; [| exact Hanchor]].
  unfold PR.Order. rewrite Hord. reflexivity.
Qed.

Lemma HandleQPDrag_range_ordered_witness :
  playRegion (HandleQPDrag sample_env 500 sample_range)
  = mkPlayRegion 6 7 false
  /\ PR.Order (playRegion (HandleQPDrag sample_env 500 sample_range))
     = playRegion (HandleQPDrag sample_env 500 sample_range).
Proof.
  split; [reflexivity |].
  apply (HandleQPDrag_range_ordered sample_env 500 sample_range).
  reflexivity.
Defined.

(** X4.  With dragging of the selection switched on and the play region
    not active at the click, every drag of an edge or of a range leaves the
    selection's bounds equal to the play region's; with it switched off, or
    with a region that was active, a drag never touches the selection. *)
Theorem HandleQPDrag_mirrors_selection (env : Env) (mousePosX : int)
    (s : State) :
  let s' := HandleQPDrag env mousePosX s in
  let canDragSel :=
    negb (PR.Active (mOldPlayRegion s)) && mPlayRegionDragsSelection env in
  (canDragSel = true ->
   mMouseEventState s = mesDraggingPlayRegionStart
   \/ mMouseEventState s = mesDraggingPlayRegionEnd
   \/ mMouseEventState s = mesSelectingPlayRegionRange ->
   selectedRegion s'
   = mkSelectedRegion (PR.GetStart (playRegion s')) (PR.GetEnd (playRegion s')))
  /\ (canDragSel = false -> selectedRegion s' = selectedRegion s).
Proof.
  cbv zeta. split.
  - intros Hcan [Hstate | [Hstate | Hstate]];
      unfold HandleQPDrag; rewrite Hstate, Hcan;
      repeat match goal with
             | |- context [if ?b then _ else _] => destruct b eqn:?
             end;
      cbv zeta;
      repeat match goal with
             | |- context [DragSelection ?x] =>
                 rewrite (DragSelection_live x)
                   by (cbn; rewrite ?Hstate; auto with session)
             end;
      reflexivity.
  - intros Hcan. unfold HandleQPDrag. rewrite Hcan.
    destruct (mMouseEventState s);
      repeat match goal with
             | |- context [if ?b then _ else _] => destruct b eqn:?
             end;
      reflexivity.
Qed.

Lemma HandleQPDrag_mirrors_selection_witness :
  selectedRegion (HandleQPDrag sample_env_dragsel 500 sample_range)
  = mkSelectedRegion 6 7
  /\ selectedRegion (HandleQPDrag sample_env 500 sample_range)
     = mkSelectedRegion 2 4.
Proof.
  split.
  - rewrite (proj1 (HandleQPDrag_mirrors_selection sample_env_dragsel 500
                      sample_range)).
    + reflexivity.
    + reflexivity.
    + right. right. reflexivity.
  - rewrite (proj2 (HandleQPDrag_mirrors_selection sample_env 500
                      sample_range)); reflexivity.
Defined.

(** X5.  Tolerance while an edge is dragged.  Within the tolerance of the
    opposite edge the dragged edge lands exactly on it, so the region
    collapses to a point.  Otherwise, as long as the mouse has not left the
    tolerance of the dragged edge's own old place, that edge stays where it
    was and dragging has not begun.  Once dragging has begun, no drag makes
    it not begun again. *)
Theorem HandleQPDrag_edge_tolerance (env : Env) (mousePosX : int) (s : State) :
  let s' := HandleQPDrag env mousePosX s in
  let old := mOldPlayRegion s in
  let isWithinStart := IsWithinMarker env mousePosX (PR.GetStart old) in
  let isWithinEnd := IsWithinMarker env mousePosX (PR.GetEnd old) in
  (mMouseEventState s = mesDraggingPlayRegionStart ->
   (isWithinEnd = true -> mStart (playRegion s') = PR.GetEnd old)
   /\ (isWithinEnd = false -> isWithinStart = true -> mIsDragging s = false ->
       mStart (playRegion s') = PR.GetStart old /\ mIsDragging s' = false))
  /\ (mMouseEventState s = mesDraggingPlayRegionEnd ->
      (isWithinStart = true -> mEnd (playRegion s') = PR.GetStart old)
      /\ (isWithinStart = false -> isWithinEnd = true -> mIsDragging s = false ->
          mEnd (playRegion s') = PR.GetEnd old /\ mIsDragging s' = false))
  /\ (mIsDragging s = true -> mIsDragging s' = true).
Proof.
  cbv zeta. split; [| split].
  - intros Hstate. split.
    + intros Hend. unfold HandleQPDrag. rewrite Hstate, Hend.
      repeat match goal with
             | |- context [if ?b then _ else _] => destruct b eqn:?
             end;
        cbv zeta;
        repeat match goal with
               | |- context [DragSelection ?x] =>
                   rewrite (DragSelection_live x)
                     by (cbn; rewrite ?Hstate; auto with session)
               end;
        reflexivity.
    + intros Hend Hstart Hnot. unfold HandleQPDrag.
      rewrite Hstate, Hend, Hstart, Hnot. cbn [negb andb].
      destruct (negb (PR.Active (mOldPlayRegion s))
                && mPlayRegionDragsSelection env);
        cbv zeta;
        repeat match goal with
               | |- context [DragSelection ?x] =>
                   rewrite (DragSelection_live x)
                     by (cbn; rewrite ?Hstate; auto with session)
               end;
        (split; [reflexivity | cbn; exact Hnot]).
  - intros Hstate. split.
    + intros Hstart. unfold HandleQPDrag. rewrite Hstate, Hstart.
      repeat match goal with
             | |- context [if ?b then _ else _] => destruct b eqn:?
             end;
        cbv zeta;
        repeat match goal with
               | |- context [DragSelection ?x] =>
                   rewrite (DragSelection_live x)
                     by (cbn; rewrite ?Hstate; auto with session)
               end;
        reflexivity.
    + intros Hstart Hend Hnot. unfold HandleQPDrag.
      rewrite Hstate, Hend, Hstart, Hnot. cbn [negb andb].
      destruct (negb (PR.Active (mOldPlayRegion s))
                && mPlayRegionDragsSelection env);
        cbv zeta;
        repeat match goal with
               | |- context [DragSelection ?x] =>
                   rewrite (DragSelection_live x)
                     by (cbn; rewrite ?Hstate; auto with session)
               end;
        (split; [reflexivity | cbn; exact Hnot]).
  - intros Hdrag. unfold HandleQPDrag. rewrite Hdrag. cbn [negb andb].
    destruct (mMouseEventState s) eqn:Hstate;
      repeat match goal with
             | |- context [if ?b then _ else _] => destruct b eqn:?
             end;
      cbv zeta;
      repeat match goal with
             | |- context [DragSelection ?x] =>
                 rewrite (DragSelection_live x)
                   by (cbn; rewrite ?Hstate; auto with session)
             end;
      cbn; try reflexivity; exact Hdrag.
Qed.

Lemma HandleQPDrag_edge_tolerance_witness :
  mStart (playRegion (HandleQPDrag sample_env 398 sample_dragging_start))
  = 4%float
  /\ mStart (playRegion (HandleQPDrag sample_env 102 sample_dragging_start))
     = 1%float
  /\ mIsDragging (HandleQPDrag sample_env 102 sample_dragging_start) = false.
Proof.
  split.
  - apply (proj1 (proj1 (HandleQPDrag_edge_tolerance sample_env 398
                           sample_dragging_start) eq_refl)).
    reflexivity.
  - exact (proj2 (proj1 (HandleQPDrag_edge_tolerance sample_env 102
                           sample_dragging_start) eq_refl)
             eq_refl eq_refl eq_refl).
Defined.

(** ** The quick-play position *)

Lemma ltb_irrefl (a : double) : (a <? a)%float = false.
Proof.
  destruct (a <? a)%float eqn:E; [| reflexivity].
  pose proof (ltb_asym _ _ E). congruence.
Qed.

(** X6.  [UpdateQuickPlayPos] keeps the mouse position inside the usable
    track area: for a usable width of at least one pixel the position handed
    back lies between the left offset and the left offset plus the width
    minus one, it is the given position if that already lies there, and the
    unsnapped quick-play time is the time of that clamped position. *)
Theorem UpdateQuickPlayPos_clamps (env : Env) (mousePosX : int)
    (shiftDown qpClicked : bool) (s : State) :
  1 <= GetTracksUsableWidth env ->
  half_range (GetTracksUsableWidth env) ->
  half_range (GetLeftOffset env) ->
  let left := GetLeftOffset env in
  let right := GetLeftOffset env + GetTracksUsableWidth env - 1 in
  let r := UpdateQuickPlayPos env mousePosX shiftDown qpClicked s in
  left <= fst r <= right
  /\ (left <= mousePosX <= right -> fst r = mousePosX)
  /\ mQuickPlayPosUnsnapped (snd r) = Pos2Time env (fst r).
Proof.
  intros Hwidth Hw Hl. cbv zeta.
  unfold UpdateQuickPlayPos, HandleSnapping.
  assert (Hright : int_sub (int_add (GetLeftOffset env)
                              (GetTracksUsableWidth env)) 1
                   = GetLeftOffset env + GetTracksUsableWidth env - 1).
  { unfold half_range in *. unfold int_sub, int_add.
    rewrite (wrap_int_id (GetLeftOffset env + GetTracksUsableWidth env))
      by (unfold in_int; lia).
    apply wrap_int_id. unfold in_int. lia. }
  rewrite Hright.
  destruct ((match LastCell env with Some QPCell => true | _ => false end
             || qpClicked) && negb shiftDown);
    cbn [fst snd mQuickPlayPosUnsnapped set_mQuickPlayPos
         set_mQuickPlayPosUnsnapped set_mIsSnapped mQuickPlayPos];
    unfold min_int, max_int;
    destruct (Z.ltb_spec mousePosX (GetLeftOffset env));
    match goal with
    | |- context [if ?a <? ?b then _ else _] => destruct (Z.ltb_spec a b)
    end;
    repeat split; intros; try lia; reflexivity.
Qed.

Lemma UpdateQuickPlayPos_clamps_witness :
  0 <= fst (UpdateQuickPlayPos sample_env 5000 false false sample_idle) <= 999
  /\ fst (UpdateQuickPlayPos sample_env 250 false false sample_idle) = 250.
Proof.
  assert (Hwidth : 1 <= GetTracksUsableWidth sample_env)
    by (vm_compute; discriminate).
  assert (Hw : half_range (GetTracksUsableWidth sample_env))
    by (vm_compute; split; [discriminate | reflexivity]).
  assert (Hl : half_range (GetLeftOffset sample_env))
    by (vm_compute; split; [discriminate | reflexivity]).
  split.
  - exact (proj1 (UpdateQuickPlayPos_clamps sample_env 5000 false false
                    sample_idle Hwidth Hw Hl)).
  - apply (proj1 (proj2 (UpdateQuickPlayPos_clamps sample_env 250 false false
                           sample_idle Hwidth Hw Hl))).
    vm_compute. split; discriminate.
Defined.

(** X7.  Without shift, and with the pointer over the quick-play cell or the
    quick-play handle clicked, the quick-play time that [UpdateQuickPlayPos]
    leaves is never beyond the end of the tracks, wherever the mouse is and
    whatever the snapping returned.  With shift held it is the snapped time
    as it is. *)
Theorem UpdateQuickPlayPos_within_tracks (env : Env) (mousePosX : int)
    (shiftDown qpClicked : bool) (s : State) :
  let s' := snd (UpdateQuickPlayPos env mousePosX shiftDown qpClicked s) in
  let inQP := match LastCell env with Some QPCell => true | _ => false end in
  ((inQP || qpClicked) && negb shiftDown = true ->
   (GetEndTime env <? mQuickPlayPos s')%float = false)
  /\ (shiftDown = true ->
      mQuickPlayPos s'
      = fst (SnapManager_Snap env (selectedRegion s)
               (mQuickPlayPosUnsnapped s'))).
Proof.
  cbv zeta. unfold UpdateQuickPlayPos, HandleSnapping. split.
  - intros ->.
    cbn [snd mQuickPlayPos set_mQuickPlayPos set_mQuickPlayPosUnsnapped
         set_mIsSnapped].
    unfold min_double.
    match goal with
    | |- context [if (?a <? ?b)%float then _ else _] =>
        destruct (a <? b)%float eqn:E
    end.
    + apply ltb_asym. exact E.
    + apply ltb_irrefl.
  - intros ->. rewrite andb_false_r. reflexivity.
Qed.

Lemma UpdateQuickPlayPos_within_tracks_witness :
  (GetEndTime sample_env
   <? mQuickPlayPos
        (snd (UpdateQuickPlayPos sample_env 5000 false false
                (sample_state (mkPlayRegion 1 2 false)
                   (mkSelectedRegion 2 4)))))%float
  = false.
Proof.
  apply (proj1 (UpdateQuickPlayPos_within_tracks sample_env 5000 false false
                  (sample_state (mkPlayRegion 1 2 false)
                     (mkSelectedRegion 2 4)))).
  reflexivity.
Defined.

(** ** Releasing the button *)

Lemma transport_frame_refl (s : State) : transport_frame s s.
Proof. repeat split. Qed.

Lemma transport_frame_trans (s1 s2 s3 : State) :
  transport_frame s1 s2 -> transport_frame s2 s3 -> transport_frame s1 s3.
Proof.
  unfold transport_frame. intros H1 H2.
  repeat match goal with H : _ /\ _ |- _ => destruct H end.
  repeat split; congruence.
Qed.

Lemma SetPlayRegion_frame (a b : double) (s : State) :
  transport_frame s (SetPlayRegion a b s).
Proof.
  unfold SetPlayRegion.
  destruct (negb (mes_eqb (mMouseEventState s) mesNone)); repeat split.
Qed.

Lemma DoSelectionChange_frame (sel : SelectedRegion) (s : State) :
  transport_frame s (DoSelectionChange sel s).
Proof.
  unfold DoSelectionChange.
  destruct (negb (PR.Active (playRegion s)));
    [apply SetPlayRegion_frame | apply transport_frame_refl].
Qed.

Lemma Stop_frame (env : Env) (s : State) : transport_frame s (Stop env s).
Proof.
  unfold Stop, OnAudioStartStop_playback.
  destruct (StopDeliversPlaybackEvent env); cbn [negb].
  - apply (transport_frame_trans s (call ProjectAudioManager_Stop s)).
    + repeat split.
    + apply DoSelectionChange_frame.
  - repeat split.
Qed.

Lemma ClearPlayRegion_frame (env : Env) (s : State) :
  transport_frame s (ClearPlayRegion env s).
Proof.
  unfold ClearPlayRegion.
  apply (transport_frame_trans s (Stop env s)); [apply Stop_frame |].
  repeat split.
Qed.

Lemma calls_ClearPlayRegion (env : Env) (s : State) :
  calls (ClearPlayRegion env s) = calls s ++ [ProjectAudioManager_Stop].
Proof. unfold ClearPlayRegion. cbn [calls set_playRegion]. apply calls_Stop. Qed.

Lemma StartQPPlay_frame (env : Env) (looped cutPreview looped_self : bool)
    (s : State) :
  transport_frame s (StartQPPlay env looped cutPreview looped_self s).
Proof.
  unfold StartQPPlay.
  destruct (0 <=? PR.GetStart (playRegion s))%float;
    [| apply transport_frame_refl].
  destruct (StartQPPlay_span env looped s) as [start end_].
  apply (transport_frame_trans s (Stop env s)); [apply Stop_frame |].
  repeat split.
Qed.

Lemma HandleQPRelease_validate_frame (env : Env) (evt : wxMouseEvent)
    (s : State) :
  transport_frame s (HandleQPRelease_validate env evt s).
Proof.
  assert (Hord : transport_frame s
                   (set_playRegion (PR.Order (playRegion s)) s)).
  { repeat split. cbn. unfold PR.Order.
    destruct (mEnd (playRegion s) <? mStart (playRegion s))%float;
      reflexivity. }
  unfold HandleQPRelease_validate.
  repeat match goal with
         | |- context [if ?b then _ else _] => destruct b
         end;
    try exact Hord;
    (eapply transport_frame_trans;
     [exact Hord | apply ClearPlayRegion_frame]).
Qed.

(** The state in which [HandleQPRelease] calls [StartQPPlay]. *)
Lemma HandleQPRelease_unfold (env : Env) (evt : wxMouseEvent)
    (looped_self : bool) (s : State) :
  let s1 :=
    set_mLeftDownClick minus_one
      (set_mIsDragging false
         (set_mMouseEventState mesNone (HandleQPRelease_validate env evt s))) in
  let s2 := StartQPPlay env (ShiftDown evt) (ControlDown evt) looped_self s1 in
  HandleQPRelease env evt looped_self s
  = if PR.Active (mOldPlayRegion s)
    then set_mOldPlayRegion (PR.SetActive false (mOldPlayRegion s))
           (set_playRegion
              (mkPlayRegion (mStart (mOldPlayRegion s))
                 (mEnd (mOldPlayRegion s)) true) s2)
    else s2.
Proof.
  cbv zeta. unfold HandleQPRelease.
  set (s1 := set_mLeftDownClick minus_one _).
  pose proof (HandleQPRelease_validate_frame env evt s) as Hv.
  pose proof (StartQPPlay_frame env (ShiftDown evt) (ControlDown evt)
                looped_self s1) as Hp.
  set (s2 := StartQPPlay env (ShiftDown evt) (ControlDown evt) looped_self s1)
    in *.
  assert (Hold : mOldPlayRegion s2 = mOldPlayRegion s).
  { destruct Hp as (_ & Hp & _). destruct Hv as (_ & Hv & _).
    rewrite Hp. subst s1. cbn. exact Hv. }
  assert (Hstate : mMouseEventState s2 = mesNone).
  { destruct Hp as (_ & _ & Hp & _). rewrite Hp. reflexivity. }
  rewrite Hold.
  destruct (PR.Active (mOldPlayRegion s)); [| reflexivity].
  unfold SetPlayRegion. rewrite Hstate. cbn [mes_eqb negb].
  unfold ActivatePlayRegion. cbn. rewrite Hold. reflexivity.
Qed.

Lemma HandleQPRelease_fields (env : Env) (evt : wxMouseEvent)
    (looped_self : bool) (s : State) :
  mMouseEventState (HandleQPRelease env evt looped_self s) = mesNone
  /\ mIsDragging (HandleQPRelease env evt looped_self s) = false
  /\ mLeftDownClick (HandleQPRelease env evt looped_self s) = minus_one
  /\ selectedRegion (HandleQPRelease env evt looped_self s)
     = selectedRegion s.
Proof.
  pose proof (HandleQPRelease_unfold env evt looped_self s) as Heq.
  cbv zeta in Heq.
  pose proof (HandleQPRelease_validate_frame env evt s)
    as (Hsel & _ & _).
  pose proof (StartQPPlay_frame env (ShiftDown evt) (ControlDown evt)
                looped_self
                (set_mLeftDownClick minus_one
                   (set_mIsDragging false
                      (set_mMouseEventState mesNone
                         (HandleQPRelease_validate env evt s)))))
    as (Hsel' & _ & Hstate & Hdrag & Hclick & _).
  cbn in Hsel', Hstate, Hdrag, Hclick.
  rewrite Heq. destruct (PR.Active (mOldPlayRegion s)); cbn;
    repeat split; congruence.
Qed.

(** X8.  Mouse-up ends the session, whatever it was: after
    [HandleQPRelease] the session state is [mesNone], dragging is off and the
    anchor is unset, so that a later [SetPlayRegion] from outside takes
    effect again.  The selection is never changed by the release. *)
Theorem HandleQPRelease_ends_session (env : Env) (evt : wxMouseEvent)
    (looped_self : bool) (s : State) :
  let s' := HandleQPRelease env evt looped_self s in
  mMouseEventState s' = mesNone
  /\ mIsDragging s' = false
  /\ mLeftDownClick s' = minus_one
  /\ selectedRegion s' = selectedRegion s
  /\ forall a b,
       PR.GetStart (playRegion (SetPlayRegion a b s')) = a
       /\ PR.GetEnd (playRegion (SetPlayRegion a b s')) = b.
Proof.
  cbv zeta.
  destruct (HandleQPRelease_fields env evt looped_self s)
    as (H1 & H2 & H3 & H4).
  repeat split; try assumption;
    unfold SetPlayRegion; rewrite H1; reflexivity.
Qed.

Lemma HandleQPRelease_ends_session_witness :
  mMouseEventState
    (HandleQPRelease sample_env (plain_release 700) true sample_range)
  = mesNone.
Proof.
  exact (proj1 (HandleQPRelease_ends_session sample_env (plain_release 700)
                  true sample_range)).
Defined.

(** X9.  A play region that was active (locked) at the click is put back by
    the release: whatever was dragged, cleared or played, after
    [HandleQPRelease] the play region has the bounds of the snapshot and is
    active, and the snapshot no longer counts as active. *)
Theorem HandleQPRelease_restores_locked (env : Env) (evt : wxMouseEvent)
    (looped_self : bool) (s : State) :
  PR.Active (mOldPlayRegion s) = true ->
  let s' := HandleQPRelease env evt looped_self s in
  playRegion s' = mOldPlayRegion s
  /\ PR.Active (mOldPlayRegion s') = false.
Proof.
  intros Hactive. cbv zeta.
  rewrite (HandleQPRelease_unfold env evt looped_self s). cbv zeta.
  rewrite Hactive. cbn. split; [| reflexivity].
  unfold PR.Active in Hactive.
  destruct (mOldPlayRegion s) as [a b act]. cbn in *. congruence.
Qed.

Lemma HandleQPRelease_restores_locked_witness :
  playRegion
    (HandleQPRelease sample_env (plain_release 700) true sample_locked_release)
  = mkPlayRegion 1 4 true.
Proof.
  apply (HandleQPRelease_restores_locked sample_env (plain_release 700) true
           sample_locked_release).
  reflexivity.
Defined.

Lemma calls_HandleQPRelease (env : Env) (evt : wxMouseEvent)
    (looped_self : bool) (s : State) :
  calls (HandleQPRelease env evt looped_self s)
  = calls
      (StartQPPlay env (ShiftDown evt) (ControlDown evt) looped_self
         (set_mLeftDownClick minus_one
            (set_mIsDragging false
               (set_mMouseEventState mesNone
                  (HandleQPRelease_validate env evt s))))).
Proof.
  rewrite (HandleQPRelease_unfold env evt looped_self s). cbv zeta.
  destruct (PR.Active (mOldPlayRegion s)); reflexivity.
Qed.

Lemma HandleQPRelease_validate_eq (env : Env) (evt : wxMouseEvent) (s : State) :
  HandleQPRelease_validate env evt s
  = if release_clears env evt (set_playRegion (PR.Order (playRegion s)) s)
    then ClearPlayRegion env (set_playRegion (PR.Order (playRegion s)) s)
    else set_playRegion (PR.Order (playRegion s)) s.
Proof.
  unfold HandleQPRelease_validate, release_clears.
  cbn [playRegion selectedRegion set_playRegion].
  destruct (ShiftDown evt && PR.Empty (PR.Order (playRegion s))).
  - reflexivity.
  - destruct (_ <=? _)%float; [reflexivity |].
    cbn [orb]. reflexivity.
Qed.

(** X10.  A release that clears the play region stops the transport and
    starts nothing: the log gains the one [Stop] of [ClearPlayRegion] and no
    [PlayPlayRegion], and, unless a locked region is put back, the play
    region is left with both bounds at -1. *)
Theorem HandleQPRelease_cleared_plays_nothing (env : Env) (evt : wxMouseEvent)
    (looped_self : bool) (s : State) :
  release_clears env evt (set_playRegion (PR.Order (playRegion s)) s) = true ->
  let s' := HandleQPRelease env evt looped_self s in
  calls s' = calls s ++ [ProjectAudioManager_Stop]
  /\ (PR.Active (mOldPlayRegion s) = false ->
      mStart (playRegion s') = minus_one /\ mEnd (playRegion s') = minus_one).
Proof.
  intros Hclear. cbv zeta.
  rewrite calls_HandleQPRelease.
  rewrite (HandleQPRelease_unfold env evt looped_self s). cbv zeta.
  rewrite HandleQPRelease_validate_eq, Hclear.
  set (s0 := set_playRegion (PR.Order (playRegion s)) s).
  assert (Hidle : forall t,
             StartQPPlay env (ShiftDown evt) (ControlDown evt) looped_self
               (set_mLeftDownClick minus_one
                  (set_mIsDragging false
                     (set_mMouseEventState mesNone (ClearPlayRegion env t))))
             = set_mLeftDownClick minus_one
                 (set_mIsDragging false
                    (set_mMouseEventState mesNone (ClearPlayRegion env t))))
    by (intros t; reflexivity).
  rewrite Hidle. split.
  - cbn [calls set_mLeftDownClick set_mIsDragging set_mMouseEventState].
    rewrite calls_ClearPlayRegion. reflexivity.
  - intros ->. split; reflexivity.
Qed.

Lemma HandleQPRelease_cleared_plays_nothing_witness :
  calls
    (HandleQPRelease sample_env (plain_release 0) true sample_point_past_end)
  = [ProjectAudioManager_Stop].
Proof.
  apply (HandleQPRelease_cleared_plays_nothing sample_env (plain_release 0)
           true sample_point_past_end).
  reflexivity.
Defined.

(** X11.  A release that lets the ordered region stand with its start at
    zero or later asks the transport for exactly one stop followed by one
    [PlayPlayRegion], looping requested by shift and cut preview by control,
    over the span [StartQPPlay] picks for the ordered region; unless a locked
    region is put back, the play region then shows that span.  A region that
    stands with its start below zero asks for nothing. *)
Theorem HandleQPRelease_standing_plays_once (env : Env) (evt : wxMouseEvent)
    (looped_self : bool) (s : State) :
  let ordered := set_playRegion (PR.Order (playRegion s)) s in
  release_clears env evt ordered = false ->
  let s' := HandleQPRelease env evt looped_self s in
  ((0 <=? PR.GetStart (playRegion ordered))%float = true ->
   exists options mode,
     calls s'
     = calls s
       ++ [ProjectAudioManager_Stop;
           ProjectAudioManager_PlayPlayRegion
             (fst (StartQPPlay_span env (ShiftDown evt) ordered))
             (snd (StartQPPlay_span env (ShiftDown evt) ordered))
             options mode]
     /\ (PR.Active (mOldPlayRegion s) = false ->
         mStart (playRegion s')
         = fst (StartQPPlay_span env (ShiftDown evt) ordered)
         /\ mEnd (playRegion s')
            = snd (StartQPPlay_span env (ShiftDown evt) ordered)))
  /\ ((0 <=? PR.GetStart (playRegion ordered))%float = false ->
      calls s' = calls s).
Proof.
  cbv zeta. intros Hstand.
  rewrite (HandleQPRelease_unfold env evt looped_self s). cbv zeta.
  rewrite HandleQPRelease_validate_eq, Hstand.
  set (s0 := set_playRegion (PR.Order (playRegion s)) s).
  set (s1 := set_mLeftDownClick minus_one
               (set_mIsDragging false (set_mMouseEventState mesNone s0))).
  assert (Hspan : StartQPPlay_span env (ShiftDown evt) s1
                  = StartQPPlay_span env (ShiftDown evt) s0) by reflexivity.
  split.
  - intros Hstart.
    pose proof (StartQPPlay_calls env (ShiftDown evt) (ControlDown evt)
                  looped_self s1 Hstart) as Hcalls.
    cbv zeta in Hcalls. rewrite Hspan in Hcalls.
    do 2 eexists. split.
    + destruct (PR.Active (mOldPlayRegion s)); exact Hcalls.
    + intros ->. unfold StartQPPlay.
      replace (playRegion s1) with (playRegion s0) by reflexivity.
      rewrite Hstart, Hspan.
      destruct (StartQPPlay_span env (ShiftDown evt) s0) as [a b].
      split; reflexivity.
  - intros Hunset. unfold StartQPPlay.
    replace (playRegion s1) with (playRegion s0) by reflexivity.
    rewrite Hunset.
    destruct (PR.Active (mOldPlayRegion s)); reflexivity.
Qed.

Lemma HandleQPRelease_standing_plays_once_witness :
  exists options mode,
    calls (HandleQPRelease sample_env (plain_release 700) true sample_range)
    = [ProjectAudioManager_Stop;
       ProjectAudioManager_PlayPlayRegion 6 6 options mode].
Proof.
  destruct (proj1 (HandleQPRelease_standing_plays_once sample_env
                     (plain_release 700) true sample_range eq_refl) eq_refl)
    as (options & mode & Hcalls & _).
  exists options, mode. exact Hcalls.
Defined.

(** ** More on starting playback *)

(** X12.  In every playback that [StartQPPlay] starts, exactly one of two
    things is done to the options: in cut-preview mode the envelope is taken
    away and no starting time is given; in every other mode the envelope
    stays and the starting time is the start the play region had before the
    call (for a looped point that is the point, not the start of the span
    that is played). *)
Theorem StartQPPlay_options (env : Env) (looped cutPreview looped_self : bool)
    (s : State) :
  (0 <=? PR.GetStart (playRegion s))%float = true ->
  exists start end_ options mode,
    calls (StartQPPlay env looped cutPreview looped_self s)
    = calls s
      ++ [ProjectAudioManager_Stop;
          ProjectAudioManager_PlayPlayRegion start end_ options mode]
    /\ (mode = cutPreviewPlay ->
        envelope options = false /\ pStartTime options = None)
    /\ (mode <> cutPreviewPlay ->
        envelope options = true
        /\ pStartTime options = Some (PR.GetStart (playRegion s))).
Proof.
  intros Hstart.
  pose proof (StartQPPlay_calls env looped cutPreview looped_self s Hstart)
    as Hcalls.
  cbv zeta in Hcalls.
  do 4 eexists. split; [exact Hcalls |].
  destruct (StartQPPlay_loopEnabled _ _ && looped_self), cutPreview; cbn;
    split; intros H; try discriminate; try contradiction;
    try (split; reflexivity).
Qed.

Lemma StartQPPlay_options_witness :
  exists start end_ options mode,
    calls (StartQPPlay sample_env true false true sample_point_in_selection)
    = [ProjectAudioManager_Stop;
       ProjectAudioManager_PlayPlayRegion start end_ options mode]
    /\ (mode <> cutPreviewPlay -> pStartTime options = Some 3%float).
Proof.
  destruct (StartQPPlay_options sample_env true false true
              sample_point_in_selection eq_refl)
    as (start & end_ & options & mode & Hcalls & _ & Hstart).
  exists start, end_, options, mode. split; [exact Hcalls |].
  intros Hmode. exact (proj2 (Hstart Hmode)).
Defined.

(** X13.  [StartQPPlay] changes nothing but the bounds of the play region
    and the call log.  A region whose start is below zero (cleared) starts
    nothing and leaves the state as it is.  When playback starts, the play
    region shows the span that is played; without looping requested, or with
    a region that is not empty, that span is the region's own, so the
    region is left as it was. *)
Theorem StartQPPlay_shows_span (env : Env) (looped cutPreview looped_self : bool)
    (s : State) :
  let s' := StartQPPlay env looped cutPreview looped_self s in
  transport_frame s s'
  /\ ((0 <=? PR.GetStart (playRegion s))%float = false -> s' = s)
  /\ ((0 <=? PR.GetStart (playRegion s))%float = true ->
      (mStart (playRegion s'), mEnd (playRegion s'))
      = StartQPPlay_span env looped s
      /\ (PR.Empty (playRegion s) && looped = false ->
          playRegion s' = playRegion s)).
Proof.
  cbv zeta. split; [apply StartQPPlay_frame | split].
  - intros Hunset. unfold StartQPPlay. rewrite Hunset. reflexivity.
  - intros Hstart.
    assert (Hspan : (mStart (playRegion
                               (StartQPPlay env looped cutPreview
                                  looped_self s)),
                     mEnd (playRegion
                             (StartQPPlay env looped cutPreview
                                looped_self s)))
                    = StartQPPlay_span env looped s).
    { unfold StartQPPlay. rewrite Hstart.
      destruct (StartQPPlay_span env looped s) as [a b]. reflexivity. }
    split; [exact Hspan |].
    intros Hown.
    pose proof (StartQPPlay_frame env looped cutPreview looped_self s)
      as Hframe.
    unfold transport_frame in Hframe.
    assert (Hact : mActive (playRegion
                              (StartQPPlay env looped cutPreview
                                 looped_self s))
                   = mActive (playRegion s)) by tauto.
    unfold StartQPPlay_span in Hspan. rewrite Hown in Hspan.
    unfold PR.GetStart, PR.GetEnd in Hspan.
    destruct (playRegion (StartQPPlay env looped cutPreview looped_self s))
      as [a b act].
    destruct (playRegion s) as [a0 b0 act0].
    cbn in *. congruence.
Qed.

Lemma StartQPPlay_shows_span_witness :
  StartQPPlay sample_env true true true
    (ClearPlayRegion sample_env sample_idle)
  = ClearPlayRegion sample_env sample_idle
  /\ playRegion (StartQPPlay sample_env false false true sample_idle)
     = playRegion sample_idle.
Proof.
  split.
  - apply (proj1 (proj2 (StartQPPlay_shows_span sample_env true true true
                           (ClearPlayRegion sample_env sample_idle)))).
    reflexivity.
  - apply (proj2 (proj2 (StartQPPlay_shows_span sample_env false false true
                           sample_idle)) eq_refl).
    reflexivity.
Defined.

(** ** Whole gestures on the quick-play handle *)

Lemma HandleQPClick_live (env : Env) (evt : wxMouseEvent) (x : int)
    (s : State) :
  live (mMouseEventState (HandleQPClick env evt x s)).
Proof.
  unfold HandleQPClick.
  repeat match goal with
         | |- context [if ?b then _ else _] => destruct b
         end; cbn; discriminate.
Qed.

Lemma HandleQPDrag_live (env : Env) (x : int) (s : State) :
  live (mMouseEventState s) ->
  live (mMouseEventState (HandleQPDrag env x s)).
Proof.
  intros Hlive.
  destruct (mMouseEventState s) eqn:Hstate;
    try (exfalso; apply Hlive; reflexivity);
    drag_cases Hstate; cbn; rewrite ?Hstate; discriminate.
Qed.

Lemma mMouseEventState_UpdateQuickPlayPos (env : Env) (x : int)
    (shiftDown qpClicked : bool) (s : State) :
  mMouseEventState (snd (UpdateQuickPlayPos env x shiftDown qpClicked s))
  = mMouseEventState s.
Proof.
  unfold UpdateQuickPlayPos, HandleSnapping.
  destruct ((match LastCell env with Some QPCell => true | _ => false end
             || qpClicked) && negb shiftDown); reflexivity.
Qed.

Lemma QPHandle_Drag_live (env : Env) (evt : wxMouseEvent) (h : QPHandle)
    (s : State) :
  live (mMouseEventState s) ->
  live (mMouseEventState (snd (QPHandle_Drag env evt h s))).
Proof.
  intros Hlive. unfold QPHandle_Drag, CommonRulerHandle_Drag.
  cbn [Cancelled RefreshCode_DrawOverlays negb].
  destruct (is_left (mClicked (common h))); [| exact Hlive].
  destruct (mParent (common h)); [| exact Hlive].
  pose proof (mMouseEventState_UpdateQuickPlayPos env (m_x evt)
                (ShiftDown evt) (Clicked (common h)) s) as Hupdate.
  destruct (UpdateQuickPlayPos env (m_x evt) (ShiftDown evt)
              (Clicked (common h)) s) as [x s1].
  cbn [snd] in *. apply HandleQPDrag_live. rewrite Hupdate. exact Hlive.
Qed.

Lemma QPHandle_Drags_live (env : Env) (evts : list wxMouseEvent) :
  forall (h : QPHandle) (s : State),
    live (mMouseEventState s) ->
    live (mMouseEventState (snd (QPHandle_Drags env evts h s))).
Proof.
  induction evts as [| evt evts IH]; intros h s Hlive; cbn [QPHandle_Drags].
  - exact Hlive.
  - pose proof (QPHandle_Drag_live env evt h s Hlive) as Hstep.
    destruct (QPHandle_Drag env evt h s) as [[result h1] s1].
    apply IH. exact Hstep.
Qed.

(** X14.  From a left click on the quick-play handle (the panel alive)
    through any number of drags the session is live, so every
    [SetPlayRegion] and every [DoSelectionChange] that arrives from outside
    in between is dropped: it leaves the state exactly as it is. *)
Theorem QPHandle_gesture_blocks_outside (env : Env) (evt : wxMouseEvent)
    (evts : list wxMouseEvent) (h : QPHandle) (s : State) :
  LeftIsDown evt = true ->
  mParent (common h) = true ->
  let '(_, h1, s1) := QPHandle_Click env evt h s in
  let s2 := snd (QPHandle_Drags env evts h1 s1) in
  live (mMouseEventState s2)
  /\ (forall a b, SetPlayRegion a b s2 = s2)
  /\ (forall sel, DoSelectionChange sel s2 = s2).
Proof.
  intros Hleft Hparent.
  assert (Hclick : live (mMouseEventState
                           (snd (QPHandle_Click env evt h s)))).
  { unfold QPHandle_Click, CommonRulerHandle_Click. rewrite Hleft.
    cbn [Cancelled RefreshCode_DrawOverlays negb is_left mClicked common
         mParent mX].
    rewrite Hparent. cbn [negb snd].
    apply HandleQPDrag_live, HandleQPClick_live. }
  destruct (QPHandle_Click env evt h s) as [[result h1] s1].
  cbn [snd] in Hclick. cbv zeta.
  pose proof (QPHandle_Drags_live env evts h1 s1 Hclick) as Hlive.
  split; [exact Hlive | split].
  - intros a b. apply SetPlayRegion_live. exact Hlive.
  - intros sel. apply DoSelectionChange_live. exact Hlive.
Qed.

Lemma QPHandle_gesture_blocks_outside_witness :
  SetPlayRegion 8 9
    (snd (QPHandle_Drags sample_env [left_drag 650; left_drag 700]
            (snd (fst (QPHandle_Click sample_env (left_down 600)
                         (mkQPHandle (mkHandle true 600 Button_None)
                            (mkSelectedRegion 0 0))
                         sample_active)))
            (snd (QPHandle_Click sample_env (left_down 600)
                    (mkQPHandle (mkHandle true 600 Button_None)
                       (mkSelectedRegion 0 0))
                    sample_active))))
  = snd (QPHandle_Drags sample_env [left_drag 650; left_drag 700]
           (snd (fst (QPHandle_Click sample_env (left_down 600)
                        (mkQPHandle (mkHandle true 600 Button_None)
                           (mkSelectedRegion 0 0))
                        sample_active)))
           (snd (QPHandle_Click sample_env (left_down 600)
                   (mkQPHandle (mkHandle true 600 Button_None)
                      (mkSelectedRegion 0 0))
                   sample_active))).
Proof.
  pose proof (QPHandle_gesture_blocks_outside sample_env (left_down 600)
                [left_drag 650; left_drag 700]
                (mkQPHandle (mkHandle true 600 Button_None)
                   (mkSelectedRegion 0 0))
                sample_active eq_refl eq_refl) as H.
  destruct (QPHandle_Click sample_env (left_down 600) _ sample_active)
    as [[result h1] s1].
  cbv zeta in H. destruct H as (_ & H & _).
  apply H.
Defined.

(** X15.  A gesture with the right button never touches the state: after a
    click that is not a left-button click, the click itself, every drag and
    a cancel leave play region, selection, session and call log as they
    were, and the release shows the context menu (the panel alive) and
    changes nothing either. *)
Theorem QPHandle_right_button_inert (env : Env) (evt : wxMouseEvent)
    (evts : list wxMouseEvent) (evtUp : wxMouseEvent) (looped_self : bool)
    (h : QPHandle) (s : State) :
  LeftIsDown evt = false ->
  let '(_, h1, s1) := QPHandle_Click env evt h s in
  let '(h2, s2) := QPHandle_Drags env evts h1 s1 in
  s1 = s /\ s2 = s
  /\ snd (QPHandle_Cancel h2 s2) = s
  /\ (mParent (common h) = true ->
      exists result,
        QPHandle_Release env evtUp looped_self h2 s2
        = Some (result, true, h2, s)).
Proof.
  intros Hright. unfold QPHandle_Click, CommonRulerHandle_Click.
  rewrite Hright.
  cbn [Cancelled RefreshCode_DrawOverlays negb is_left mClicked common].
  set (h1 := mkQPHandle _ _).
  assert (Hdrags : forall evts h',
             mClicked (common h') = Button_Right ->
             mParent (common h') = mParent (common h) ->
             QPHandle_Drags env evts h' s = (h', s)).
  { clear evts. induction evts as [| e evts IH]; intros h' Hclk Hpar;
      cbn [QPHandle_Drags]; [reflexivity |].
    unfold QPHandle_Drag, CommonRulerHandle_Drag.
    cbn [Cancelled RefreshCode_DrawOverlays negb]. rewrite Hclk.
    cbn [is_left]. apply IH; assumption. }
  rewrite (Hdrags evts h1) by reflexivity.
  split; [reflexivity | split; [reflexivity | split]].
  - unfold QPHandle_Cancel. reflexivity.
  - intros Hparent. unfold QPHandle_Release, CommonRulerHandle_Release.
    subst h1. cbn [common mParent mClicked is_left]. rewrite Hparent.
    cbn. eexists. reflexivity.
Qed.

Lemma QPHandle_right_button_inert_witness :
  snd (QPHandle_Click sample_env (plain_release 600)
         (mkQPHandle (mkHandle true 600 Button_None) (mkSelectedRegion 0 0))
         sample_active)
  = sample_active.
Proof.
  pose proof (QPHandle_right_button_inert sample_env (plain_release 600)
                [] (plain_release 600) true
                (mkQPHandle (mkHandle true 600 Button_None)
                   (mkSelectedRegion 0 0))
                sample_active eq_refl) as H.
  destruct (QPHandle_Click sample_env (plain_release 600) _ sample_active)
    as [[result h1] s1].
  cbn [QPHandle_Drags] in H. destruct H as (H & _).
  exact H.
Defined.

(** X16.  A whole gesture that ends with the button going up (left click,
    any drags, release, the panel alive) leaves the session idle with the
    snapshot equal to the play region, and never changes whether the play
    region is active.  A region that was active at the click comes out of
    the gesture exactly as it went in. *)
Theorem QPHandle_released_gesture_ends (env : Env) (evt : wxMouseEvent)
    (evts : list wxMouseEvent) (evtUp : wxMouseEvent) (looped_self : bool)
    (h : QPHandle) (s : State) :
  LeftIsDown evt = true ->
  mParent (common h) = true ->
  exists s',
    QPHandle_released_gesture env evt evts evtUp looped_self h s = Some s'
    /\ mMouseEventState s' = mesNone
    /\ mOldPlayRegion s' = playRegion s'
    /\ mActive (playRegion s') = mActive (playRegion s)
    /\ (PR.Active (playRegion s) = true -> playRegion s' = playRegion s).
Proof.
  intros Hleft Hparent. unfold QPHandle_released_gesture.
  pose proof (QPHandle_Click_snapshots env evt h s Hleft Hparent) as Hclick.
  destruct (QPHandle_Click env evt h s) as [[result1 h1] s1].
  destruct Hclick as (_ & Hclk1 & Hpar1 & Hold1 & Hact1).
  pose proof (QPHandle_Drags_keep env evts h1 s1) as Hdrags.
  destruct (QPHandle_Drags env evts h1 s1) as [h2 s2].
  destruct Hdrags as ([Hold2 Hact2] & _ & Hclk2 & Hpar2).
  unfold QPHandle_Release, CommonRulerHandle_Release.
  rewrite Hclk2, Hclk1, Hpar2, Hpar1.
  cbn [negb is_left Cancelled RefreshCode_DrawOverlays].
  eexists. split; [reflexivity |].
  pose proof (HandleQPRelease_fields env evtUp looped_self s2)
    as (Hstate & _).
  pose proof (HandleQPRelease_unfold env evtUp looped_self s2) as Heq.
  cbv zeta in Heq.
  assert (Hsnap : mOldPlayRegion s2 = playRegion s) by congruence.
  cbn [mMouseEventState mOldPlayRegion playRegion set_mOldPlayRegion].
  split; [exact Hstate | split; [reflexivity |]].
  rewrite Heq, Hsnap. unfold PR.Active.
  destruct (mActive (playRegion s)) eqn:Eactive.
  - cbn. split; [reflexivity |]. intros _.
    destruct (playRegion s) as [a b act]. cbn in *. congruence.
  - split; [| discriminate].
    pose proof (HandleQPRelease_validate_frame env evtUp s2) as Hv.
    pose proof (StartQPPlay_frame env (ShiftDown evtUp) (ControlDown evtUp)
                  looped_self
                  (set_mLeftDownClick minus_one
                     (set_mIsDragging false
                        (set_mMouseEventState mesNone
                           (HandleQPRelease_validate env evtUp s2)))))
      as Hp.
    unfold transport_frame in Hv, Hp.
    repeat match goal with H : _ /\ _ |- _ => destruct H end.
    cbn in *. rewrite Hact2 in *. rewrite (Hact1 eq_refl) in *. congruence.
Qed.

Lemma QPHandle_released_gesture_ends_witness :
  exists s',
    QPHandle_released_gesture sample_env (left_down 600)
      [left_drag 650; left_drag 700] (plain_release 700) true
      (mkQPHandle (mkHandle true 600 Button_None) (mkSelectedRegion 0 0))
      sample_active
    = Some s'
    /\ playRegion s' = mkPlayRegion 1 4 true.
Proof.
  destruct (QPHandle_released_gesture_ends sample_env (left_down 600)
              [left_drag 650; left_drag 700] (plain_release 700) true
              (mkQPHandle (mkHandle true 600 Button_None)
                 (mkSelectedRegion 0 0))
              sample_active eq_refl eq_refl)
    as (s' & Hrun & _ & _ & _ & Hsame).
  exists s'. split; [exact Hrun |]. apply Hsame. reflexivity.
Defined.

(** ** The redraw protocol of the overlays *)

(** X17.  The dirty-rectangle protocol settles: once an overlay has been
    queried with [DoGetRectangle] and drawn with [Draw], a second
    [DoGetRectangle] under the same circumstances asks for no redraw.  This
    holds for the ruler overlay and for the guideline. *)
Theorem DoGetRectangle_settles_after_Draw (env : Env) (s : State)
    (height : int) (cells : option (list (wxRect * bool)))
    (o : ScrubbingRulerOverlay.t) (g : TrackPanelGuidelineOverlay.t) :
  (let o1 := snd (ScrubbingRulerOverlay.DoGetRectangle env s o) in
   let o2 := fst (ScrubbingRulerOverlay.Draw o1) in
   snd (fst (ScrubbingRulerOverlay.DoGetRectangle env s o2)) = false)
  /\ (let g1 := snd (TrackPanelGuidelineOverlay.DoGetRectangle env s height g) in
      let g2 := fst (TrackPanelGuidelineOverlay.Draw cells g1) in
      snd (fst (TrackPanelGuidelineOverlay.DoGetRectangle env s height g2))
      = false).
Proof.
  split.
  - cbv zeta.
    assert (Hquery : forall o0,
               snd (ScrubbingRulerOverlay.DoGetRectangle env s o0)
               = ScrubbingRulerOverlay.Update env s o0).
    { intros o0. unfold ScrubbingRulerOverlay.DoGetRectangle.
      destruct (0 <=? _); reflexivity. }
    rewrite Hquery.
    assert (Hdraw : forall o0,
               fst (ScrubbingRulerOverlay.Draw o0)
               = ScrubbingRulerOverlay.mk
                   (ScrubbingRulerOverlay.mNewQPIndicatorPos o0)
                   (ScrubbingRulerOverlay.mNewScrub o0)
                   (ScrubbingRulerOverlay.mNewSeek o0)
                   (ScrubbingRulerOverlay.mNewQPIndicatorPos o0)
                   (ScrubbingRulerOverlay.mNewScrub o0)
                   (ScrubbingRulerOverlay.mNewSeek o0)).
    { intros o0. unfold ScrubbingRulerOverlay.Draw. cbn.
      destruct (0 <=? _); reflexivity. }
    rewrite Hdraw.
    unfold ScrubbingRulerOverlay.DoGetRectangle,
      ScrubbingRulerOverlay.Update.
    destruct ((match LastCell env with None => true | _ => false end
               || IsAudioActive env)
              && negb (IsScrubbing (scrubber env)
                       && negb (IsSpeedPlaying (scrubber env))
                       && negb (IsKeyboardScrubbing (scrubber env)))).
    + reflexivity.
    + destruct (_ <=? mQuickPlayPos s)%float.
      * reflexivity.
      * cbn. destruct (0 <=? Time2Pos env (mQuickPlayPos s)) eqn:Epos; cbn.
        -- rewrite Z.eqb_refl, !Bool.eqb_reflx. reflexivity.
        -- reflexivity.
  - cbv zeta. unfold TrackPanelGuidelineOverlay.DoGetRectangle,
      TrackPanelGuidelineOverlay.Draw, TrackPanelGuidelineOverlay.Update.
    cbn.
    destruct (0 <=? ScrubbingRulerOverlay.mNewQPIndicatorPos
                      (TrackPanelGuidelineOverlay.mPartner g));
      [destruct cells |]; cbn;
      rewrite Z.eqb_refl, !Bool.eqb_reflx; reflexivity.
Qed.

(** X18.  The seek shape never appears without the scrub shape.  The
    property holds of a fresh overlay and is kept by [Update],
    [DoGetRectangle] and [Draw]; so whenever [Draw] asks for a seek
    indicator, it asks for it as a scrub indicator too and with the big
    width. *)
Theorem seek_implies_scrub_kept (env : Env) (s : State)
    (o : ScrubbingRulerOverlay.t) :
  seek_implies_scrub ScrubbingRulerOverlay.init
  /\ (seek_implies_scrub o ->
      seek_implies_scrub (ScrubbingRulerOverlay.Update env s o)
      /\ seek_implies_scrub
           (snd (ScrubbingRulerOverlay.DoGetRectangle env s o))
      /\ seek_implies_scrub (fst (ScrubbingRulerOverlay.Draw o))
      /\ forall xx width scrub,
           snd (ScrubbingRulerOverlay.Draw o) = Some (xx, width, scrub, true) ->
           scrub = true /\ width = IndicatorBigWidth).
Proof.
  split.
  - split; discriminate.
  - intros [Hnew Hold].
    assert (Hupdate : seek_implies_scrub
                        (ScrubbingRulerOverlay.Update env s o)).
    { unfold ScrubbingRulerOverlay.Update.
      repeat match goal with
             | |- context [if ?b then _ else _] => destruct b
             end; split; cbn; try assumption.
      intros H. apply andb_prop in H. tauto. }
    split; [exact Hupdate | split; [| split]].
    + unfold ScrubbingRulerOverlay.DoGetRectangle.
      destruct (0 <=? _); exact Hupdate.
    + unfold ScrubbingRulerOverlay.Draw. cbn.
      destruct (0 <=? _); split; cbn; assumption.
    + intros xx width scrub. unfold ScrubbingRulerOverlay.Draw. cbn.
      destruct (0 <=? _); [| discriminate].
      intros H. injection H as _ Hwidth Hscrub Hseek.
      rewrite (Hnew Hseek) in Hscrub, Hwidth. split; congruence.
Qed.

Lemma seek_implies_scrub_kept_witness :
  seek_implies_scrub
    (ScrubbingRulerOverlay.Update sample_env sample_idle
       ScrubbingRulerOverlay.init).
Proof.
  apply (proj2 (seek_implies_scrub_kept sample_env sample_idle
                  ScrubbingRulerOverlay.init)).
  apply (proj1 (seek_implies_scrub_kept sample_env sample_idle
                  ScrubbingRulerOverlay.init)).
Defined.

(** Removes the 32-bit reductions whose argument is seen to be in range. *)
Ltac unwrap_int :=
  unfold int_sub, int_add, int_mul, int_div in *;
  repeat match goal with
         | |- context [wrap_int ?z] =>
             rewrite (wrap_int_id z) by (unfold in_int; lia)
         end.

Lemma DoGetRectangle_rect (env : Env) (s : State)
    (o : ScrubbingRulerOverlay.t) :
  0 <= ScrubbingRulerOverlay.mOldQPIndicatorPos o ->
  half_range (ScrubbingRulerOverlay.mOldQPIndicatorPos o) ->
  fst (fst (ScrubbingRulerOverlay.DoGetRectangle env s o))
  = mkRect (ScrubbingRulerOverlay.mOldQPIndicatorPos o - 12) 0 25
      (RulerHeight env).
Proof.
  intros Hpos Hrange. unfold ScrubbingRulerOverlay.DoGetRectangle.
  assert (Hold : ScrubbingRulerOverlay.mOldQPIndicatorPos
                   (ScrubbingRulerOverlay.Update env s o)
                 = ScrubbingRulerOverlay.mOldQPIndicatorPos o).
  { unfold ScrubbingRulerOverlay.Update.
    repeat match goal with
           | |- context [if ?b then _ else _] => destruct b
           end; reflexivity. }
  rewrite Hold.
  destruct (Z.leb_spec 0 (ScrubbingRulerOverlay.mOldQPIndicatorPos o));
    [| lia].
  cbn [fst].
  change (int_div (int_div (int_mul IndicatorBigWidth 3) 2) 2) with 12.
  change (int_add (int_mul 12 2) 1) with 25.
  unfold half_range in Hrange. unwrap_int. reflexivity.
Qed.

(** X19.  The rectangle that the ruler overlay reports covers, from left to
    right, everything the overlay has painted: after [Draw] with its
    [DoDrawScrubIndicator], every corner of every polygon lies between the
    left and the right column of the rectangle of the next
    [DoGetRectangle], for each shape (scrub, seek) and each width. *)
Theorem DoGetRectangle_covers_painting (showing : bool) (g : RulerRects)
    (env : Env) (s : State) (o : ScrubbingRulerOverlay.t) :
  half_range (ScrubbingRulerOverlay.mNewQPIndicatorPos o) ->
  let '(o1, polygons) := ScrubbingRulerOverlay_paint showing g o in
  let rect := fst (fst (ScrubbingRulerOverlay.DoGetRectangle env s o1)) in
  forall polygon p,
    In polygon polygons -> In p polygon -> within_columns rect p.
Proof.
  intros Hrange. unfold ScrubbingRulerOverlay_paint,
    ScrubbingRulerOverlay.Draw.
  cbn [ScrubbingRulerOverlay.mOldQPIndicatorPos
       ScrubbingRulerOverlay.mOldScrub ScrubbingRulerOverlay.mOldSeek].
  destruct (Z.leb_spec 0 (ScrubbingRulerOverlay.mNewQPIndicatorPos o))
    as [Hpos | Hneg].
  - cbv zeta. intros polygon p Hpolygon Hp.
    rewrite DoGetRectangle_rect in * by assumption.
    cbn [ScrubbingRulerOverlay.mOldQPIndicatorPos].
    set (x := ScrubbingRulerOverlay.mNewQPIndicatorPos o) in *.
    unfold half_range in Hrange.
    unfold within_columns, GetLeft, GetRight. cbn [rect_x rect_width].
    unfold DoDrawScrubIndicator in Hpolygon.
    destruct (ScrubbingRulerOverlay.mNewScrub o),
      (ScrubbingRulerOverlay.mNewSeek o);
      cbv zeta in Hpolygon;
      cbn [In fst snd] in Hpolygon;
      repeat match goal with
             | H : _ \/ _ |- _ => destruct H
             | H : False |- _ => contradiction
             end;
      subst polygon; cbn [In] in Hp;
      repeat match goal with
             | H : _ \/ _ |- _ => destruct H
             | H : False |- _ => contradiction
             end;
      subst p; cbn [fst snd];
      repeat match goal with
             | |- context [IndicatorOffset] =>
                 change IndicatorOffset with 1
             | |- context [int_div (int_mul IndicatorBigWidth 3) 8] =>
                 change (int_div (int_mul IndicatorBigWidth 3) 8) with 6
             | |- context [int_div (int_mul IndicatorSmallWidth 3) 8] =>
                 change (int_div (int_mul IndicatorSmallWidth 3) 8) with 3
             | |- context [int_div IndicatorBigWidth 2] =>
                 change (int_div IndicatorBigWidth 2) with 8
             | |- context [int_div IndicatorSmallWidth 2] =>
                 change (int_div IndicatorSmallWidth 2) with 4
             end;
      unwrap_int; lia.
  - cbv zeta. intros polygon p [].
Qed.

Lemma DoGetRectangle_covers_painting_witness :
  within_columns
    (fst (fst (ScrubbingRulerOverlay.DoGetRectangle sample_env sample_idle
                 (fst (ScrubbingRulerOverlay_paint true sample_rects
                         (ScrubbingRulerOverlay.mk 300 true true 0 false
                            false))))))
    (288, 6).
Proof.
  assert (Hrange : half_range 300)
    by (vm_compute; split; [discriminate | reflexivity]).
  pose proof (DoGetRectangle_covers_painting true sample_rects sample_env
                sample_idle
                (ScrubbingRulerOverlay.mk 300 true true 0 false false)
                Hrange) as H.
  remember (ScrubbingRulerOverlay_paint true sample_rects
              (ScrubbingRulerOverlay.mk 300 true true 0 false false))
    as painted eqn:E.
  destruct painted as [o1 polygons].
  vm_compute in E. injection E as Eo Ep. subst o1 polygons.
  apply (H [(293, 0); (293, 12); (288, 6)] (288, 6)).
  - right. left. reflexivity.
  - right. right. left. reflexivity.
Defined.

(** ** Sizes and rectangles *)

(** X20.  [IndicatorWidthForHeight] is, as its comment says, not an exact
    inverse of [IndicatorHeightForWidth] but a good one: it never gives less
    than [IndicatorSmallWidth], and for heights from 8 up the height that
    belongs to the width it gives is the height asked for or one less. *)
Theorem IndicatorWidthForHeight_inverse (height : int) :
  0 <= height < 2 ^ 29 ->
  IndicatorSmallWidth <= IndicatorWidthForHeight height
  /\ (8 <= height ->
      height - 1
      <= IndicatorHeightForWidth (IndicatorWidthForHeight height)
      <= height).
Proof.
  intros Hrange.
  assert (Hwidth : 8 <= height ->
                   IndicatorWidthForHeight height = height * 2 / 3 * 2).
  { intros Hbig. unfold IndicatorWidthForHeight, max_int, IndicatorSmallWidth.
    unfold int_mul, int_div.
    rewrite (wrap_int_id (height * 2)) by (unfold in_int; lia).
    rewrite Z.quot_div_nonneg by lia.
    assert (Hq : 0 <= height * 2 / 3 <= height)
      by (split; [apply Z.div_pos; lia
                 | apply Z.div_le_upper_bound; lia]).
    assert (Hq5 : 5 <= height * 2 / 3)
      by (apply Z.div_le_lower_bound; lia).
    rewrite (wrap_int_id (height * 2 / 3)) by (unfold in_int; lia).
    rewrite (wrap_int_id (height * 2 / 3 * 2)) by (unfold in_int; lia).
    destruct (Z.ltb_spec 9 (height * 2 / 3 * 2)); lia. }
  split.
  - unfold IndicatorWidthForHeight, max_int, IndicatorSmallWidth.
    destruct (Z.ltb_spec 9 (int_mul (int_div (int_mul height 2) 3) 2)); lia.
  - intros Hbig. rewrite (Hwidth Hbig).
    unfold IndicatorHeightForWidth, int_mul, int_div.
    assert (Hq : 5 <= height * 2 / 3 <= height)
      by (split; [apply Z.div_le_lower_bound; lia
                 | apply Z.div_le_upper_bound; lia]).
    rewrite (Z.quot_div_nonneg (height * 2 / 3 * 2) 2) by lia.
    rewrite Z.div_mul by lia.
    rewrite (wrap_int_id (height * 2 / 3)) by (unfold in_int; lia).
    rewrite (wrap_int_id (height * 2 / 3 * 3)) by (unfold in_int; lia).
    rewrite Z.quot_div_nonneg by lia.
    assert (Hh : 0 <= height * 2 / 3 * 3 / 2 <= height).
    { split; [apply Z.div_pos; lia |].
      apply Z.div_le_upper_bound; [lia |].
      pose proof (Z.mul_div_le (height * 2) 3). lia. }
    rewrite wrap_int_id by (unfold in_int; lia).
    split; [| lia].
    apply Z.div_le_lower_bound; [lia |].
    pose proof (Z.mod_pos_bound (height * 2) 3).
    pose proof (Z.div_mod (height * 2) 3). lia.
Qed.

Lemma IndicatorWidthForHeight_inverse_witness :
  IndicatorHeightForWidth (IndicatorWidthForHeight 13) <= 13
  /\ 12 <= IndicatorHeightForWidth (IndicatorWidthForHeight 13).
Proof.
  assert (Hrange : 0 <= 13 < 2 ^ 29)
    by (split; [discriminate | reflexivity]).
  assert (Hbig : 8 <= 13) by discriminate.
  pose proof (proj2 (IndicatorWidthForHeight_inverse 13 Hrange) Hbig)
    as [Hlow Hhigh].
  split; assumption.
Defined.

Lemma wxRect_eqb_eq (a b : wxRect) : wxRect_eqb a b = true <-> a = b.
Proof.
  unfold wxRect_eqb. split.
  - intros H. destruct a, b. cbn in H.
    repeat match goal with
           | H : _ && _ = true |- _ => apply andb_prop in H; destruct H
           | H : (_ =? _) = true |- _ => apply Z.eqb_eq in H
           end.
    subst. reflexivity.
  - intros ->. rewrite !Z.eqb_refl. reflexivity.
Qed.

(** The rectangles that [UpdateRects] works out from the outer one. *)
Lemma UpdateRects_result (showing : bool) (g : RulerRects) :
  let inner0 :=
    mkRect (int_add (rect_x (mOuter g)) LeftMargin) (rect_y (mOuter g))
      (int_sub (rect_width (mOuter g)) (int_add LeftMargin RightMargin))
      (rect_height (mOuter g)) in
  let qpHeight :=
    int_sub (rect_height inner0) (min_int (rect_height inner0) ScrubHeight) in
  let g' := snd (UpdateRects showing g) in
  mOuter g' = mOuter g
  /\ (showing = true ->
      mInner g'
      = mkRect (rect_x inner0) (int_add (rect_y inner0) TopMargin)
          (rect_width inner0) (int_sub qpHeight TopMargin)
      /\ mScrubZone g'
         = mkRect (rect_x inner0) (int_add (rect_y inner0) qpHeight)
             (rect_width inner0)
             (int_sub
                (int_sub (int_add (rect_height inner0) BottomMargin) qpHeight)
                BottomMargin))
  /\ (showing = false ->
      mInner g'
      = mkRect (rect_x inner0) (int_add (rect_y inner0) TopMargin)
          (rect_width inner0)
          (int_sub (int_sub (rect_height inner0) TopMargin) BottomMargin)
      /\ mScrubZone g' = mInner g').
Proof.
  cbv zeta. unfold UpdateRects.
  destruct showing; cbv zeta;
    cbn [rect_x rect_y rect_width rect_height];
    match goal with
    | |- context [if wxRect_eqb ?a ?b && wxRect_eqb ?c ?d then _ else _] =>
        destruct (wxRect_eqb a b) eqn:Ea;
        [destruct (wxRect_eqb c d) eqn:Ec |]
    end;
    cbn [andb snd mOuter mInner mScrubZone];
    try (apply wxRect_eqb_eq in Ea);
    try (apply wxRect_eqb_eq in Ec);
    (split; [reflexivity |]);
    (split; intros Hshow; try discriminate);
    split; congruence.
Qed.

(** X21.  With the scrub ruler showing and the panel at least [ScrubHeight]
    high, [UpdateRects] lays the quick-play zone directly above the scrub
    zone: both keep a margin of one pixel left and right, the scrub zone is
    [ScrubHeight] high and ends on the last row of the panel, the quick-play
    zone starts one row below the top and ends on the row before the scrub
    zone.  Without the scrub ruler the two rectangles are the same one. *)
Theorem UpdateRects_layout (showing : bool) (g : RulerRects) :
  half_range (rect_x (mOuter g)) ->
  half_range (rect_y (mOuter g)) ->
  0 <= rect_width (mOuter g) < 2 ^ 30 ->
  ScrubHeight <= rect_height (mOuter g) < 2 ^ 30 ->
  let g' := snd (UpdateRects showing g) in
  (showing = true ->
   GetLeft (mInner g') = GetLeft (mOuter g) + 1
   /\ GetLeft (mScrubZone g') = GetLeft (mOuter g) + 1
   /\ rect_width (mInner g') = rect_width (mOuter g) - 2
   /\ rect_width (mScrubZone g') = rect_width (mOuter g) - 2
   /\ GetTop (mInner g') = GetTop (mOuter g) + 1
   /\ GetBottom (mInner g') + 1 = GetTop (mScrubZone g')
   /\ rect_height (mScrubZone g') = ScrubHeight
   /\ GetBottom (mScrubZone g') = GetBottom (mOuter g))
  /\ (showing = false ->
      mScrubZone g' = mInner g'
      /\ mInner g'
         = mkRect (rect_x (mOuter g) + 1) (rect_y (mOuter g) + 1)
             (rect_width (mOuter g) - 2) (rect_height (mOuter g) - 3)).
Proof.
  intros Hx Hy Hw Hh. cbv zeta.
  pose proof (UpdateRects_result showing g) as Hres. cbv zeta in Hres.
  destruct Hres as (_ & Hshown & Hhidden).
  unfold half_range, ScrubHeight in *.
  split; intros Hshow.
  - destruct (Hshown Hshow) as [-> ->].
    unfold GetLeft, GetTop, GetBottom, min_int, ScrubHeight, LeftMargin,
      RightMargin, TopMargin, BottomMargin.
    cbn [rect_x rect_y rect_width rect_height].
    destruct (Z.ltb_spec 14 (rect_height (mOuter g)));
      unwrap_int; repeat split; lia.
  - destruct (Hhidden Hshow) as [Hinner Hzone].
    split; [exact Hzone |]. rewrite Hinner.
    unfold LeftMargin, RightMargin, TopMargin, BottomMargin.
    cbn [rect_x rect_y rect_width rect_height].
    unwrap_int. f_equal; lia.
Qed.

Lemma UpdateRects_layout_witness :
  mInner (snd (UpdateRects true sample_rects)) = mkRect 1 1 798 28
  /\ GetBottom (mInner (snd (UpdateRects true sample_rects))) + 1
     = GetTop (mScrubZone (snd (UpdateRects true sample_rects))).
Proof.
  split; [reflexivity |].
  assert (Hx : half_range (rect_x (mOuter sample_rects)))
    by (vm_compute; split; [discriminate | reflexivity]).
  assert (Hy : half_range (rect_y (mOuter sample_rects)))
    by (vm_compute; split; [discriminate | reflexivity]).
  assert (Hw : 0 <= rect_width (mOuter sample_rects) < 2 ^ 30)
    by (vm_compute; split; [discriminate | reflexivity]).
  assert (Hh : ScrubHeight <= rect_height (mOuter sample_rects) < 2 ^ 30)
    by (vm_compute; split; [discriminate | reflexivity]).
  destruct (proj1 (UpdateRects_layout true sample_rects Hx Hy Hw Hh) eq_refl)
    as (_ & _ & _ & _ & _ & Hadjacent & _).
  exact Hadjacent.
Defined.

(** [UpdateRects] compares a pair of rectangles that depends on the outer
    rectangle only. *)
Lemma UpdateRects_shape (showing : bool) (outer : wxRect) :
  exists inner zone,
    forall mi mz,
      UpdateRects showing (mkRects outer mi mz)
      = if wxRect_eqb inner mi && wxRect_eqb zone mz
        then (false, mkRects outer mi mz)
        else (true, mkRects outer inner zone).
Proof.
  destruct showing; do 2 eexists; intros mi mz; unfold UpdateRects;
    cbn [mOuter mInner mScrubZone]; reflexivity.
Qed.

Lemma wxRect_eqb_refl (a : wxRect) : wxRect_eqb a a = true.
Proof. apply wxRect_eqb_eq. reflexivity. Qed.

(** X22.  [UpdateRects] reports a change exactly when it stores a
    rectangle that differs from the stored one, and right after an update a
    second one reports no change and stores nothing new. *)
Theorem UpdateRects_second_call (showing : bool) (g : RulerRects) :
  (fst (UpdateRects showing g) = false -> snd (UpdateRects showing g) = g)
  /\ (fst (UpdateRects showing g) = true -> snd (UpdateRects showing g) <> g)
  /\ UpdateRects showing (snd (UpdateRects showing g))
     = (false, snd (UpdateRects showing g)).
Proof.
  destruct g as [outer mi mz].
  destruct (UpdateRects_shape showing outer) as (inner & zone & Hshape).
  rewrite (Hshape mi mz).
  destruct (wxRect_eqb inner mi) eqn:Ea;
    [destruct (wxRect_eqb zone mz) eqn:Ec |]; cbn [andb fst snd].
  - split; [reflexivity | split; [discriminate |]].
    rewrite Hshape, Ea, Ec. reflexivity.
  - split; [discriminate | split].
    + intros _ Heq. injection Heq as _ Hz.
      rewrite Hz, wxRect_eqb_refl in Ec. discriminate.
    + rewrite Hshape, !wxRect_eqb_refl. reflexivity.
  - split; [discriminate | split].
    + intros _ Heq. injection Heq as Hi _.
      rewrite Hi, wxRect_eqb_refl in Ea. discriminate.
    + rewrite Hshape, !wxRect_eqb_refl. reflexivity.
Qed.

Lemma UpdateRects_second_call_witness :
  fst (UpdateRects true sample_rects) = true
  /\ snd (UpdateRects true sample_rects) <> sample_rects.
Proof.
  split; [reflexivity |].
  apply (proj1 (proj2 (UpdateRects_second_call true sample_rects))).
  reflexivity.
Defined.

(** ** The handle of the pinned play head *)

Lemma ltb_leb (a b : double) :
  (a <? b)%float = true -> (a <=? b)%float = true.
Proof.
  rewrite ltb_spec, leb_spec. unfold SFltb, SFleb.
  destruct (SFcompare (Prim2SF a) (Prim2SF b)) as [[ | | ] | ];
    simpl; congruence.
Qed.

(** X23.  [GetPlayHeadFraction] always answers with a fraction between 0
    and 1, for every mouse position and every usable width: positions left
    of the tracks give 0, positions right of them give 1, and a width of
    zero, where the division yields an infinity or no number at all, still
    gives 0 or 1. *)
Theorem GetPlayHeadFraction_bounds (env : Env) (xx : int) :
  (0 <=? GetPlayHeadFraction env xx)%float = true
  /\ (GetPlayHeadFraction env xx <=? 1)%float = true.
Proof.
  unfold GetPlayHeadFraction, max_double, min_double.
  set (fraction := (double_of_int _ / double_of_int _)%float).
  destruct (fraction <? 1)%float eqn:Eone.
  - destruct (0 <? fraction)%float eqn:Ezero.
    + split; apply ltb_leb; assumption.
    + split; reflexivity.
  - split; reflexivity.
Qed.

(** X24.  Dragging the pinned play head and cancelling puts the preference
    back: after a click that starts a drag (left button down, no double
    click), any number of drags and a cancel, the pinned-head position is the
    one read at the click.  A release instead leaves the fraction of the
    release position, flushed.  A double click sets 0.5 and starts no drag;
    a click without the left button starts none and writes nothing. *)
Theorem PlayheadHandle_cancel_restores (env : Env) (evt : wxMouseEvent)
    (evts : list wxMouseEvent) (evtUp : wxMouseEvent) (h : PlayheadHandle)
    (p : TracksPrefs) :
  (LeftIsDown evt = true ->
   let '(result, h1, p1) := PlayheadHandle_Click evt false h p in
   let '(h2, p2) := PlayheadHandle_Drags env evts h1 p1 in
   Cancelled result = false
   /\ PinnedHeadPositionPreference (snd (PlayheadHandle_Cancel h2 p2))
      = PinnedHeadPositionPreference p
   /\ snd (PlayheadHandle_Release env evtUp h2 p2)
      = mkPrefs (GetPlayHeadFraction env (m_x evtUp)) true)
  /\ (let '(result, _, p1) := PlayheadHandle_Click evt true h p in
      Cancelled result = true /\ p1 = mkPrefs 0.5 true)
  /\ (LeftIsDown evt = false ->
      let '(result, _, p1) := PlayheadHandle_Click evt false h p in
      Cancelled result = true /\ p1 = p).
Proof.
  split; [| split].
  - intros Hleft. unfold PlayheadHandle_Click. rewrite Hleft. cbn [negb].
    assert (Hdrags : forall evts h0 p0,
               mOrigPreference (fst (PlayheadHandle_Drags env evts h0 p0))
               = mOrigPreference h0).
    { clear. intros evts. induction evts as [| e evts IH]; intros h0 p0;
        cbn [PlayheadHandle_Drags]; [reflexivity |].
      unfold PlayheadHandle_Drag. apply IH. }
    specialize (Hdrags evts
                  (mkPlayheadHandle (playhead_mX h)
                     (PinnedHeadPositionPreference p)) p).
    destruct (PlayheadHandle_Drags env evts _ p) as [h2 p2].
    cbn [fst mOrigPreference] in Hdrags.
    split; [reflexivity | split].
    + unfold PlayheadHandle_Cancel. cbn. exact Hdrags.
    + reflexivity.
  - unfold PlayheadHandle_Click. split; reflexivity.
  - intros Hup. unfold PlayheadHandle_Click. rewrite Hup. split; reflexivity.
Qed.

Lemma PlayheadHandle_cancel_restores_witness :
  PinnedHeadPositionPreference
    (snd (PlayheadHandle_Cancel
            (fst (PlayheadHandle_Drags sample_env
                    [left_drag 250; left_drag 900]
                    (mkPlayheadHandle 500 0.5) (mkPrefs 0.5 false)))
            (snd (PlayheadHandle_Drags sample_env
                    [left_drag 250; left_drag 900]
                    (mkPlayheadHandle 500 0.5) (mkPrefs 0.5 false)))))
  = 0.5%float.
Proof.
  pose proof (proj1 (PlayheadHandle_cancel_restores sample_env (left_down 500)
                       [left_drag 250; left_drag 900] (plain_release 900)
                       (mkPlayheadHandle 500 0) (mkPrefs 0.5 false))
                eq_refl) as H.
  vm_compute in H. vm_compute.
  exact (proj1 (proj2 H)).
Defined.

(** ** The scrub handle and its cell *)

(** X25.  A whole gesture on the scrub handle asks the scrubber for a mark
    at most once, and only at the click: with the left button down,
    scrubbing permitted and no mark present the log gains one
    [MarkScrubStart]; in every other case, and through all drags and the
    release, nothing is asked of scrubber or transport. *)
Theorem ScrubbingHandle_gesture_marks_at_most_once (env : Env)
    (evt : wxMouseEvent) (drags : nat) (h : CommonRulerHandle) (s : State) :
  let permitted :=
    LeftIsDown evt && CanScrub (scrubber env) && mParent h
    && ShowingScrubRuler env && negb (HasMark (scrubber env)) in
  ScrubbingHandle_gesture env evt drags h s
  = if permitted
    then call (Scrubber_MarkScrubStart (m_x evt)
                 (ShouldScrubPinned (scrubber env)) false) s
    else s.
Proof.
  cbv zeta.
  assert (Hdrags : forall n (h0 : CommonRulerHandle) (s0 : State),
             snd (Nat.iter n
                    (fun hs : CommonRulerHandle * State =>
                       let '(_, h, s) :=
                         ScrubbingHandle_Drag (fst hs) (snd hs) in (h, s))
                    (h0, s0))
             = s0).
  { induction n as [| n IH]; intros h0 s0; [reflexivity |].
    rewrite Nat.iter_succ. unfold ScrubbingHandle_Drag at 1.
    cbn [fst snd]. apply IH. }
  unfold ScrubbingHandle_gesture, ScrubbingHandle_Click,
    CommonRulerHandle_Click, ScrubbingHandle_Release,
    CommonRulerHandle_Release.
  cbn [Cancelled RefreshCode_DrawOverlays negb mClicked mParent mX].
  destruct (LeftIsDown evt); cbn [is_left andb].
  - destruct (CanScrub (scrubber env) && mParent h && ShowingScrubRuler env);
      cbn [negb andb Cancelled RefreshCode_Cancelled]; [| reflexivity].
    destruct (HasMark (scrubber env)); cbn [negb Cancelled];
      match goal with
      | |- context [Nat.iter drags ?f (?h0, ?s0)] =>
          specialize (Hdrags drags h0 s0);
          destruct (Nat.iter drags f (h0, s0)) as [h2 s2]
      end; cbn in Hdrags; subst s2; reflexivity.
  - match goal with
    | |- context [Nat.iter drags ?f (?h0, ?s0)] =>
        specialize (Hdrags drags h0 s0);
        destruct (Nat.iter drags f (h0, s0)) as [h2 s2]
    end; cbn in Hdrags; subst s2; reflexivity.
Qed.

(** X26.  Cancelling on the scrub handle: after a left click the scrubber is
    told to cancel and then the transport to stop, in that order; after any
    other click, or none, nothing is asked of either.  Session state and
    selection are never touched, and an active play region keeps its
    bounds. *)
Theorem ScrubbingHandle_Cancel_calls (env : Env) (h : CommonRulerHandle)
    (s : State) :
  let s' := snd (ScrubbingHandle_Cancel env h s) in
  (mClicked h = Button_Left ->
   calls s' = calls s ++ [Scrubber_Cancel; ProjectAudioManager_Stop])
  /\ (mClicked h <> Button_Left -> s' = s)
  /\ transport_frame s s'
  /\ (PR.Active (playRegion s) = true -> playRegion s' = playRegion s).
Proof.
  cbv zeta. unfold ScrubbingHandle_Cancel.
  split; [| split; [| split]].
  - intros ->. cbn [is_left snd]. rewrite calls_Stop. cbn [calls call].
    rewrite <- app_assoc. reflexivity.
  - intros Hother. destruct (mClicked h); try contradiction; reflexivity.
  - destruct (is_left (mClicked h)); cbn [snd];
      [| apply transport_frame_refl].
    apply (transport_frame_trans s (call Scrubber_Cancel s));
      [repeat split | apply Stop_frame].
  - intros Hactive. destruct (is_left (mClicked h)); cbn [snd];
      [| reflexivity].
    unfold Stop, OnAudioStartStop_playback, DoSelectionChange.
    cbn [negb playRegion call]. rewrite Hactive. cbn [negb].
    destruct (StopDeliversPlaybackEvent env); reflexivity.
Qed.

Lemma ScrubbingHandle_Cancel_calls_witness :
  calls (snd (ScrubbingHandle_Cancel sample_env
                (mkHandle true 120 Button_Left) sample_idle))
  = [Scrubber_Cancel; ProjectAudioManager_Stop].
Proof.
  apply (proj1 (ScrubbingHandle_Cancel_calls sample_env
                  (mkHandle true 120 Button_Left) sample_idle)).
  reflexivity.
Defined.

Lemma UpdateQuickPlayPos_mousePosX (env : Env) (mousePosX : int)
    (shiftDown qpClicked : bool) (s : State) :
  1 <= GetTracksUsableWidth env ->
  half_range (GetTracksUsableWidth env) ->
  half_range (GetLeftOffset env) ->
  let r := UpdateQuickPlayPos env mousePosX shiftDown qpClicked s in
  fst r = Z.min (Z.max mousePosX (GetLeftOffset env))
            (GetLeftOffset env + GetTracksUsableWidth env - 1)
  /\ mQuickPlayPosUnsnapped (snd r) = Pos2Time env (fst r).
Proof.
  intros Hwidth Hw Hl. cbv zeta.
  unfold UpdateQuickPlayPos, HandleSnapping.
  assert (Hright : int_sub (int_add (GetLeftOffset env)
                              (GetTracksUsableWidth env)) 1
                   = GetLeftOffset env + GetTracksUsableWidth env - 1).
  { unfold half_range in *. unwrap_int. reflexivity. }
  rewrite Hright.
  destruct ((match LastCell env with Some QPCell => true | _ => false end
             || qpClicked) && negb shiftDown);
    cbn [fst snd mQuickPlayPosUnsnapped set_mQuickPlayPos
         set_mQuickPlayPosUnsnapped set_mIsSnapped mQuickPlayPos];
    unfold min_int, max_int;
    destruct (Z.ltb_spec mousePosX (GetLeftOffset env));
    match goal with
    | |- context [if ?a <? ?b then _ else _] => destruct (Z.ltb_spec a b)
    end;
    split; try reflexivity; lia.
Qed.

(** X27.  While recording, the hit test of the scrub cell yields no handle
    and leaves the quick-play position alone.  Otherwise it yields exactly
    one handle, not clicked, whose position is the mouse position clamped
    into the usable track area: the mouse position itself when that lies
    between the left offset and the last usable column, the left offset when
    the mouse is left of it, and the last usable column when the mouse is
    right of it; the unsnapped quick-play time is the time of that
    position. *)
Theorem ScrubbingCell_HitTest_handles (env : Env) (mIsRecording qpClicked : bool)
    (state_m_x : int) (shiftDown : bool) (s : State) :
  (mIsRecording = true ->
   ScrubbingCell_HitTest env mIsRecording qpClicked state_m_x shiftDown s
   = ([], s))
  /\ (mIsRecording = false ->
      1 <= GetTracksUsableWidth env ->
      half_range (GetTracksUsableWidth env) ->
      half_range (GetLeftOffset env) ->
      let left := GetLeftOffset env in
      let right := GetLeftOffset env + GetTracksUsableWidth env - 1 in
      exists xx,
        fst (ScrubbingCell_HitTest env mIsRecording qpClicked state_m_x
               shiftDown s)
        = [mkHandle true xx Button_None]
        /\ left <= xx <= right
        /\ (left <= state_m_x <= right -> xx = state_m_x)
        /\ (state_m_x < left -> xx = left)
        /\ (right < state_m_x -> xx = right)
        /\ mQuickPlayPosUnsnapped
             (snd (ScrubbingCell_HitTest env mIsRecording qpClicked state_m_x
                     shiftDown s))
           = Pos2Time env xx).
Proof.
  unfold ScrubbingCell_HitTest. split.
  - intros ->. reflexivity.
  - intros -> Hwidth Hw Hl. cbv zeta. cbn [negb].
    pose proof (UpdateQuickPlayPos_mousePosX env state_m_x shiftDown
                  qpClicked s Hwidth Hw Hl) as Hclamp.
    destruct (UpdateQuickPlayPos env state_m_x shiftDown qpClicked s)
      as [xx s1].
    cbn [fst snd] in *. destruct Hclamp as [Hxx Htime].
    exists xx. split; [reflexivity |].
    repeat split; try exact Htime; lia.
Qed.

Lemma ScrubbingCell_HitTest_handles_witness :
  ScrubbingCell_HitTest sample_env true false 5000 false sample_idle
  = ([], sample_idle)
  /\ fst (ScrubbingCell_HitTest sample_env false false 5000 false
            sample_idle)
     = [mkHandle true 999 Button_None]
  /\ fst (ScrubbingCell_HitTest sample_env false false 250 false
            sample_idle)
     = [mkHandle true 250 Button_None].
Proof.
  assert (Hwidth : 1 <= GetTracksUsableWidth sample_env)
    by (vm_compute; discriminate).
  assert (Hw : half_range (GetTracksUsableWidth sample_env))
    by (vm_compute; split; [discriminate | reflexivity]).
  assert (Hl : half_range (GetLeftOffset sample_env))
    by (vm_compute; split; [discriminate | reflexivity]).
  split; [| split].
  - apply (proj1 (ScrubbingCell_HitTest_handles sample_env true false 5000
                    false sample_idle)).
    reflexivity.
  - destruct (proj2 (ScrubbingCell_HitTest_handles sample_env false false 5000
                       false sample_idle) eq_refl Hwidth Hw Hl)
      as (xx & Hhandle & _ & _ & _ & Hright & _).
    rewrite Hhandle. rewrite Hright; [reflexivity | vm_compute; reflexivity].
  - destruct (proj2 (ScrubbingCell_HitTest_handles sample_env false false 250
                       false sample_idle) eq_refl Hwidth Hw Hl)
      as (xx & Hhandle & _ & Hinside & _).
    rewrite Hhandle. rewrite Hinside; [reflexivity |].
    vm_compute. split; discriminate.
Defined.

(** ** Following the selection, and clearing *)

(** X28.  An inactive play region follows the selection, an active one
    does not, and during a gesture neither does: [DoSelectionChange] sets
    the bounds of the play region to the selection's exactly when the region
    is inactive and the session idle, and otherwise changes nothing; in no
    case does it touch anything but those bounds.  [OnAudioStartStop] does
    the same with the current selection when playback has stopped, and
    nothing when it has started. *)
Theorem DoSelectionChange_follows (sel : SelectedRegion) (s : State) :
  (PR.Active (playRegion s) = false -> mMouseEventState s = mesNone ->
   playRegion (DoSelectionChange sel s)
   = mkPlayRegion (SR.t0 sel) (SR.t1 sel) false
   /\ playRegion (OnAudioStartStop_playback false s)
      = mkPlayRegion (SR.t0 (selectedRegion s)) (SR.t1 (selectedRegion s))
          false)
  /\ (PR.Active (playRegion s) = true \/ live (mMouseEventState s) ->
      DoSelectionChange sel s = s /\ OnAudioStartStop_playback false s = s)
  /\ OnAudioStartStop_playback true s = s
  /\ transport_frame s (DoSelectionChange sel s)
  /\ calls (DoSelectionChange sel s) = calls s.
Proof.
  split; [| split; [| split; [| split]]].
  - intros Hinactive Hidle.
    unfold OnAudioStartStop_playback, DoSelectionChange, SetPlayRegion.
    rewrite Hinactive, Hidle. cbn.
    unfold PR.SetTimes, PR.Active in *. rewrite Hinactive.
    split; reflexivity.
  - intros [Hactive | Hlive].
    + unfold OnAudioStartStop_playback, DoSelectionChange.
      rewrite Hactive. split; reflexivity.
    + unfold OnAudioStartStop_playback. cbn [negb].
      rewrite !DoSelectionChange_live by exact Hlive. split; reflexivity.
  - reflexivity.
  - apply DoSelectionChange_frame.
  - apply calls_DoSelectionChange.
Qed.

Lemma DoSelectionChange_follows_witness :
  playRegion (DoSelectionChange (mkSelectedRegion 5 8) sample_idle)
  = mkPlayRegion 5 8 false
  /\ DoSelectionChange (mkSelectedRegion 5 8) sample_live = sample_live
  /\ DoSelectionChange (mkSelectedRegion 5 8) sample_active = sample_active.
Proof.
  split; [| split].
  - apply (proj1 (DoSelectionChange_follows (mkSelectedRegion 5 8)
                    sample_idle)); reflexivity.
  - apply (proj1 (proj2 (DoSelectionChange_follows (mkSelectedRegion 5 8)
                           sample_live))).
    right. discriminate.
  - apply (proj1 (proj2 (DoSelectionChange_follows (mkSelectedRegion 5 8)
                           sample_active))).
    left. reflexivity.
Defined.

(** X29.  [ClearPlayRegion] is not held back by a live gesture: in every
    session state it stops the transport and leaves both bounds at -1,
    keeping the region's activity.  A region cleared so is empty, no mouse
    position is within marker tolerance of either bound, and [StartQPPlay]
    starts nothing on it. *)
Theorem ClearPlayRegion_unguarded (env : Env) (s : State) :
  let s' := ClearPlayRegion env s in
  playRegion s' = mkPlayRegion minus_one minus_one (mActive (playRegion s))
  /\ calls s' = calls s ++ [ProjectAudioManager_Stop]
  /\ PR.Empty (playRegion s') = true
  /\ (forall x,
        IsWithinMarker env x (PR.GetStart (playRegion s')) = false
        /\ IsWithinMarker env x (PR.GetEnd (playRegion s')) = false)
  /\ (forall looped cutPreview looped_self,
        StartQPPlay env looped cutPreview looped_self s' = s').
Proof.
  cbv zeta.
  assert (Hregion : playRegion (ClearPlayRegion env s)
                    = mkPlayRegion minus_one minus_one
                        (mActive (playRegion s))).
  { pose proof (Stop_frame env s) as Hframe. unfold transport_frame in Hframe.
    unfold ClearPlayRegion. cbn. unfold PR.SetTimes.
    f_equal. tauto. }
  split; [exact Hregion | split; [apply calls_ClearPlayRegion |]].
  rewrite Hregion. split; [reflexivity | split].
  - intros x. split; reflexivity.
  - intros looped cutPreview looped_self. unfold StartQPPlay.
    rewrite Hregion. reflexivity.
Qed.
